(** * Flight-extraction pipeline of [flight_search_automation.py]

    A shallow embedding of the [FlightScraper] class: the five field
    extractors, the mock catalogue, the selector loop of
    [_extract_flights_from_dom] and the fallback policy of [search_flights],
    followed by the properties of the pipeline; then the work of
    [_scrape_real_flights] on the open page and the endpoints of
    [flight_search_api.py] and [test_fastapi.py], which call
    [search_flights], with their properties.

    Python [str] values are sequences of Unicode code points; they are
    modelled as [list N].  Calls to the browser and to the clock are
    modelled in a state-and-exception monad over an abstract engine. *)

From Stdlib Require Import NArith String Ascii Lia.
From stdpp Require Import gmap list.

Set Default Proof Using "Type*".

(** ** Text *)

Abbreviation str := (list N).

(** An ASCII literal of the source, as code points. *)
Definition u (s : string) : str :=
  List.map N_of_ascii (list_ascii_of_string s).
Arguments u _%_string.

Definition in_range (lo hi c : N) : bool := ((lo <=? c) && (c <=? hi))%N.

(** [needle in hay] on Python strings. *)
Fixpoint starts_with (p s : str) : bool :=
  match p, s with
  | [], _ => true
  | _ :: _, [] => false
  | a :: p', b :: s' => (a =? b)%N && starts_with p' s'
  end.

Fixpoint str_in (needle hay : str) : bool :=
  starts_with needle hay ||
  match hay with
  | [] => false
  | _ :: hay' => str_in needle hay'
  end.

(** [str.lower()].  The mapping is applied code point by code point.  The
    Basic Latin letters and the two code points outside Basic Latin whose
    lowercase form contains a Basic Latin letter (U+0130 and U+212A) are
    listed, together with the Latin-1, Greek and Cyrillic capitals (capital
    sigma with its non-final form); every other entry of the Unicode table
    sends a code point outside Basic Latin to code points outside Basic Latin
    and is left as the identity here; such entries play no part in the search
    for a carrier name (lemma [_extract_airline_table_independent]). *)
Definition lower_cp (c : N) : str :=
  (if in_range 65 90 c then [c + 32]
   else if c =? 0x130 then [0x69; 0x307]
   else if c =? 0x212A then [0x6B]
   else if c =? 0x212B then [0xE5]
   else if in_range 0xC0 0xDE c && negb (c =? 0xD7) then [c + 32]
   else if in_range 0x391 0x3A9 c && negb (c =? 0x3A2) then [c + 32]
   else if in_range 0x400 0x40F c then [c + 80]
   else if in_range 0x410 0x42F c then [c + 32]
   else [c])%N.

Definition lower (s : str) : str := flat_map lower_cp s.

(** ** Character classes of the patterns *)

(** [[A-Z]]: the pattern is compiled without flags, so the range is the 26
    Basic Latin capitals. *)
Definition is_AZ (c : N) : bool := in_range 65 90 c.

(** [\d] on a [str] pattern: every code point of category Nd (Unicode 15).
    Each block below starts a run of ten digits; U+1D7CE..U+1D7FF holds the
    five runs of mathematical digits. *)
Definition nd_blocks : list N :=
  [ 0x30; 0x660; 0x6F0; 0x7C0; 0x966; 0x9E6; 0xA66; 0xAE6; 0xB66; 0xBE6;
    0xC66; 0xCE6; 0xD66; 0xDE6; 0xE50; 0xED0; 0xF20; 0x1040; 0x1090;
    0x17E0; 0x1810; 0x1946; 0x19D0; 0x1A80; 0x1A90; 0x1B50; 0x1BB0; 0x1C40;
    0x1C50; 0xA620; 0xA8D0; 0xA900; 0xA9D0; 0xA9F0; 0xAA50; 0xABF0; 0xFF10;
    0x104A0; 0x10D30; 0x11066; 0x110F0; 0x11136; 0x111D0; 0x112F0; 0x11450;
    0x114D0; 0x11650; 0x116C0; 0x11730; 0x118E0; 0x11950; 0x11C50; 0x11D50;
    0x11DA0; 0x11F50; 0x16A60; 0x16AC0; 0x16B50; 0x1E140; 0x1E2F0; 0x1E4F0;
    0x1E950; 0x1FBF0 ]%N.

Definition is_digit (c : N) : bool :=
  existsb (fun b => in_range b (b + 9) c) nd_blocks
  || in_range 0x1D7CE 0x1D7FF c.

(** [\s] on a [str] pattern: the code points for which [str.isspace] holds. *)
Definition is_space (c : N) : bool :=
  (in_range 0x09 0x0D c || in_range 0x1C 0x20 c || (c =? 0x85) || (c =? 0xA0)
   || (c =? 0x1680) || in_range 0x2000 0x200A c || (c =? 0x2028)
   || (c =? 0x2029) || (c =? 0x202F) || (c =? 0x205F) || (c =? 0x3000))%N.

Definition is_char (x : N) (c : N) : bool := (c =? x)%N.

Definition hyphen : N := 45.
Definition colon : N := 58.
Definition comma : N := 44.
Definition rupee : N := 0x20B9.

(** ** A backtracking matcher for the patterns of the extractors

    Every pattern of the source is a sequence of character classes, each
    under a greedy quantifier, some of them inside a capture group. *)

Record atom := Atom {
  cls : N -> bool;
  rmin : nat;
  rmax : option nat   (* [None]: unbounded *)
}.

Inductive item :=
| Plain (a : atom)
| Group (a : atom).

Definition item_atom (it : item) : atom :=
  match it with Plain a | Group a => a end.

Abbreviation regex := (list item).

(** Length of the longest run of [p] at the head of [s], capped by [limit]. *)
Fixpoint span (p : N -> bool) (limit : option nat) (s : str) : nat :=
  match limit, s with
  | Some 0, _ => 0
  | _, [] => 0
  | _, c :: s' =>
      if p c then S (span p (Nat.pred <$> limit) s') else 0
  end.

(** Greedy choice with backtracking: the repetition counts [n], [n-1], ...,
    [lo] are tried in that order. *)
Fixpoint greedy {X} (lo n : nat) (try : nat -> option X) : option X :=
  match try n with
  | Some x => Some x
  | None =>
      match n with
      | 0 => None
      | S n' => if lo <=? n' then greedy lo n' try else None
      end
  end.

(** [match_here r s]: a match of [r] anchored at the head of [s]; the result
    is the captured groups and the number of code points consumed. *)
Fixpoint match_here (r : regex) (s : str) : option (list str * nat) :=
  match r with
  | [] => Some ([], 0)
  | it :: r' =>
      let a := item_atom it in
      let n := span (cls a) (rmax a) s in
      if rmin a <=? n then
        greedy (rmin a) n (fun k =>
          match match_here r' (drop k s) with
          | Some (gs, m) =>
              Some (match it with
                    | Group _ => take k s :: gs
                    | Plain _ => gs
                    end, k + m)
          | None => None
          end)
      else None
  end.

(** [re.search]: the leftmost position at which the pattern matches. *)
Fixpoint search (r : regex) (s : str) : option (list str) :=
  match match_here r s with
  | Some (gs, _) => Some gs
  | None =>
      match s with
      | [] => None
      | _ :: s' => search r s'
      end
  end.

(** [re.findall]: the successive matches, scanning from left to right and
    resuming after the end of each match.  [skip] counts the code points
    still covered by the previous match. *)
Fixpoint findall_from (r : regex) (skip : nat) (s : str) : list (list str) :=
  match skip with
  | S k =>
      match s with
      | [] => []
      | _ :: s' => findall_from r k s'
      end
  | 0 =>
      match match_here r s with
      | Some (gs, n) =>
          gs :: match s with
                | [] => []
                | _ :: s' => findall_from r (Nat.pred n) s'
                end
      | None =>
          match s with
          | [] => []
          | _ :: s' => findall_from r 0 s'
          end
      end
  end.

Definition findall (r : regex) (s : str) : list (list str) :=
  findall_from r 0 s.

(** [match.group(i)], for [i >= 1]. *)
Definition group (i : nat) (gs : list str) : str := nth (Nat.pred i) gs [].

Definition one (p : N -> bool) : atom := Atom p 1 (Some 1).
Definition star (p : N -> bool) : atom := Atom p 0 None.
Definition plus (p : N -> bool) : atom := Atom p 1 None.
Definition opt (p : N -> bool) : atom := Atom p 0 (Some 1).
Definition rep (p : N -> bool) (lo hi : nat) : atom := Atom p lo (Some hi).

(** [([A-Z]{2})\s*[-]?\s*(\d{3,4})] *)
Definition flight_number_re : regex :=
  [ Group (rep is_AZ 2 2); Plain (star is_space); Plain (opt (is_char hyphen));
    Plain (star is_space); Group (rep is_digit 3 4) ].

(** [₹\s*([\d,]+)] *)
Definition price_re : regex :=
  [ Plain (one (is_char rupee)); Plain (star is_space);
    Group (plus (fun c => is_digit c || is_char comma c)) ].

(** [(\d{1,2}):(\d{2})] *)
Definition time_re : regex :=
  [ Group (rep is_digit 1 2); Plain (one (is_char colon));
    Group (rep is_digit 2 2) ].

(** ** Field extractors *)

Definition NA : str := u "N/A".

Definition airlines : list str :=
  [ u "IndiGo"; u "Air India"; u "SpiceJet"; u "GoAir"; u "Vistara";
    u "AirAsia" ].

Fixpoint first_airline (names : list str) (text : str) : str :=
  match names with
  | [] => NA
  | airline :: rest =>
      if str_in (lower airline) (lower text) then airline
      else first_airline rest text
  end.

Definition _extract_airline (text : str) : str := first_airline airlines text.

Definition _extract_flight_number (text : str) : str :=
  match search flight_number_re text with
  | Some gs => group 1 gs ++ u "-" ++ group 2 gs
  | None => NA
  end.

Definition _extract_price (text : str) : str :=
  match search price_re text with
  | Some gs => rupee :: group 1 gs
  | None => NA
  end.

Definition _extract_departure (text : str) : str :=
  match search time_re text with
  | Some gs => group 1 gs ++ u ":" ++ group 2 gs
  | None => NA
  end.

Definition _extract_arrival (text : str) : str :=
  let matches := findall time_re text in
  if 2 <=? length matches then
    let m := nth 1 matches [] in
    nth 0 m [] ++ u ":" ++ nth 1 m []
  else NA.

(** ** Flight records and the mock catalogue *)

(** The dictionaries built by the scraper all carry the same eight keys. *)
Record flight := Flight {
  airline : str;
  flight_number : str;
  departure : str;
  arrival : str;
  price : str;
  origin : str;
  destination : str;
  searchdatetime : str
}.

(** An entry of [MOCK_FLIGHTS]: the five keys of a template record. *)
Record template := Template {
  t_airline : str;
  t_flight_number : str;
  t_departure : str;
  t_arrival : str;
  t_price : str
}.

Definition rs (s : string) : str := rupee :: u s.
Arguments rs _%_string.

Definition bangalore_delhi : list template :=
  [ Template (u "IndiGo") (u "6E-123") (u "06:30") (u "09:10") (rs "5,450");
    Template (u "Air India") (u "AI-504") (u "07:15") (u "09:55") (rs "6,120");
    Template (u "SpiceJet") (u "SG-8256") (u "08:45") (u "11:25") (rs "4,890");
    Template (u "GoAir") (u "G8-456") (u "09:20") (u "12:00") (rs "5,100");
    Template (u "Vistara") (u "UK-834") (u "10:00") (u "12:40") (rs "7,200");
    Template (u "AirAsia") (u "I5-234") (u "12:15") (u "14:55") (rs "3,450");
    Template (u "IndiGo") (u "6E-567") (u "14:30") (u "17:10") (rs "5,890");
    Template (u "Air India") (u "AI-608") (u "16:00") (u "18:40") (rs "6,450");
    Template (u "SpiceJet") (u "SG-8890") (u "17:45") (u "20:25") (rs "5,200");
    Template (u "IndiGo") (u "6E-901") (u "19:15") (u "21:55") (rs "6,100") ].

Definition MOCK_FLIGHTS : gmap (str * str) (list template) :=
  {[ (u "Bangalore", u "Delhi") := bangalore_delhi ]}.

(** [{**flight, "origin": ..., "destination": ..., "searchdatetime": ...}] *)
Definition stamp (origin destination search_datetime : str) (t : template)
  : flight :=
  {| airline := t_airline t;
     flight_number := t_flight_number t;
     departure := t_departure t;
     arrival := t_arrival t;
     price := t_price t;
     origin := origin;
     destination := destination;
     searchdatetime := search_datetime |}.

(** The dictionary assembled for one element of the page. *)
Definition build_flight (origin destination search_datetime text : str)
  : flight :=
  {| airline := _extract_airline text;
     flight_number := _extract_flight_number text;
     departure := _extract_departure text;
     arrival := _extract_arrival text;
     price := _extract_price text;
     origin := origin;
     destination := destination;
     searchdatetime := search_datetime |}.

(** [flight["departure"] != "N/A" or flight["price"] != "N/A"] *)
Definition has_real_data (f : flight) : bool :=
  negb (bool_decide (departure f = NA)) || negb (bool_decide (price f = NA)).

(** ** Exceptions, the engine and the scraper object *)

(** An instance of [Exception], with the name of its class.  Interrupts
    and cancellation, which lie outside that class, are not modelled. *)
Inductive exn := Exn (name : string).

Inductive outcome (A : Type) :=
| Returned (a : A)
| Raised (e : exn).
Arguments Returned {A} a.
Arguments Raised {A} e.

(** A handle on an element of the page. *)
Abbreviation elem := nat.

(** The browser and the clock.  [W] is the state of the outside world; a
    call may change it and may raise. *)
Record Engine (W : Type) := {
  playwright_start : W -> outcome unit * W;
  chromium_launch : W -> outcome unit * W;
  new_page : W -> outcome unit * W;
  page_goto : str -> W -> outcome unit * W;
  locator_all : str -> W -> outcome (list elem) * W;
  elem_fill : elem -> str -> W -> outcome unit * W;
  elem_inner_text : elem -> W -> outcome str * W;
  elem_click : elem -> W -> outcome unit * W;
  page_close : W -> outcome unit * W;
  browser_close : W -> outcome unit * W;
  playwright_stop : W -> outcome unit * W;
  utcnow_isoformat : W -> str * W
}.
Arguments playwright_start {W}.
Arguments chromium_launch {W}.
Arguments new_page {W}.
Arguments page_goto {W}.
Arguments locator_all {W}.
Arguments elem_fill {W}.
Arguments elem_inner_text {W}.
Arguments elem_click {W}.
Arguments page_close {W}.
Arguments browser_close {W}.
Arguments playwright_stop {W}.
Arguments utcnow_isoformat {W}.

(** The calls made to the engine, in the order they are made. *)
Inductive call :=
| CStart | CLaunch | CNewPage
| CGoto (url : str)
| CLocatorAll (selector : str)
| CFill (e : elem) (value : str)
| CInnerText (e : elem)
| CClick (e : elem)
| CPageClose | CBrowserClose | CStop
| CUtcNow.

(** The attributes of a [FlightScraper].  [playwright] is not assigned by
    [__init__]: while it is [None] here, reading it raises
    [AttributeError].  [browser] and [page] are [false] while they hold
    Python's [None].  The attribute [flights] of the source is never read
    and is left out. *)
Record FlightScraper := Scraper {
  playwright : option unit;
  browser : bool;
  page : bool;
  use_mock : bool;
  scrape_success : bool
}.

(** [FlightScraper(use_mock)] *)
Definition __init__ (use_mock : bool) : FlightScraper :=
  Scraper None false false use_mock false.

(** The state threaded through a search: the world, the scraper object, the
    trace of engine calls, and the list [flights] that
    [_extract_flights_from_dom] fills in place. *)
Record state (W : Type) := State {
  world : W;
  self : FlightScraper;
  trace : list call;
  flights_var : list flight
}.
Arguments State {W}.
Arguments world {W}.
Arguments self {W}.
Arguments trace {W}.
Arguments flights_var {W}.

Definition M (W A : Type) : Type := state W -> outcome A * state W.

#[global] Instance M_ret {W} : MRet (M W) :=
  fun A a st => (Returned a, st).

#[global] Instance M_bind {W} : MBind (M W) :=
  fun A B f m st =>
    match m st with
    | (Returned a, st') => f a st'
    | (Raised e, st') => (Raised e, st')
    end.

Definition raise {W A} (e : exn) : M W A := fun st => (Raised e, st).

(** [try: body / except: handler] *)
Definition try_except {W A} (body : M W A) (handler : exn -> M W A) : M W A :=
  fun st =>
    match body st with
    | (Returned a, st') => (Returned a, st')
    | (Raised e, st') => handler e st'
    end.

(** [try: body / finally: final]: an exception of [final] replaces the
    outcome of [body]. *)
Definition try_finally {W A} (body : M W A) (final : M W unit) : M W A :=
  fun st =>
    match body st with
    | (r, st') =>
        match final st' with
        | (Returned _, st'') => (r, st'')
        | (Raised e, st'') => (Raised e, st'')
        end
    end.

Definition get_self {W} : M W FlightScraper := fun st => (Returned (self st), st).
Definition set_self {W} (f : FlightScraper -> FlightScraper) : M W unit :=
  fun st => (Returned tt, State (world st) (f (self st)) (trace st) (flights_var st)).
Definition get_flights {W} : M W (list flight) :=
  fun st => (Returned (flights_var st), st).
Definition set_flights {W} (fl : list flight) : M W unit :=
  fun st => (Returned tt, State (world st) (self st) (trace st) fl).

(** One call to the engine: it is recorded in the trace, and its effect on
    the world is kept whether it returns or raises. *)
Definition engine_call {W A} (c : call) (op : W -> outcome A * W) : M W A :=
  fun st =>
    let (r, w) := op (world st) in
    (r, State w (self st) (trace st ++ [c]) (flights_var st)).

Definition nonempty {A} (l : list A) : bool :=
  match l with [] => false | _ => true end.

(** The selectors queried by a trace, in order. *)
Definition queries (t : list call) : list str :=
  omap (fun c => match c with CLocatorAll s => Some s | _ => None end) t.

(** ** The methods of [FlightScraper] *)

Definition selectors : list str :=
  [ u "div[class*='flight']";
    u "div[class*='result']";
    u ".flight-card";
    u ".result-item";
    u "[data-testid*='flight']" ].

Definition dquote : N := 34.
Definition text_inputs : str := u "input[type=" ++ [dquote] ++ u "text" ++ [dquote] ++ u "]".
Definition date_inputs : str := u "input[type=" ++ [dquote] ++ u "date" ++ [dquote] ++ u "]".

Section Scraper.
Context {W : Type} (E : Engine W).

(** [datetime.utcnow().isoformat() + "Z"] *)
Definition utcnow : M W str :=
  engine_call CUtcNow
    (fun w => let (s, w') := utcnow_isoformat E w in (Returned (s ++ u "Z"), w')).

(** The value that [utcnow] returns in the world of [st]. *)
Definition timestamp_at (st : state W) : str :=
  (utcnow_isoformat E (world st)).1 ++ u "Z".

(** [asyncio.sleep]: the passing of time is not modelled. *)
Definition sleep : M W unit := mret tt.

Definition initialize : M W unit :=
  engine_call CStart (playwright_start E) ;;
  set_self (fun s => Scraper (Some tt) (browser s) (page s) (use_mock s) (scrape_success s)) ;;
  engine_call CLaunch (chromium_launch E) ;;
  set_self (fun s => Scraper (playwright s) true (page s) (use_mock s) (scrape_success s)) ;;
  engine_call CNewPage (new_page E) ;;
  set_self (fun s => Scraper (playwright s) (browser s) true (use_mock s) (scrape_success s)).

Definition close : M W unit :=
  s ← get_self;
  (if page s then engine_call CPageClose (page_close E) else mret tt) ;;
  (if browser s then engine_call CBrowserClose (browser_close E) else mret tt) ;;
  match playwright s with
  | None => raise (Exn "AttributeError")
  | Some _ => engine_call CStop (playwright_stop E)
  end.

(** [for elem in elements[:15]]: the body of the loop appends to the list
    [flights] in place. *)
Fixpoint for_elems (origin destination search_datetime : str)
    (elems : list elem) : M W unit :=
  match elems with
  | [] => mret tt
  | elem :: rest =>
      text ← engine_call (CInnerText elem) (elem_inner_text E elem);
      let flight := build_flight origin destination search_datetime text in
      (if has_real_data flight
       then (flights ← get_flights; set_flights (flights ++ [flight]))
       else mret tt) ;;
      for_elems origin destination search_datetime rest
  end.

(** The body of the [try] inside the selector loop: [Some flights] when it
    reaches [return flights], [None] when it falls through to the next
    selector. *)
Definition try_selector (origin destination search_datetime selector : str)
  : M W (option (list flight)) :=
  elements ← engine_call (CLocatorAll selector) (locator_all E selector);
  if nonempty elements then
    for_elems origin destination search_datetime (take 15 elements) ;;
    flights ← get_flights;
    if nonempty flights then mret (Some flights) else mret None
  else mret None.

(** One turn of the selector loop: the body of the [try], with its
    [except: continue]. *)
Definition selector_turn (origin destination search_datetime selector : str)
  : M W (option (list flight)) :=
  try_except (try_selector origin destination search_datetime selector)
             (fun _ => mret None).

(** [for selector in selectors: ...], then [return []]. *)
Fixpoint for_selectors (origin destination search_datetime : str)
    (sels : list str) : M W (list flight) :=
  match sels with
  | [] => mret []
  | selector :: rest =>
      r ← selector_turn origin destination search_datetime selector;
      match r with
      | Some flights => mret flights
      | None => for_selectors origin destination search_datetime rest
      end
  end.

Definition _extract_flights_from_dom (origin destination : str)
  : M W (list flight) :=
  set_flights [] ;;
  search_datetime ← utcnow;
  for_selectors origin destination search_datetime selectors.

Definition _get_mock_flights (origin destination : str) : M W (list flight) :=
  search_datetime ← utcnow;
  let key := (origin, destination) in
  let mock_data := default [] (MOCK_FLIGHTS !! key) in
  mret (stamp origin destination search_datetime <$> mock_data).

(** [for btn in buttons: ... break] *)
Fixpoint click_search (buttons : list elem) : M W unit :=
  match buttons with
  | [] => mret tt
  | btn :: rest =>
      text ← engine_call (CInnerText btn) (elem_inner_text E btn);
      if str_in (u "search") (lower text)
      then engine_call (CClick btn) (elem_click E btn)
      else click_search rest
  end.

Definition _scrape_real_flights (origin destination journey_date : str)
  : M W (list flight) :=
  try_finally
    (initialize ;;
     engine_call (CGoto (u "https://www.budgetticket.in"))
                 (page_goto E (u "https://www.budgetticket.in")) ;;
     sleep ;;
     inputs ← engine_call (CLocatorAll text_inputs) (locator_all E text_inputs);
     (if 1 <=? length inputs
      then engine_call (CFill (nth 0 inputs 0) origin)
                       (elem_fill E (nth 0 inputs 0) origin) ;; sleep
      else mret tt) ;;
     (if 2 <=? length inputs
      then engine_call (CFill (nth 1 inputs 0) destination)
                       (elem_fill E (nth 1 inputs 0) destination) ;; sleep
      else mret tt) ;;
     dates ← engine_call (CLocatorAll date_inputs) (locator_all E date_inputs);
     (if nonempty dates
      then engine_call (CFill (nth 0 dates 0) journey_date)
                       (elem_fill E (nth 0 dates 0) journey_date)
      else mret tt) ;;
     buttons ← engine_call (CLocatorAll (u "button")) (locator_all E (u "button"));
     click_search buttons ;;
     sleep ;;
     flights ← _extract_flights_from_dom origin destination;
     if nonempty flights && (0 <? length flights) then
       set_self (fun s => Scraper (playwright s) (browser s) (page s) (use_mock s) true) ;;
       mret flights
     else mret [])
    close.

Definition search_flights (origin destination journey_date : str)
  : M W (list flight) :=
  try_except
    (s ← get_self;
     r ← (if negb (use_mock s) then
            flights ← _scrape_real_flights origin destination journey_date;
            if nonempty flights then mret (Some flights) else mret None
          else mret None);
     match r with
     | Some flights => mret flights
     | None => _get_mock_flights origin destination
     end)
    (fun e => _get_mock_flights origin destination).

End Scraper.

(** ** The work on the open page *)

Section OnPage.
Context {W : Type} (E : Engine W).

(** The tail of the [try] block: the extraction and the raising of the
    flag. *)
Definition extract_and_flag (origin destination : str) : M W (list flight) :=
  flights ← _extract_flights_from_dom E origin destination;
  if nonempty flights && (0 <? length flights) then
    set_self (fun s => Scraper (playwright s) (browser s) (page s) (use_mock s) true) ;;
    mret flights
  else mret [].

(** The part of [_scrape_real_flights] that runs on the open page: all of
    the [try] block after [initialize]. *)
Definition on_page (origin destination journey_date : str) : M W (list flight) :=
  engine_call (CGoto (u "https://www.budgetticket.in"))
              (page_goto E (u "https://www.budgetticket.in")) ;;
  sleep ;;
  inputs ← engine_call (CLocatorAll text_inputs) (locator_all E text_inputs);
  (if 1 <=? length inputs
   then engine_call (CFill (nth 0 inputs 0) origin)
                    (elem_fill E (nth 0 inputs 0) origin) ;; sleep
   else mret tt) ;;
  (if 2 <=? length inputs
   then engine_call (CFill (nth 1 inputs 0) destination)
                    (elem_fill E (nth 1 inputs 0) destination) ;; sleep
   else mret tt) ;;
  dates ← engine_call (CLocatorAll date_inputs) (locator_all E date_inputs);
  (if nonempty dates
   then engine_call (CFill (nth 0 dates 0) journey_date)
                    (elem_fill E (nth 0 dates 0) journey_date)
   else mret tt) ;;
  buttons ← engine_call (CLocatorAll (u "button")) (locator_all E (u "button"));
  click_search E buttons ;;
  sleep ;;
  extract_and_flag origin destination.

(** The steps of [_scrape_real_flights] on the open page that come before
    the extraction: from the navigation to the wait for the results. *)
Definition page_steps (origin destination journey_date : str) : M W unit :=
  engine_call (CGoto (u "https://www.budgetticket.in"))
              (page_goto E (u "https://www.budgetticket.in")) ;;
  sleep ;;
  inputs ← engine_call (CLocatorAll text_inputs) (locator_all E text_inputs);
  (if 1 <=? length inputs
   then engine_call (CFill (nth 0 inputs 0) origin)
                    (elem_fill E (nth 0 inputs 0) origin) ;; sleep
   else mret tt) ;;
  (if 2 <=? length inputs
   then engine_call (CFill (nth 1 inputs 0) destination)
                    (elem_fill E (nth 1 inputs 0) destination) ;; sleep
   else mret tt) ;;
  dates ← engine_call (CLocatorAll date_inputs) (locator_all E date_inputs);
  (if nonempty dates
   then engine_call (CFill (nth 0 dates 0) journey_date)
                    (elem_fill E (nth 0 dates 0) journey_date)
   else mret tt) ;;
  buttons ← engine_call (CLocatorAll (u "button")) (locator_all E (u "button"));
  click_search E buttons ;;
  sleep.

(** The run of [search_flights] from [st] reaches the extraction in the
    state [st0]: the scraper is not in mock mode, and [initialize] and the
    steps on the page return, leaving [st0]. *)
Definition reaches_extraction (origin destination journey_date : str)
    (st st0 : state W) : Prop :=
  use_mock (self st) = false
  /\ (initialize E ;; page_steps origin destination journey_date) st = (Returned tt, st0).

End OnPage.

(** * The two HTTP wrappers *)

(** What an endpoint raises: [HTTPException], itself an [Exception], or an
    exception of the scraper. *)
Inductive raised :=
| HTTPException (status_code : nat) (detail : str)
| Unhandled (e : exn).

(** What an endpoint does: it answers with a list of flights, sent with
    status 200, or it raises. *)
Inductive reply :=
| Answer (flights : list flight)
| Raise (e : raised).

(** The status sent to the client. *)
Definition status_of (r : reply) : option nat :=
  match r with
  | Answer _ => Some 200
  | Raise (HTTPException status _) => Some status
  | Raise (Unhandled _) => None
  end.

(** [flight_search_api.py] *)
Module flight_search_api.
Section Endpoint.
Context {W : Type} (E : Engine W).
(** [str(e)], and the exception that [JSONResponse(content=flights)] raises
    while it encodes the list, if it raises one. *)
Context (exc_str : raised -> str) (render_error : list flight -> option exn).

(** The [try] block: a fresh scraper, the search, the 404 raised on an
    empty list, and the response object. *)
Definition flight_search_try (origin destination journey_date : str) (w : W)
  : (raised + list flight) * state W :=
  let scraper := State w (__init__ false) [] [] in
  match search_flights E origin destination journey_date scraper with
  | (Returned flights, st) =>
      if negb (nonempty flights)
      then (inl (HTTPException 404 (u "No flights found")), st)
      else match render_error flights with
           | Some e => (inl (Unhandled e), st)
           | None => (inr flights, st)
           end
  | (Raised e, st) => (inl (Unhandled e), st)
  end.

(** [except Exception as e: raise HTTPException(status_code=500, ...)]: the
    clause also catches the [HTTPException] of the [try] block. *)
Definition flight_search (origin destination journey_date : str) (w : W)
  : reply * state W :=
  match flight_search_try origin destination journey_date w with
  | (inr flights, st) => (Answer flights, st)
  | (inl e, st) =>
      (Raise (HTTPException 500 (u "Error during flight search: " ++ exc_str e)), st)
  end.

End Endpoint.
End flight_search_api.

(** [test_fastapi.py] *)
Module test_fastapi.
Section Endpoint.
Context {W : Type} (E : Engine W).
(** [str(e)], and whether [datetime.strptime(journey_date, "%Y-%m-%d")]
    returns rather than raises [ValueError]. *)
Context (exc_str : raised -> str) (strptime_ok : str -> bool).

Definition is_empty (s : str) : bool := negb (nonempty s).

(** The [try] block.  The scraper exists only once the parameters have
    passed validation. *)
Definition flight_search_try (origin destination journey_date : str) (w : W)
  : (raised + list flight) * option (state W) :=
  if is_empty origin || is_empty destination || is_empty journey_date then
    (inl (HTTPException 400
            (u "Missing required parameters: origin, destination, journey_date")),
     None)
  else if negb (strptime_ok journey_date) then
    (inl (HTTPException 400
            (u "Invalid date format. Use YYYY-MM-DD format (e.g., 2025-10-25)")),
     None)
  else
    let scraper := State w (__init__ false) [] [] in
    match search_flights E origin destination journey_date scraper with
    | (Returned flights, st) => (inr flights, Some st)
    | (Raised e, st) => (inl (Unhandled e), Some st)
    end.

(** [except HTTPException: raise], then
    [except Exception as e: raise HTTPException(status_code=500, ...)]. *)
Definition flight_search (origin destination journey_date : str) (w : W)
  : reply * option (state W) :=
  match flight_search_try origin destination journey_date w with
  | (inr flights, st) => (Answer flights, st)
  | (inl (HTTPException status detail), st) => (Raise (HTTPException status detail), st)
  | (inl (Unhandled e), st) =>
      (Raise (HTTPException 500 (u "Flight search failed: " ++ exc_str (Unhandled e))), st)
  end.

(** The endpoint [/test-flight-search] *)
Definition test_flight_search (w : W) : reply * option (state W) :=
  flight_search (u "Bangalore") (u "Delhi") (u "2025-10-25") w.

End Endpoint.
End test_fastapi.

(** * Notions used to state the properties *)

(** ** Matches of a pattern, occurrences of a time *)

(** What a pattern denotes, independently of the order in which the matcher
    explores repetition counts: [matches r s gs n] when the first [n] code
    points of [s] split into one admissible run per item of [r], the runs of
    the groups being [gs]. *)
Definition captured (it : item) (run : str) (gs : list str) : list str :=
  match it with
  | Group _ => run :: gs
  | Plain _ => gs
  end.

Definition within (k : nat) (a : atom) : Prop :=
  rmin a <= k /\ match rmax a with Some hi => k <= hi | None => True end.

Inductive matches : regex -> str -> list str -> nat -> Prop :=
| matches_nil s : matches [] s [] 0
| matches_cons it r s k gs n :
    within k (item_atom it) ->
    k <= length s ->
    Forall (fun c => cls (item_atom it) c = true) (take k s) ->
    matches r (drop k s) gs n ->
    matches (it :: r) s (captured it (take k s) gs) (k + n).

(** The H:MM or HH:MM occurrences of a text, as the specification words them:
    an occurrence is two digits (or else one digit), a colon and two digits;
    the text is read from left to right and reading resumes after the end of
    each occurrence. *)
Definition time_at (s : str) : option str :=
  match s with
  | h1 :: h2 :: c :: m1 :: m2 :: _ =>
      if is_digit h1 && is_digit h2 && is_char colon c && is_digit m1 && is_digit m2
      then Some [h1; h2; c; m1; m2]
      else if is_digit h1 && is_char colon h2 && is_digit c && is_digit m1
      then Some [h1; h2; c; m1]
      else None
  | [h; c; m1; m2] =>
      if is_digit h && is_char colon c && is_digit m1 && is_digit m2
      then Some [h; c; m1; m2]
      else None
  | _ => None
  end.

Fixpoint time_occurrences_from (skip : nat) (s : str) : list str :=
  match skip with
  | S k =>
      match s with
      | [] => []
      | _ :: s' => time_occurrences_from k s'
      end
  | 0 =>
      match time_at s with
      | Some o =>
          o :: match s with
               | [] => []
               | _ :: s' => time_occurrences_from (length o - 1) s'
               end
      | None =>
          match s with
          | [] => []
          | _ :: s' => time_occurrences_from 0 s'
          end
      end
  end.

Definition time_occurrences (s : str) : list str := time_occurrences_from 0 s.

(** The hour and minute groups of an occurrence. *)
Definition hour_minute (o : str) : list str :=
  [take (length o - 3) o; drop (length o - 2) o].

(** One or two digits, a colon, two digits: the only shape of a value that
    the time extractors return besides the sentinel.  No range is imposed on
    the hour or on the minute. *)
Definition digits_colon_digits (s : str) : bool :=
  match s with
  | [h; c; m1; m2] => is_digit h && is_char colon c && is_digit m1 && is_digit m2
  | [h1; h2; c; m1; m2] =>
      is_digit h1 && is_digit h2 && is_char colon c && is_digit m1 && is_digit m2
  | _ => false
  end.

(** A time of day in HH:MM form: two digits 00..23, a colon, two digits
    00..59. *)
Definition digit_value (c : N) : option N :=
  if in_range 48 57 c then Some (c - 48)%N else None.

Definition valid_hhmm (s : str) : bool :=
  match s with
  | [h1; h2; c; m1; m2] =>
      match digit_value h1, digit_value h2, digit_value m1, digit_value m2 with
      | Some a, Some b, Some x, Some y =>
          is_char colon c && (10 * a + b <=? 23)%N && (10 * x + y <=? 59)%N
      | _, _, _, _ => false
      end
  | _ => false
  end.

(** The run [run] at the head of [run ++ rest] cannot be extended. *)
Definition stops (p : N -> bool) (lim : option nat) (run rest : str) : Prop :=
  lim = Some (length run) \/ match rest with [] => True | c :: _ => p c = false end.

(** The code points [lo], [lo + 1], ..., [n] of them. *)
Fixpoint upto (lo : N) (n : nat) : list N :=
  match n with
  | 0 => []
  | S k => lo :: upto (N.succ lo) k
  end.

Definition spaces : list N :=
  upto 0x09 5 ++ upto 0x1C 5 ++ [0x85; 0xA0; 0x1680]%N ++ upto 0x2000 11
  ++ [0x2028; 0x2029; 0x202F; 0x205F; 0x3000]%N.

(** ** Case-insensitive occurrence *)

(** [name] occurs in [text] up to case: some substring of the text has the
    same lowercase form as the name. *)
Definition occurs_nocase (name text : str) : Prop :=
  exists pre mid post, text = pre ++ mid ++ post /\ lower mid = lower name.

(** Lowercase needles for which a match in [lower text] always lines up with
    whole code points of [text]: U+0130 lowers to the two code points
    [i; U+0307], so the needle must not hold U+0307 nor end in [i]. *)
Definition aligned_needle (n : str) : bool :=
  nonempty n && forallb (fun c => negb (c =? 0x307)%N) n
  && negb (bool_decide (last n = Some 0x69%N)).

(** The airline extractor with another lowercase table [tbl] in place of
    [lower_cp], and what Unicode's table shares with [lower_cp]: the entries
    of Basic Latin, of U+0130 and of U+212A, every other entry being a run,
    not empty, of code points outside Basic Latin. *)
Definition lower_with (tbl : N -> str) (s : str) : str := flat_map tbl s.

Fixpoint first_airline_with (tbl : N -> str) (names : list str) (text : str)
  : str :=
  match names with
  | [] => NA
  | airline :: rest =>
      if str_in (lower_with tbl airline) (lower_with tbl text) then airline
      else first_airline_with tbl rest text
  end.

Definition outside_basic_latin (b : str) : Prop :=
  b <> [] /\ Forall (fun x => (128 <= x)%N) b.

Definition like_unicode (tbl : N -> str) : Prop :=
  (forall c, (c < 128)%N -> tbl c = lower_cp c)
  /\ tbl 0x130%N = [0x69; 0x307]%N
  /\ tbl 0x212A%N = [0x6B]%N
  /\ (forall c, (128 <= c)%N -> c <> 0x130%N -> c <> 0x212A%N ->
        outside_basic_latin (tbl c)).

(** Two texts with the same Basic Latin code points in the same places, the
    runs between them being any runs outside Basic Latin. *)
Inductive same_skeleton : str -> str -> Prop :=
| skeleton_nil : same_skeleton [] []
| skeleton_cons a l1 l2 :
    (a < 128)%N -> same_skeleton l1 l2 -> same_skeleton (a :: l1) (a :: l2)
| skeleton_run b1 b2 l1 l2 :
    outside_basic_latin b1 -> outside_basic_latin b2 ->
    same_skeleton l1 l2 -> same_skeleton (b1 ++ l1) (b2 ++ l2).

Definition basic_latin (n : str) : bool := forallb (fun c => (c <? 128)%N) n.

(** ** Record assembly, as a function of the captured texts *)

(** The retention test only looks at the text of the element. *)
Definition real_data_text (text : str) : bool :=
  negb (bool_decide (_extract_departure text = NA))
  || negb (bool_decide (_extract_price text = NA)).

(** The records that the element loop appends for the texts [texts]. *)
Definition assemble (origin destination search_datetime : str)
    (texts : list str) : list flight :=
  build_flight origin destination search_datetime <$> filter (fun t => real_data_text t = true) texts.

(** A record with its timestamp blanked. *)
Definition without_timestamp (f : flight) : flight :=
  {| airline := airline f;
     flight_number := flight_number f;
     departure := departure f;
     arrival := arrival f;
     price := price f;
     origin := origin f;
     destination := destination f;
     searchdatetime := [] |}.

(** The retention invariant of a record. *)
Definition retained (f : flight) : Prop := departure f <> NA \/ price f <> NA.

(** The texts read from the elements [elems], one call after the other. *)
Fixpoint capture {W} (E : Engine W) (elems : list elem) (w : W)
  : outcome (list str) * W :=
  match elems with
  | [] => (Returned [], w)
  | e :: rest =>
      match elem_inner_text E e w with
      | (Returned t, w1) =>
          match capture E rest w1 with
          | (Returned ts, w2) => (Returned (t :: ts), w2)
          | (Raised x, w2) => (Raised x, w2)
          end
      | (Raised x, w1) => (Raised x, w1)
      end
  end.

(** An engine over a page that does not change: every call succeeds, apart
    from the queries and the text reads, which answer as [page] and
    [text_of] say. *)
Definition static_engine (page : str -> outcome (list elem))
    (text_of : elem -> outcome str) (now : str) : Engine unit :=
  {| playwright_start w := (Returned tt, w);
     chromium_launch w := (Returned tt, w);
     new_page w := (Returned tt, w);
     page_goto _ w := (Returned tt, w);
     locator_all s w := (page s, w);
     elem_fill _ _ w := (Returned tt, w);
     elem_inner_text e w := (text_of e, w);
     elem_click _ w := (Returned tt, w);
     page_close w := (Returned tt, w);
     browser_close w := (Returned tt, w);
     playwright_stop w := (Returned tt, w);
     utcnow_isoformat w := (now, w) |}.

Definition start_state (use_mock : bool) : state unit :=
  State tt (__init__ use_mock) [] [].

(** The texts of the elements that a selector yields, capped at 15. *)
Definition texts_of (page : str -> list elem) (text_of : elem -> str)
    (selector : str) : list str :=
  text_of <$> take 15 (page selector).

(** ** Three concrete pages *)

Definition sel_flight : str := u "div[class*='flight']".
Definition sel_result : str := u "div[class*='result']".

(** The first selector finds a banner with neither a time nor a fare; the
    second finds two listings, one of them without time or fare. *)
Definition banner_page (s : str) : list elem :=
  if bool_decide (s = sel_flight) then [0]
  else if bool_decide (s = sel_result) then [1; 2]
  else [].

Definition banner_text (e : elem) : str :=
  match e with
  | 0 => u "Flights to Delhi with IndiGo"
  | 1 => u "IndiGo AI 123 06:30 - 09:10 " ++ rs "5,450"
  | _ => u "Air India AI 504 (fare on request)"
  end.

Definition banner_engine : Engine unit :=
  static_engine (fun s => Returned (banner_page s))
                (fun e => Returned (banner_text e))
                (u "2025-10-20T08:00:00").

(** The query of the first selector times out. *)
Definition flaky_engine : Engine unit :=
  static_engine (fun s => if bool_decide (s = sel_flight)
                          then Raised (Exn "TimeoutError")
                          else Returned (banner_page s))
                (fun e => Returned (banner_text e))
                (u "2025-10-20T08:00:00").

(** No selector finds anything. *)
Definition empty_engine : Engine unit :=
  static_engine (fun _ => Returned []) (fun e => Returned []) (u "2025-10-20T08:00:00").

Definition listing : flight :=
  {| airline := u "IndiGo";
     flight_number := u "AI-123";
     departure := u "06:30";
     arrival := u "09:10";
     price := rs "5,450";
     origin := u "Chennai";
     destination := u "Mumbai";
     searchdatetime := u "2025-10-20T08:00:00Z" |}.

(** ** Shapes of the extracted values *)

(** Two capitals A-Z, a hyphen, three or four digits. *)
Definition flight_number_shape (v : str) : Prop :=
  exists letters digits,
    v = letters ++ u "-" ++ digits
    /\ length letters = 2 /\ Forall (fun c => is_AZ c = true) letters
    /\ 3 <= length digits <= 4 /\ Forall (fun c => is_digit c = true) digits.

(** The rupee sign, then a run, not empty, of digits and commas. *)
Definition price_shape (v : str) : Prop :=
  exists run,
    v = rupee :: run /\ run <> []
    /\ Forall (fun c => is_digit c || is_char comma c = true) run.

(** A digit or a comma. *)
Definition digit_or_comma (c : N) : bool := is_digit c || is_char comma c.

(** The fields of a record assembled for the pair [(o, d)] at the time
    [ts]: the pair and the time as given, and each extracted field either
    the sentinel or of the shape of its pattern. *)
Record well_formed (o d ts : str) (f : flight) : Prop := {
  wf_origin : origin f = o;
  wf_destination : destination f = d;
  wf_searchdatetime : searchdatetime f = ts;
  wf_airline : airline f ∈ airlines \/ airline f = NA;
  wf_flight_number : flight_number f = NA \/ flight_number_shape (flight_number f);
  wf_departure : departure f = NA \/ digits_colon_digits (departure f) = true;
  wf_arrival : arrival f = NA \/ digits_colon_digits (arrival f) = true;
  wf_price : price f = NA \/ price_shape (price f);
  wf_retained : departure f <> NA \/ price f <> NA
}.

(** The record [f] is the entry [t] of the catalogue with the route and the
    time added: its five catalogue fields are those of [t], and its origin,
    destination and timestamp are [o], [d] and [ts]. *)
Definition augmented (o d ts : str) (t : template) (f : flight) : Prop :=
  airline f = t_airline t
  /\ flight_number f = t_flight_number t
  /\ departure f = t_departure t
  /\ arrival f = t_arrival t
  /\ price f = t_price t
  /\ origin f = o
  /\ destination f = d
  /\ searchdatetime f = ts.

(** The record carries the pair and the time given. *)
Definition stamped (o d ts : str) (f : flight) : Prop :=
  origin f = o /\ destination f = d /\ searchdatetime f = ts.

(** ** Relations that every step on the page respects *)

(** The calls made on an open page, as opposed to those that open and close
    the browser. *)
Definition page_call (c : call) : bool :=
  match c with
  | CGoto _ | CLocatorAll _ | CFill _ _ | CInnerText _ | CClick _ | CUtcNow => true
  | CStart | CLaunch | CNewPage | CPageClose | CBrowserClose | CStop => false
  end.

(** A relation between the states before and after a computation that holds
    across a call on the page and an update of the list [flights]. *)
Record frame {W : Type} (R : state W -> state W -> Prop) : Prop := {
  frame_refl : forall st, R st st;
  frame_trans : forall st1 st2 st3, R st1 st2 -> R st2 st3 -> R st1 st3;
  frame_call : forall st w c,
    page_call c = true ->
    R st (State w (self st) (trace st ++ [c]) (flights_var st));
  frame_flights : forall st fl, R st (State (world st) (self st) (trace st) fl)
}.

(** The state [st] with the flag [scrape_success] raised. *)
Definition with_success {W : Type} (st : state W) : state W :=
  State (world st)
    (Scraper (playwright (self st)) (browser (self st)) (page (self st))
       (use_mock (self st)) true)
    (trace st) (flights_var st).

Definition respects {W A : Type} (R : state W -> state W -> Prop) (m : M W A) : Prop :=
  forall st, R st (m st).2.

(** The handles and the flag [use_mock] are the same. *)
Definition same_handles {W : Type} (st st' : state W) : Prop :=
  playwright (self st') = playwright (self st)
  /\ browser (self st') = browser (self st)
  /\ page (self st') = page (self st)
  /\ use_mock (self st') = use_mock (self st).

(** The trace has grown by calls on the page. *)
Definition page_calls_added {W : Type} (st st' : state W) : Prop :=
  exists t, trace st' = trace st ++ t /\ Forall (fun c => page_call c = true) t.

(** The scraper object is the same. *)
Definition same_self {W : Type} (st st' : state W) : Prop := self st' = self st.

(** ** Further pages *)

(** Three buttons, the second of which is the search button. *)
Definition button_text (e : elem) : str :=
  match e with
  | 0 => u "Login"
  | 1 => u "SEARCH FLIGHTS"
  | _ => u "Search hotels"
  end.

Definition button_engine : Engine unit :=
  static_engine (fun _ => Returned [0; 1; 2]) (fun e => Returned (button_text e))
                (u "2025-10-20T08:00:00").

(** The driver of the browser does not start. *)
Definition dead_engine : Engine unit :=
  {| playwright_start w := (Raised (Exn "Error"), w);
     chromium_launch w := (Returned tt, w);
     new_page w := (Returned tt, w);
     page_goto _ w := (Returned tt, w);
     locator_all _ w := (Returned [], w);
     elem_fill _ _ w := (Returned tt, w);
     elem_inner_text _ w := (Returned [], w);
     elem_click _ w := (Returned tt, w);
     page_close w := (Returned tt, w);
     browser_close w := (Returned tt, w);
     playwright_stop w := (Returned tt, w);
     utcnow_isoformat w := (u "2025-10-20T08:00:00", w) |}.

(** * Properties *)

Lemma nonempty_true {A} (l : list A) : nonempty l = true -> l <> [].
Proof. destruct l; [discriminate | discriminate]. Qed.

(** ** The extractors on a few texts *)

Example ex_fn1 : _extract_flight_number (u "AI 504") = u "AI-504".
Proof. reflexivity. Qed.
Example ex_fn2 : _extract_flight_number (u "6E 123") = NA.
Proof. reflexivity. Qed.
Example ex_fn3 : _extract_flight_number (u "SG - 82567") = u "SG-8256".
Proof. reflexivity. Qed.
Example ex_dep1 : _extract_departure (u "dep 06:30 arr 9:10") = u "06:30".
Proof. reflexivity. Qed.
Example ex_arr1 : _extract_arrival (u "dep 06:30 arr 9:10") = u "9:10".
Proof. reflexivity. Qed.
Example ex_arr2 : _extract_arrival (u "12:34:56") = NA.
Proof. reflexivity. Qed.
Example ex_dep3 : _extract_departure (u "123:456") = u "23:45".
Proof. reflexivity. Qed.
Example ex_price1 : _extract_price (rupee :: u "  5,450 only") = rupee :: u "5,450".
Proof. reflexivity. Qed.
Example ex_air1 : _extract_airline (u "GOAIR / indigo") = u "IndiGo".
Proof. reflexivity. Qed.

(** ** The matcher *)

Lemma greedy_Some {X} lo n (try : nat -> option X) x :
  greedy lo n try = Some x ->
  exists k, k <= n /\ (lo <= k \/ k = n) /\ try k = Some x
            /\ forall j, k < j <= n -> try j = None.
Proof.
  revert x. induction n as [|n IH]; intros x; simpl.
  - destruct (try 0) eqn:H0; [|discriminate]. intros [= <-].
    exists 0. repeat split; auto. intros j Hj. lia.
  - destruct (try (S n)) eqn:HS.
    + intros [= <-]. exists (S n). repeat split; auto. intros j Hj. lia.
    + destruct (Nat.leb_spec lo n) as [Hle|Hlt]; [|discriminate].
      intros Hg. destruct (IH _ Hg) as (k & Hk & Hlo & Htry & Hnone).
      exists k. split; [lia|]. split.
      * destruct Hlo as [?| ->]; [left; assumption | left; assumption].
      * split; [assumption|]. intros j Hj.
        destruct (decide (j = S n)) as [->|Hne]; [assumption|].
        apply Hnone. lia.
Qed.

Lemma greedy_None {X} lo n (try : nat -> option X) :
  greedy lo n try = None -> forall k, lo <= k <= n -> try k = None.
Proof.
  induction n as [|n IH]; simpl.
  - destruct (try 0) eqn:H0; [discriminate|]. intros _ k Hk.
    replace k with 0 by lia. assumption.
  - destruct (try (S n)) eqn:HS; [discriminate|].
    destruct (Nat.leb_spec lo n) as [Hle|Hlt].
    + intros Hg k Hk. destruct (decide (k = S n)) as [->|Hne]; [assumption|].
      apply IH; [assumption | lia].
    + intros _ k Hk. replace k with (S n) by lia. assumption.
Qed.

Lemma span_le_length p lim s : span p lim s <= length s.
Proof.
  revert lim. induction s as [|c s IH]; intros lim.
  - destruct lim as [[|?]|]; simpl; lia.
  - destruct lim as [[|l]|]; simpl; try lia;
      destruct (p c); simpl; try lia; specialize (IH (Some l)) || specialize (IH None);
      simpl in IH; lia.
Qed.

Lemma span_le_limit p l s : span p (Some l) s <= l.
Proof.
  revert l. induction s as [|c s IH]; intros l.
  - destruct l; simpl; lia.
  - destruct l as [|l]; simpl; [lia|].
    destruct (p c); [|lia]. specialize (IH l). simpl. lia.
Qed.

Lemma span_Forall p lim s k :
  k <= span p lim s -> Forall (fun c => p c = true) (take k s).
Proof.
  revert lim k. induction s as [|c s IH]; intros lim k Hk.
  - rewrite take_nil. constructor.
  - destruct k as [|k]; [constructor|].
    assert (p c = true /\ exists lim', S k <= S (span p lim' s)) as [Hc [lim' Hk']].
    { destruct lim as [[|l]|]; simpl in Hk; try lia;
        destruct (p c) eqn:Hpc; try lia; split; auto; eexists; exact Hk. }
    simpl. constructor; [assumption|]. apply (IH lim'). lia.
Qed.

(** A run admitted by the class and the limit is no longer than [span]. *)
Lemma span_max p lim s k :
  k <= length s ->
  Forall (fun c => p c = true) (take k s) ->
  match lim with Some hi => k <= hi | None => True end ->
  k <= span p lim s.
Proof.
  revert lim k. induction s as [|c s IH]; intros lim k Hlen Hall Hlim.
  - simpl in Hlen. lia.
  - destruct k as [|k]; [lia|].
    simpl in Hall. inversion Hall as [|? ? Hc Hrest]; subst.
    simpl in Hlen.
    destruct lim as [[|l]|]; simpl; try lia; rewrite Hc.
    + specialize (IH (Some l) k). simpl in IH.
      assert (k <= span p (Some l) s) by (apply IH; [lia | assumption | lia]). lia.
    + specialize (IH None k). simpl in IH.
      assert (k <= span p None s) by (apply IH; [lia | assumption | exact I]). lia.
Qed.

Lemma match_here_cons it r s :
  match_here (it :: r) s =
    let a := item_atom it in
    let n := span (cls a) (rmax a) s in
    if rmin a <=? n then
      greedy (rmin a) n (fun k =>
        match match_here r (drop k s) with
        | Some (gs, m) => Some (captured it (take k s) gs, k + m)
        | None => None
        end)
    else None.
Proof. destruct it; reflexivity. Qed.

(** Every answer of the matcher is a match of the pattern. *)
Lemma match_here_sound r : forall s gs n,
  match_here r s = Some (gs, n) -> matches r s gs n.
Proof.
  induction r as [|it r IH]; intros s gs n.
  - simpl. intros [= <- <-]. constructor.
  - rewrite match_here_cons. cbv zeta.
    destruct (Nat.leb_spec (rmin (item_atom it))
                (span (cls (item_atom it)) (rmax (item_atom it)) s)) as [Hmin|]; [|discriminate].
    intros Hg. apply greedy_Some in Hg as (k & Hk & Hlo & Htry & _).
    destruct (match_here r (drop k s)) as [[gs' m]|] eqn:Hm; [|discriminate].
    injection Htry as <- <-.
    constructor.
    + split; [lia|]. destruct (rmax (item_atom it)) as [hi|] eqn:Hhi; [|exact I].
      pose proof (span_le_limit (cls (item_atom it)) hi s). lia.
    + pose proof (span_le_length (cls (item_atom it)) (rmax (item_atom it)) s). lia.
    + eapply span_Forall. exact Hk.
    + apply IH. assumption.
Qed.

(** Whenever the pattern has a match at the head of [s], the matcher finds
    one. *)
Lemma match_here_complete r : forall s gs n,
  matches r s gs n -> match_here r s <> None.
Proof.
  induction r as [|it r IH]; intros s gs n Hm.
  - simpl. discriminate.
  - inversion Hm as [|? ? ? k gs' n' [Hlo Hhi] Hlen Hall Hrest]; subst.
    rewrite match_here_cons. cbv zeta.
    pose proof (span_max _ _ _ _ Hlen Hall Hhi) as Hk.
    destruct (Nat.leb_spec (rmin (item_atom it))
                (span (cls (item_atom it)) (rmax (item_atom it)) s)) as [Hmin|]; [|lia].
    intros Hnone. eapply greedy_None in Hnone; [|split; [exact Hlo | exact Hk]].
    specialize (IH _ _ _ Hrest).
    destruct (match_here r (drop k s)) as [[? ?]|]; [discriminate | contradiction].
Qed.

(** ** The time pattern *)

Lemma is_char_eq x c : is_char x c = true -> c = x.
Proof. unfold is_char. apply N.eqb_eq. Qed.

Lemma span_zero p s : span p (Some 0) s = 0.
Proof. destruct s; reflexivity. Qed.

Section TimePattern.
#[local] Opaque is_digit is_char.

Lemma match_here_time s :
  match_here time_re s =
    match time_at s with
    | Some o => Some (hour_minute o, length o)
    | None => None
    end.
Proof.
  destruct s as [|a [|b [|c [|d [|e s]]]]]; try reflexivity; cbn;
    repeat (match goal with
            | |- context [is_digit ?x] => destruct (is_digit x) eqn:?; cbn
            | |- context [is_char ?x ?y] => destruct (is_char x y) eqn:?; cbn
            end); rewrite ?span_zero; try reflexivity; try discriminate.
Qed.

End TimePattern.

Lemma findall_time s : forall k,
  findall_from time_re k s = hour_minute <$> time_occurrences_from k s.
Proof.
  induction s as [|c s IH]; intros [|k];
    cbn [findall_from time_occurrences_from]; rewrite ?match_here_time.
  - reflexivity.
  - reflexivity.
  - destruct (time_at (c :: s)) as [o|].
    + rewrite fmap_cons. f_equal. rewrite IH. f_equal. f_equal. lia.
    + apply IH.
  - apply IH.
Qed.

Lemma search_time s :
  search time_re s = hour_minute <$> head (time_occurrences s).
Proof.
  unfold time_occurrences.
  induction s as [|c s IH].
  - reflexivity.
  - cbn [search]. rewrite match_here_time. cbn [time_occurrences_from].
    destruct (time_at (c :: s)) as [o|]; [reflexivity|]. exact IH.
Qed.

(** Writing the two groups around a colon gives the occurrence back. *)
Lemma time_at_render s o :
  time_at s = Some o ->
  nth 0 (hour_minute o) [] ++ u ":" ++ nth 1 (hour_minute o) [] = o.
Proof.
  unfold time_at.
  destruct s as [|a [|b [|c [|d [|e s]]]]]; try discriminate.
  - destruct (is_digit a && is_char colon b && is_digit c && is_digit d) eqn:H;
      [|discriminate].
    intros [= <-]. repeat (apply andb_prop in H as [H ?]).
    match goal with Hc : is_char colon _ = true |- _ => apply is_char_eq in Hc as -> end.
    reflexivity.
  - destruct (is_digit a && is_digit b && is_char colon c && is_digit d && is_digit e) eqn:H.
    + intros [= <-]. repeat (apply andb_prop in H as [H ?]).
      match goal with Hc : is_char colon _ = true |- _ => apply is_char_eq in Hc as -> end.
      reflexivity.
    + clear H.
      destruct (is_digit a && is_char colon b && is_digit c && is_digit d) eqn:H;
        [|discriminate].
      intros [= <-]. repeat (apply andb_prop in H as [H ?]).
      match goal with Hc : is_char colon _ = true |- _ => apply is_char_eq in Hc as -> end.
      reflexivity.
Qed.

Lemma time_at_shape s o : time_at s = Some o -> digits_colon_digits o = true.
Proof.
  unfold time_at.
  destruct s as [|a [|b [|c [|d [|e s]]]]]; try discriminate.
  - destruct (is_digit a && is_char colon b && is_digit c && is_digit d) eqn:H;
      [|discriminate].
    intros [= <-]. exact H.
  - destruct (is_digit a && is_digit b && is_char colon c && is_digit d && is_digit e) eqn:H.
    + intros [= <-]. exact H.
    + destruct (is_digit a && is_char colon b && is_digit c && is_digit d) eqn:H';
        [|discriminate].
      intros [= <-]. exact H'.
Qed.

Lemma time_occurrences_shape s : forall k o,
  o ∈ time_occurrences_from k s -> digits_colon_digits o = true.
Proof.
  induction s as [|c s IH]; intros [|k] o; cbn [time_occurrences_from].
  - cbn. intros H. apply elem_of_nil in H. contradiction.
  - intros H. apply elem_of_nil in H. contradiction.
  - destruct (time_at (c :: s)) as [o'|] eqn:Hat.
    + intros [->|H]%elem_of_cons; [eapply time_at_shape; exact Hat | eapply IH; exact H].
    + apply IH.
  - apply IH.
Qed.

Lemma time_occurrences_render s : forall k o,
  o ∈ time_occurrences_from k s ->
  nth 0 (hour_minute o) [] ++ u ":" ++ nth 1 (hour_minute o) [] = o.
Proof.
  induction s as [|c s IH]; intros [|k] o; cbn [time_occurrences_from].
  - cbn. intros H. apply elem_of_nil in H. contradiction.
  - intros H. apply elem_of_nil in H. contradiction.
  - destruct (time_at (c :: s)) as [o'|] eqn:Hat.
    + intros [->|H]%elem_of_cons; [eapply time_at_render; exact Hat | eapply IH; exact H].
    + apply IH.
  - apply IH.
Qed.

(** The two time extractors in terms of the occurrences of the text. *)
Lemma _extract_departure_spec text :
  _extract_departure text = nth 0 (time_occurrences text) NA.
Proof.
  unfold _extract_departure. rewrite search_time.
  destruct (time_occurrences text) as [|o rest] eqn:Hocc; [reflexivity|].
  simpl head. simpl fmap. unfold group. simpl Nat.pred.
  apply (time_occurrences_render text 0 o).
  fold (time_occurrences text). rewrite Hocc. apply list_elem_of_here.
Qed.

Lemma _extract_arrival_spec text :
  _extract_arrival text = nth 1 (time_occurrences text) NA.
Proof.
  unfold _extract_arrival, findall. rewrite findall_time.
  fold (time_occurrences text). rewrite length_fmap.
  destruct (time_occurrences text) as [|o1 [|o2 rest]] eqn:Hocc; try reflexivity.
  simpl. apply (time_occurrences_render text 0 o2).
  fold (time_occurrences text). rewrite Hocc.
  apply list_elem_of_further, list_elem_of_here.
Qed.

(** C6: when the text holds exactly one H:MM or HH:MM occurrence, the
    departure extractor returns it and the arrival extractor returns the
    sentinel; when it holds two or more, the departure extractor returns the
    first and the arrival extractor the second, both verbatim.  (With no
    occurrence both return the sentinel.) *)
Theorem time_extractors_follow_occurrences (text : str) :
  match time_occurrences text with
  | [] => _extract_departure text = NA /\ _extract_arrival text = NA
  | [o] => _extract_departure text = o /\ _extract_arrival text = NA
  | o1 :: o2 :: _ => _extract_departure text = o1 /\ _extract_arrival text = o2
  end.
Proof.
  rewrite _extract_departure_spec, _extract_arrival_spec.
  destruct (time_occurrences text) as [|o1 [|o2 rest]]; split; reflexivity.
Qed.

Example time_occurrences_one :
  time_occurrences (u "IndiGo 12:34:56 non-stop") = [u "12:34"].
Proof. reflexivity. Qed.

Example time_occurrences_three :
  time_occurrences (u "dep 6:30, arr 09:10 (+1) 23:59") = [u "6:30"; u "09:10"; u "23:59"].
Proof. reflexivity. Qed.

(** C7, as stated, fails: the extractors return digits that are no time of
    day, and one-digit hours. *)
Lemma time_extractors_unchecked_range :
  _extract_departure (u "ETA 99:99 / 7:61") = u "99:99"
  /\ _extract_arrival (u "ETA 99:99 / 7:61") = u "7:61"
  /\ u "99:99" <> NA /\ valid_hhmm (u "99:99") = false
  /\ u "7:61" <> NA /\ valid_hhmm (u "7:61") = false.
Proof. repeat split; try reflexivity; discriminate. Qed.

(** C7, amended: each time extractor returns the sentinel or one or two
    digits, a colon and two digits; the hour and the minute are not checked
    against any range. *)
Theorem time_extractors_shape (text : str) :
  (_extract_departure text = NA \/ digits_colon_digits (_extract_departure text) = true)
  /\ (_extract_arrival text = NA \/ digits_colon_digits (_extract_arrival text) = true).
Proof.
  rewrite _extract_departure_spec, _extract_arrival_spec.
  pose proof (time_occurrences_shape text 0) as Hshape.
  fold (time_occurrences text) in Hshape.
  destruct (time_occurrences text) as [|o1 [|o2 rest]]; simpl; split; auto; right;
    apply Hshape; repeat constructor.
Qed.

(** ** Runs and the greedy path *)

Lemma greedy_first {X} lo n (try : nat -> option X) x :
  try n = Some x -> greedy lo n try = Some x.
Proof. intros H. destruct n; simpl; rewrite H; reflexivity. Qed.

Lemma span_run p lim run rest :
  Forall (fun c => p c = true) run ->
  match lim with Some hi => length run <= hi | None => True end ->
  stops p lim run rest ->
  span p lim (run ++ rest) = length run.
Proof.
  revert lim. induction run as [|c run IH]; intros lim Hall Hlim Hstop.
  - simpl. destruct Hstop as [->|Hstop]; [apply span_zero|].
    destruct rest as [|c rest]; [destruct lim as [[|?]|]; reflexivity|].
    destruct lim as [[|?]|]; simpl; rewrite ?Hstop; reflexivity.
  - inversion Hall as [|? ? Hc Hrun]; subst.
    destruct lim as [[|hi]|]; simpl in Hlim |- *; [lia| |]; rewrite Hc; f_equal.
    + apply IH; [assumption | simpl; lia |].
      destruct Hstop as [[= ->]|Hstop]; [left; reflexivity | right; exact Hstop].
    + apply IH; [assumption | exact I |].
      destruct Hstop as [[=]|Hstop]. right; exact Hstop.
Qed.

(** When the longest run of the first item is followed by a match of the
    rest of the pattern, the matcher answers on its first attempt. *)
Lemma match_here_run it r run rest gs m :
  Forall (fun c => cls (item_atom it) c = true) run ->
  within (length run) (item_atom it) ->
  stops (cls (item_atom it)) (rmax (item_atom it)) run rest ->
  match_here r rest = Some (gs, m) ->
  match_here (it :: r) (run ++ rest) = Some (captured it run gs, length run + m).
Proof.
  intros Hall [Hlo Hhi] Hstop Hrest.
  rewrite match_here_cons. cbv zeta.
  rewrite (span_run _ _ _ _ Hall Hhi Hstop).
  destruct (Nat.leb_spec (rmin (item_atom it)) (length run)) as [_|]; [|lia].
  apply greedy_first.
  rewrite drop_app_length, take_app_length, Hrest. reflexivity.
Qed.

(** [re.search] answers with the match at the first position that has one. *)
Lemma search_leftmost r pre s gs n :
  (forall i, i < length pre -> match_here r (drop i (pre ++ s)) = None) ->
  match_here r s = Some (gs, n) ->
  search r (pre ++ s) = Some gs.
Proof.
  induction pre as [|c pre IH]; intros Hnone Hs.
  - simpl. destruct s; simpl; rewrite Hs; reflexivity.
  - assert (match_here r ((c :: pre) ++ s) = None) as H0
      by (apply (Hnone 0); simpl; lia).
    cbn [app search] in H0 |- *. rewrite H0.
    apply IH; [|assumption].
    intros i Hi. apply (Hnone (S i)). simpl. lia.
Qed.

Lemma search_none r s :
  (forall i, match_here r (drop i s) = None) -> search r s = None.
Proof.
  induction s as [|c s IH]; intros Hnone.
  - pose proof (Hnone 0) as H0. simpl in H0 |- *. rewrite H0. reflexivity.
  - pose proof (Hnone 0) as H0. cbn [search]. simpl drop in H0. rewrite H0.
    apply IH. intros i. apply (Hnone (S i)).
Qed.

(** ** The character classes are disjoint *)

Lemma in_range_spec lo hi c : in_range lo hi c = true <-> (lo <= c <= hi)%N.
Proof.
  unfold in_range. rewrite andb_true_iff, !N.leb_le. reflexivity.
Qed.

Lemma In_upto n : forall lo c, (lo <= c < lo + N.of_nat n)%N -> In c (upto lo n).
Proof.
  induction n as [|n IH]; intros lo c Hc; [lia|].
  simpl. destruct (N.eq_dec lo c) as [->|Hne]; [left; reflexivity|].
  right. apply IH. lia.
Qed.

Lemma is_space_In c : is_space c = true -> In c spaces.
Proof.
  unfold is_space. rewrite !orb_true_iff, !in_range_spec, !N.eqb_eq.
  unfold spaces. rewrite !in_app_iff.
  intros [[[[[[[[[[H|H]|H]|H]|H]|H]|H]|H]|H]|H]|H].
  - left. apply In_upto. simpl. lia.
  - right; left. apply In_upto. simpl. lia.
  - right; right; left. subst. simpl. auto.
  - right; right; left. subst. simpl. auto.
  - right; right; left. subst. simpl. auto.
  - right; right; right; left. apply In_upto. simpl. lia.
  - right; right; right; right. subst. simpl. auto.
  - right; right; right; right. subst. simpl. auto.
  - right; right; right; right. subst. simpl. auto.
  - right; right; right; right. subst. simpl. auto.
  - right; right; right; right. subst. simpl. tauto.
Qed.

Lemma spaces_checked :
  forallb (fun c => negb (is_digit c) && negb (is_char hyphen c)) spaces = true.
Proof. vm_compute. reflexivity. Qed.

Lemma is_space_not_digit c : is_space c = true -> is_digit c = false.
Proof.
  intros Hs. apply is_space_In in Hs.
  pose proof spaces_checked as Hall. rewrite forallb_forall in Hall.
  apply Hall in Hs. apply andb_prop in Hs as [Hs _].
  apply negb_true_iff in Hs. exact Hs.
Qed.

Lemma is_space_not_hyphen c : is_space c = true -> is_char hyphen c = false.
Proof.
  intros Hs. apply is_space_In in Hs.
  pose proof spaces_checked as Hall. rewrite forallb_forall in Hall.
  apply Hall in Hs. apply andb_prop in Hs as [_ Hs].
  apply negb_true_iff in Hs. exact Hs.
Qed.

Lemma is_digit_not_hyphen c : is_digit c = true -> is_char hyphen c = false.
Proof.
  intros Hd. unfold is_char. apply N.eqb_neq. intros ->.
  vm_compute in Hd. discriminate.
Qed.

Lemma is_digit_not_space c : is_digit c = true -> is_space c = false.
Proof.
  intros Hd. destruct (is_space c) eqn:Hs; [|reflexivity].
  apply is_space_not_digit in Hs. congruence.
Qed.

(** ** The flight-number pattern *)

Ltac within_bounds :=
  unfold within; simpl in *; repeat split; try lia; try exact I.

Lemma flight_number_match_normal letters ws1 h ws2 digits rest :
  length letters = 2 ->
  Forall (fun c => is_AZ c = true) letters ->
  Forall (fun c => is_space c = true) ws1 ->
  (h = [hyphen] \/ (h = [] /\ ws2 = [])) ->
  Forall (fun c => is_space c = true) ws2 ->
  Forall (fun c => is_digit c = true) digits ->
  (length digits = 4 \/
   (length digits = 3 /\ match rest with [] => True | c :: _ => is_digit c = false end)) ->
  exists n,
    match_here flight_number_re (letters ++ ws1 ++ h ++ ws2 ++ digits ++ rest)
    = Some ([letters; digits], n).
Proof.
  intros Hlen Hletters Hws1 Hh Hws2 Hdigits Hgreedy.
  destruct digits as [|d digits]; [simpl in Hgreedy; lia|].
  assert (is_digit d = true) as Hd by (inversion Hdigits; assumption).
  assert (match_here [Group (rep is_digit 3 4)] ((d :: digits) ++ rest)
          = Some ([d :: digits], length (d :: digits) + 0)) as Hlast.
  { apply (match_here_run (Group (rep is_digit 3 4)) [] (d :: digits) rest [] 0);
      [assumption | within_bounds | | reflexivity].
    destruct Hgreedy as [H4|[H3 Hrest]]; [left | right; exact Hrest].
    simpl rmax. rewrite H4. reflexivity. }
  eexists. unfold flight_number_re.
  apply (match_here_run (Group (rep is_AZ 2 2)));
    [assumption | within_bounds | left; simpl; rewrite Hlen; reflexivity |].
  destruct Hh as [->|[-> ->]].
  - apply (match_here_run (Plain (star is_space)));
      [assumption | within_bounds | right; reflexivity |].
    apply (match_here_run (Plain (opt (is_char hyphen))) _ [hyphen]);
      [repeat constructor | within_bounds | left; reflexivity |].
    apply (match_here_run (Plain (star is_space)));
      [assumption | within_bounds | right; simpl; apply is_digit_not_space, Hd |].
    exact Hlast.
  - apply (match_here_run (Plain (star is_space)));
      [assumption | within_bounds | right; simpl; apply is_digit_not_space, Hd |].
    apply (match_here_run (Plain (opt (is_char hyphen))) _ []);
      [constructor | within_bounds | right; simpl; apply is_digit_not_hyphen, Hd |].
    apply (match_here_run (Plain (star is_space)) _ []);
      [constructor | within_bounds | right; simpl; apply is_digit_not_space, Hd |].
    exact Hlast.
Qed.

Lemma flight_number_match letters ws1 h ws2 digits rest :
  length letters = 2 ->
  Forall (fun c => is_AZ c = true) letters ->
  Forall (fun c => is_space c = true) ws1 ->
  (h = [] \/ h = [hyphen]) ->
  Forall (fun c => is_space c = true) ws2 ->
  Forall (fun c => is_digit c = true) digits ->
  (length digits = 4 \/
   (length digits = 3 /\ match rest with [] => True | c :: _ => is_digit c = false end)) ->
  exists n,
    match_here flight_number_re (letters ++ ws1 ++ h ++ ws2 ++ digits ++ rest)
    = Some ([letters; digits], n).
Proof.
  intros Hlen Hletters Hws1 [->| ->] Hws2 Hdigits Hgreedy.
  - replace (letters ++ ws1 ++ [] ++ ws2 ++ digits ++ rest)
      with (letters ++ (ws1 ++ ws2) ++ [] ++ [] ++ digits ++ rest)
      by (simpl; rewrite <- !app_assoc; reflexivity).
    apply flight_number_match_normal; auto.
    apply Forall_app; split; assumption.
  - apply flight_number_match_normal; auto.
Qed.

(** C2, as stated, fails: a text that contains "6E 123" after an earlier
    match of the pattern yields the earlier match. *)
Lemma flight_number_earlier_match_wins :
  str_in (u "6E 123") (u "AI 504 / 6E 123") = true
  /\ _extract_flight_number (u "AI 504 / 6E 123") = u "AI-504"
  /\ u "AI-504" <> u "6E-123".
Proof. repeat split; try reflexivity; discriminate. Qed.

(** C2, amended: when the leftmost match of the pattern in the text is two
    capitals A-Z, then whitespace, an optional hyphen and whitespace, then
    three or four digits (four when a fourth digit follows), the extractor
    returns the capitals, one hyphen and the digits, whatever stood between
    them in the text. *)
Theorem flight_number_leftmost (pre letters ws1 h ws2 digits rest : str) :
  length letters = 2 ->
  Forall (fun c => is_AZ c = true) letters ->
  Forall (fun c => is_space c = true) ws1 ->
  (h = [] \/ h = [hyphen]) ->
  Forall (fun c => is_space c = true) ws2 ->
  Forall (fun c => is_digit c = true) digits ->
  (length digits = 4 \/
   (length digits = 3 /\ match rest with [] => True | c :: _ => is_digit c = false end)) ->
  (forall i gs n, i < length pre ->
     ~ matches flight_number_re
         (drop i (pre ++ letters ++ ws1 ++ h ++ ws2 ++ digits ++ rest)) gs n) ->
  _extract_flight_number (pre ++ letters ++ ws1 ++ h ++ ws2 ++ digits ++ rest)
  = letters ++ u "-" ++ digits.
Proof.
  intros Hlen Hletters Hws1 Hh Hws2 Hdigits Hgreedy Hleft.
  destruct (flight_number_match letters ws1 h ws2 digits rest) as [n Hn]; auto.
  unfold _extract_flight_number.
  rewrite (search_leftmost _ pre _ [letters; digits] n); [reflexivity | | exact Hn].
  intros i Hi.
  destruct (match_here flight_number_re
              (drop i (pre ++ letters ++ ws1 ++ h ++ ws2 ++ digits ++ rest)))
    as [[gs m]|] eqn:Hm; [|reflexivity].
  apply match_here_sound in Hm. exfalso. exact (Hleft i gs m Hi Hm).
Qed.

Lemma flight_number_leftmost_witness :
  _extract_flight_number (u "Flight AI - 5041 dep") = u "AI-5041"
  /\ _extract_flight_number (u "SG8256") = u "SG-8256"
  /\ _extract_flight_number (u "on UK 834, 10:00") = u "UK-834".
Proof.
  split; [|split].
  - apply (flight_number_leftmost (u "Flight ") (u "AI") (u " ") (u "-") (u " ")
             (u "5041") (u " dep")).
    + reflexivity.
    + repeat constructor.
    + repeat constructor.
    + right; reflexivity.
    + repeat constructor.
    + repeat constructor.
    + left; reflexivity.
    + intros i gs n Hi Hm. apply match_here_complete in Hm. apply Hm.
      simpl in Hi.
      do 7 (destruct i as [|i]; [vm_compute; reflexivity|]). lia.
  - apply (flight_number_leftmost [] (u "SG") [] [] [] (u "8256") []).
    + reflexivity.
    + repeat constructor.
    + constructor.
    + left; reflexivity.
    + constructor.
    + repeat constructor.
    + left; reflexivity.
    + intros i gs n Hi. simpl in Hi. lia.
  - apply (flight_number_leftmost (u "on ") (u "UK") (u " ") [] [] (u "834")
             (u ", 10:00")).
    + reflexivity.
    + repeat constructor.
    + repeat constructor.
    + left; reflexivity.
    + constructor.
    + repeat constructor.
    + right; split; reflexivity.
    + intros i gs n Hi Hm. apply match_here_complete in Hm. apply Hm.
      simpl in Hi.
      do 3 (destruct i as [|i]; [vm_compute; reflexivity|]). lia.
Defined.

(** ** Case-insensitive occurrence of a carrier name *)

Lemma starts_with_app p s : starts_with p (p ++ s) = true.
Proof.
  induction p as [|a p IH]; [reflexivity|]. simpl. rewrite N.eqb_refl. exact IH.
Qed.

Lemma str_in_cons n c s :
  str_in n (c :: s) = starts_with n (c :: s) || str_in n s.
Proof. reflexivity. Qed.

Lemma str_in_app pre n post : str_in n (pre ++ n ++ post) = true.
Proof.
  induction pre as [|c pre IH].
  - simpl. destruct (n ++ post) eqn:E; simpl; rewrite <- E, starts_with_app; reflexivity.
  - simpl app. rewrite str_in_cons, IH. apply orb_true_r.
Qed.

Lemma lower_app a b : lower (a ++ b) = lower a ++ lower b.
Proof. unfold lower. apply flat_map_app. Qed.

Lemma lower_cons c s : lower (c :: s) = lower_cp c ++ lower s.
Proof. reflexivity. Qed.

Lemma lower_cp_cases c :
  (exists x, lower_cp c = [x]) \/ lower_cp c = [0x69; 0x307]%N.
Proof.
  unfold lower_cp.
  repeat (match goal with
          | |- context [if ?b then _ else _] => destruct b
          end; eauto).
Qed.

Lemma aligned_needle_tail c d n :
  aligned_needle (c :: d :: n) = true -> aligned_needle (d :: n) = true.
Proof.
  unfold aligned_needle.
  change (last (c :: d :: n)) with (last (d :: n)).
  simpl nonempty. cbn [forallb].
  rewrite !andb_true_iff. intros [[_ [_ Hall]] Hlast].
  split; [split; [reflexivity | exact Hall] | exact Hlast].
Qed.

Lemma aligned_needle_no_dot n :
  aligned_needle n = true -> ~ In 0x307%N n.
Proof.
  unfold aligned_needle. rewrite !andb_true_iff. intros [[_ Hall] _] Hin.
  rewrite forallb_forall in Hall. apply Hall in Hin.
  rewrite N.eqb_refl in Hin. discriminate.
Qed.

Lemma starts_with_lower text : forall n,
  aligned_needle n = true ->
  starts_with n (lower text) = true ->
  exists mid post, text = mid ++ post /\ lower mid = n.
Proof.
  induction text as [|t text IH]; intros n Hn Hs.
  - destruct n; [discriminate | discriminate].
  - destruct n as [|c n]; [discriminate|].
    rewrite lower_cons in Hs.
    destruct (lower_cp_cases t) as [[x Hx]|Hx]; rewrite Hx in Hs; simpl in Hs.
    + apply andb_prop in Hs as [Hc Hs]. apply N.eqb_eq in Hc as ->.
      destruct n as [|d n].
      * exists [t], text. split; [reflexivity|].
        rewrite lower_cons, Hx. reflexivity.
      * apply aligned_needle_tail in Hn.
        destruct (IH _ Hn Hs) as (mid & post & -> & Hmid).
        exists (t :: mid), post. split; [reflexivity|].
        rewrite lower_cons, Hx, Hmid. reflexivity.
    + apply andb_prop in Hs as [Hc Hs]. apply N.eqb_eq in Hc as ->.
      destruct n as [|d n].
      * vm_compute in Hn. discriminate.
      * simpl in Hs. apply andb_prop in Hs as [Hd _]. apply N.eqb_eq in Hd as ->.
        exfalso. apply (aligned_needle_no_dot _ Hn). right; left; reflexivity.
Qed.

Lemma str_in_lower text : forall n,
  aligned_needle n = true ->
  str_in n (lower text) = true ->
  exists pre mid post, text = pre ++ mid ++ post /\ lower mid = n.
Proof.
  induction text as [|t text IH]; intros n Hn Hin.
  - destruct n; discriminate.
  - assert (starts_with n (lower (t :: text)) = true
            \/ str_in n (lower text) = true) as [Hs|Hs].
    { rewrite lower_cons in *.
      destruct (lower_cp_cases t) as [[x Hx]|Hx]; rewrite Hx in *.
      - simpl app in *. rewrite str_in_cons in Hin.
        apply orb_prop in Hin. exact Hin.
      - simpl app in *. rewrite !str_in_cons in Hin.
        apply orb_prop in Hin as [Hin|Hin]; [left; exact Hin|].
        apply orb_prop in Hin as [Hin|Hin]; [|right; exact Hin].
        exfalso. destruct n as [|c n]; [discriminate|].
        simpl in Hin. apply andb_prop in Hin as [Hc _]. apply N.eqb_eq in Hc as ->.
        apply (aligned_needle_no_dot _ Hn). left; reflexivity. }
    + destruct (starts_with_lower _ _ Hn Hs) as (mid & post & Heq & Hmid).
      exists [], mid, post. split; [exact Heq | exact Hmid].
    + destruct (IH _ Hn Hs) as (pre & mid & post & -> & Hmid).
      exists (t :: pre), mid, post. split; [reflexivity | exact Hmid].
Qed.

(** The test of the source decides case-insensitive occurrence, for every
    needle that is aligned. *)
Lemma str_in_lower_iff name text :
  aligned_needle (lower name) = true ->
  str_in (lower name) (lower text) = true <-> occurs_nocase name text.
Proof.
  intros Hn. split.
  - intros Hin. destruct (str_in_lower _ _ Hn Hin) as (pre & mid & post & ? & ?).
    exists pre, mid, post. split; assumption.
  - intros (pre & mid & post & -> & Hmid).
    rewrite !lower_app, Hmid. apply str_in_app.
Qed.

Lemma airlines_aligned :
  forallb (fun name => aligned_needle (lower name)) airlines = true.
Proof. vm_compute. reflexivity. Qed.

Lemma first_airline_spec text : forall names,
  forallb (fun name => aligned_needle (lower name)) names = true ->
  (exists i name,
      names !! i = Some name /\ first_airline names text = name
      /\ occurs_nocase name text
      /\ forall j name', j < i -> names !! j = Some name' ->
                         ~ occurs_nocase name' text)
  \/ (first_airline names text = NA
      /\ forall name, name ∈ names -> ~ occurs_nocase name text).
Proof.
  induction names as [|name names IH]; intros Hal.
  - right. split; [reflexivity|]. intros name H. apply elem_of_nil in H. contradiction.
  - cbn [forallb] in Hal. apply andb_prop in Hal as [Hname Hal].
    cbn [first_airline].
    destruct (str_in (lower name) (lower text)) eqn:Hin.
    + left. exists 0, name. repeat split; auto.
      * apply str_in_lower_iff; assumption.
      * intros j name' Hj. lia.
    + assert (~ occurs_nocase name text) as Hno.
      { intros Hocc. apply str_in_lower_iff in Hocc; [congruence | assumption]. }
      destruct (IH Hal) as [(i & name' & Hi & Hres & Hocc & Hbefore)|[Hres Hnone]].
      * left. exists (S i), name'. repeat split; auto.
        intros [|j] name'' Hj Hlook; simpl in Hlook.
        -- injection Hlook as <-. exact Hno.
        -- apply (Hbefore j); [lia | exact Hlook].
      * right. split; [exact Hres|].
        intros name' [->|Hin']%elem_of_cons; [exact Hno | apply Hnone; exact Hin'].
Qed.

(** The code points outside Basic Latin, other than U+0130 and U+212A, play
    no part in the search for a carrier name: the extractor gives the same
    answer with any table that is like Unicode's. *)
Lemma starts_with_skeleton l1 l2 :
  same_skeleton l1 l2 ->
  forall n, basic_latin n = true -> starts_with n l1 = starts_with n l2.
Proof.
  induction 1 as [|a l1 l2 Ha _ IH|b1 b2 l1 l2 [Hb1 Hall1] [Hb2 Hall2] _ _];
    intros n Hn.
  - reflexivity.
  - destruct n as [|c n]; [reflexivity|]. simpl in Hn |- *.
    apply andb_prop in Hn as [_ Hn]. rewrite (IH n Hn). reflexivity.
  - destruct n as [|c n]; [reflexivity|]. simpl in Hn.
    apply andb_prop in Hn as [Hc _]. apply N.ltb_lt in Hc.
    destruct b1 as [|x1 b1]; [contradiction|]. destruct b2 as [|x2 b2]; [contradiction|].
    inversion Hall1; inversion Hall2; subst. simpl.
    replace (c =? x1)%N with false by (symmetry; apply N.eqb_neq; lia).
    replace (c =? x2)%N with false by (symmetry; apply N.eqb_neq; lia).
    reflexivity.
Qed.

Lemma str_in_skip_run n b l :
  Forall (fun x => (128 <= x)%N) b ->
  n <> [] -> basic_latin n = true ->
  str_in n (b ++ l) = str_in n l.
Proof.
  intros Hb Hne Hn. induction Hb as [|x b Hx _ IH]; [reflexivity|].
  simpl app. rewrite str_in_cons, IH.
  destruct n as [|c n]; [contradiction|]. simpl in Hn |- *.
  apply andb_prop in Hn as [Hc _]. apply N.ltb_lt in Hc.
  replace (c =? x)%N with false by (symmetry; apply N.eqb_neq; lia).
  reflexivity.
Qed.

Lemma str_in_skeleton l1 l2 n :
  same_skeleton l1 l2 ->
  n <> [] -> basic_latin n = true ->
  str_in n l1 = str_in n l2.
Proof.
  intros Hsk Hne Hn.
  induction Hsk as [|a l1 l2 Ha Hsk IH|b1 b2 l1 l2 [Hb1 Hall1] [Hb2 Hall2] _ IH].
  - reflexivity.
  - rewrite !str_in_cons, IH.
    rewrite (starts_with_skeleton (a :: l1) (a :: l2)); [reflexivity | | exact Hn].
    constructor; assumption.
  - rewrite !str_in_skip_run by assumption. exact IH.
Qed.

Lemma lower_cp_basic_latin c :
  (c < 128)%N -> exists x, lower_cp c = [x] /\ (x < 128)%N.
Proof.
  intros Hc. unfold lower_cp.
  destruct (in_range 65 90 c) eqn:Hr.
  - apply in_range_spec in Hr. eexists. split; [reflexivity | lia].
  - repeat match goal with
           | |- context [(c =? ?k)%N] =>
               replace (c =? k)%N with false by (symmetry; apply N.eqb_neq; lia)
           | |- context [in_range ?lo ?hi c] =>
               replace (in_range lo hi c) with false
                 by (symmetry; apply not_true_iff_false; rewrite in_range_spec; lia)
           end.
    simpl. eexists. split; [reflexivity | lia].
Qed.

Lemma lower_cp_outside c :
  (128 <= c)%N -> c <> 0x130%N -> c <> 0x212A%N -> outside_basic_latin (lower_cp c).
Proof.
  intros Hc H1 H2. unfold lower_cp.
  replace (in_range 65 90 c) with false
    by (symmetry; apply not_true_iff_false; rewrite in_range_spec; lia).
  replace (c =? 0x130)%N with false by (symmetry; apply N.eqb_neq; lia).
  replace (c =? 0x212A)%N with false by (symmetry; apply N.eqb_neq; lia).
  repeat match goal with
         | |- context [if ?b then _ else _] => destruct b eqn:?
         end;
    (split; [discriminate | constructor; [lia | constructor]]).
Qed.

Lemma lower_with_skeleton tbl text :
  like_unicode tbl -> same_skeleton (lower_with tbl text) (lower text).
Proof.
  intros (Hlatin & Hdot & Hkelvin & Hother).
  induction text as [|c text IH]; [constructor|].
  change (same_skeleton (tbl c ++ lower_with tbl text) (lower_cp c ++ lower text)).
  destruct (N.lt_ge_cases c 128) as [Hc|Hc].
  - rewrite (Hlatin c Hc). destruct (lower_cp_basic_latin c Hc) as (x & -> & Hx).
    constructor; assumption.
  - destruct (N.eq_dec c 0x130%N) as [->|H1].
    + rewrite Hdot. change (lower_cp 0x130%N) with [0x69; 0x307]%N.
      constructor; [reflexivity|].
      apply (skeleton_run [0x307%N] [0x307%N]); [| |exact IH];
        (split; [discriminate | constructor; [discriminate | constructor]]).
    + destruct (N.eq_dec c 0x212A%N) as [->|H2].
      * rewrite Hkelvin. change (lower_cp 0x212A%N) with [0x6B]%N.
        constructor; [reflexivity | exact IH].
      * apply skeleton_run; [apply Hother | apply lower_cp_outside | exact IH];
          assumption.
Qed.

Lemma lower_with_basic_latin tbl name :
  like_unicode tbl -> basic_latin name = true -> lower_with tbl name = lower name.
Proof.
  intros (Hlatin & _) Hn. induction name as [|c name IH]; [reflexivity|].
  simpl in Hn. apply andb_prop in Hn as [Hc Hn]. apply N.ltb_lt in Hc.
  change (tbl c ++ lower_with tbl name = lower_cp c ++ lower name).
  rewrite (Hlatin c Hc), (IH Hn). reflexivity.
Qed.

Lemma airlines_basic_latin :
  forallb (fun name => basic_latin name && basic_latin (lower name)
                       && nonempty (lower name)) airlines = true.
Proof. vm_compute. reflexivity. Qed.

Lemma first_airline_with_table tbl text :
  like_unicode tbl ->
  forall names,
    forallb (fun name => basic_latin name && basic_latin (lower name)
                         && nonempty (lower name)) names = true ->
    first_airline_with tbl names text = first_airline names text.
Proof.
  intros Htbl. induction names as [|name names IH]; intros Hok; [reflexivity|].
  cbn [forallb] in Hok. apply andb_prop in Hok as [Hname Hok].
  apply andb_prop in Hname as [Hname Hne]. apply andb_prop in Hname as [Hn Hl].
  cbn [first_airline_with first_airline].
  rewrite (lower_with_basic_latin tbl name Htbl Hn).
  rewrite (str_in_skeleton _ _ (lower name) (lower_with_skeleton tbl text Htbl));
    [| apply nonempty_true; exact Hne | exact Hl].
  rewrite (IH Hok). reflexivity.
Qed.

Lemma _extract_airline_table_independent tbl text :
  like_unicode tbl -> first_airline_with tbl airlines text = _extract_airline text.
Proof.
  intros Htbl. apply first_airline_with_table; [exact Htbl | exact airlines_basic_latin].
Qed.

(** C8: the airline extractor returns the first carrier, in the order IndiGo,
    Air India, SpiceJet, GoAir, Vistara, AirAsia, whose name occurs in the
    text up to case, and the sentinel when none does; so its result is one of
    the six names or the sentinel. *)
Theorem airline_first_in_list_order (text : str) :
  airlines = [u "IndiGo"; u "Air India"; u "SpiceJet"; u "GoAir"; u "Vistara"; u "AirAsia"]
  /\ ((exists i name,
         airlines !! i = Some name /\ _extract_airline text = name
         /\ occurs_nocase name text
         /\ forall j name', j < i -> airlines !! j = Some name' ->
                            ~ occurs_nocase name' text)
      \/ (_extract_airline text = NA
          /\ forall name, name ∈ airlines -> ~ occurs_nocase name text))
  /\ (_extract_airline text ∈ airlines \/ _extract_airline text = NA).
Proof.
  split; [reflexivity|].
  pose proof (first_airline_spec text airlines airlines_aligned) as Hspec.
  split; [exact Hspec|].
  destruct Hspec as [(i & name & Hi & Hres & _)|[Hres _]].
  - left. unfold _extract_airline. rewrite Hres.
    eapply list_elem_of_lookup_2. exact Hi.
  - right. exact Hres.
Qed.

Lemma airline_first_in_list_order_witness :
  _extract_airline (u "codeshare: VISTARA / air india") = u "Air India"
  /\ ~ occurs_nocase (u "IndiGo") (u "codeshare: VISTARA / air india").
Proof.
  destruct (airline_first_in_list_order (u "codeshare: VISTARA / air india"))
    as (_ & [(i & name & Hi & Hres & Hocc & Hbefore)|[Hres _]] & _).
  - split; [reflexivity|].
    assert (name = u "Air India") as -> by (rewrite <- Hres; reflexivity).
    destruct i as [|i]; [vm_compute in Hi; discriminate|].
    apply (Hbefore 0 (u "IndiGo")); [lia | reflexivity].
  - exfalso. vm_compute in Hres. discriminate.
Defined.

Example airline_ambiguous_text :
  _extract_airline (u "codeshare: VISTARA / air india") = u "Air India".
Proof. reflexivity. Qed.

(** ** The monad *)

Lemma bind_run {W A B} (m : M W A) (f : A -> M W B) st :
  (m ≫= f) st =
    match m st with
    | (Returned a, st') => f a st'
    | (Raised e, st') => (Raised e, st')
    end.
Proof. reflexivity. Qed.

Lemma ret_run {W A} (a : A) (st : state W) :
  (mret a : M W A) st = (Returned a, st).
Proof. reflexivity. Qed.

(** A property of outcomes that every exception satisfies holds of a
    sequence as soon as it holds of its last part. *)
Lemma bind_post {W A B} (Q : outcome B -> Prop) (m : M W A) (f : A -> M W B) st :
  (forall e, Q (Raised e)) ->
  (forall a st', Q (f a st').1) ->
  Q ((m ≫= f) st).1.
Proof.
  intros Hraise Hf. rewrite bind_run.
  destruct (m st) as [[a|e] st']; [apply Hf | apply Hraise].
Qed.

Lemma try_finally_post {W A} (Q : outcome A -> Prop) (body : M W A) final st :
  (forall e, Q (Raised e)) ->
  Q (body st).1 ->
  Q (try_finally body final st).1.
Proof.
  intros Hraise Hbody. unfold try_finally.
  destruct (body st) as [r st']. destruct (final st') as [[[]|e] st''];
    [exact Hbody | apply Hraise].
Qed.

Lemma engine_call_run {W A} c (op : W -> outcome A * W) (st : state W) :
  engine_call c op st =
    ((op (world st)).1,
     State (op (world st)).2 (self st) (trace st ++ [c]) (flights_var st)).
Proof. unfold engine_call. destruct (op (world st)); reflexivity. Qed.

Lemma queries_app t1 t2 : queries (t1 ++ t2) = queries t1 ++ queries t2.
Proof. unfold queries. apply omap_app. Qed.

Lemma has_real_data_build o d ts text :
  has_real_data (build_flight o d ts text) = real_data_text text.
Proof. reflexivity. Qed.

Lemma has_real_data_retained f : has_real_data f = true -> retained f.
Proof.
  unfold has_real_data, retained. intros H. apply orb_prop in H as [H|H];
    apply negb_true_iff, bool_decide_eq_false in H; [left | right]; exact H.
Qed.

Lemma assemble_retained o d ts texts : Forall retained (assemble o d ts texts).
Proof.
  unfold assemble. apply Forall_fmap, Forall_forall.
  intros t Ht. apply list_elem_of_filter in Ht as [Ht _].
  apply has_real_data_retained. rewrite has_real_data_build. exact Ht.
Qed.

Lemma assemble_cons o d ts t texts :
  assemble o d ts (t :: texts) =
    (if real_data_text t then [build_flight o d ts t] else [])
    ++ assemble o d ts texts.
Proof.
  unfold assemble. rewrite filter_cons.
  destruct (real_data_text t) eqn:Ht.
  - rewrite decide_True by reflexivity. reflexivity.
  - rewrite decide_False by discriminate. reflexivity.
Qed.

(** ** The element loop *)

Section Loops.
Context {W : Type} (E : Engine W).
Implicit Types (st : state W) (o d ts : str).

Lemma for_elems_cons o d ts e rest st :
  for_elems E o d ts (e :: rest) st =
    match elem_inner_text E e (world st) with
    | (Returned text, w) =>
        for_elems E o d ts rest
          (State w (self st) (trace st ++ [CInnerText e])
             (flights_var st
              ++ if real_data_text text then [build_flight o d ts text] else []))
    | (Raised x, w) =>
        (Raised x, State w (self st) (trace st ++ [CInnerText e]) (flights_var st))
    end.
Proof.
  cbn [for_elems]. rewrite bind_run, engine_call_run.
  destruct (elem_inner_text E e (world st)) as [[text|x] w]; [|reflexivity].
  cbn [fst snd]. rewrite bind_run, has_real_data_build.
  destruct (real_data_text text); cbn.
  - reflexivity.
  - rewrite app_nil_r. reflexivity.
Qed.

(** Whatever the engine answers, the element loop queries no selector,
    leaves the scraper object alone and only appends retained records. *)
Lemma for_elems_effect o d ts elems : forall st,
  queries (trace (for_elems E o d ts elems st).2) = queries (trace st)
  /\ self (for_elems E o d ts elems st).2 = self st
  /\ exists extra,
       flights_var (for_elems E o d ts elems st).2 = flights_var st ++ extra
       /\ Forall retained extra.
Proof.
  induction elems as [|e rest IH]; intros st.
  - cbn. repeat split. exists []. rewrite app_nil_r. split; [reflexivity | constructor].
  - rewrite for_elems_cons.
    destruct (elem_inner_text E e (world st)) as [[text|x] w].
    + match goal with |- context [for_elems E o d ts rest ?s] =>
        destruct (IH s) as (Hq & Hs & extra & Hf & Hall) end.
      cbn [trace self flights_var] in Hq, Hs, Hf.
      rewrite Hq, Hs, Hf. rewrite queries_app. cbn. rewrite app_nil_r.
      repeat split.
      exists ((if real_data_text text then [build_flight o d ts text] else []) ++ extra).
      rewrite app_assoc. split; [reflexivity|].
      apply Forall_app. split; [|exact Hall].
      destruct (real_data_text text) eqn:Ht; [|constructor].
      constructor; [|constructor]. apply has_real_data_retained.
      rewrite has_real_data_build. exact Ht.
    + cbn. rewrite queries_app. cbn. rewrite app_nil_r. repeat split.
      exists []. rewrite app_nil_r. split; [reflexivity | constructor].
Qed.

(** When every text read succeeds, the loop appends exactly the records
    assembled from the captured texts. *)
Lemma for_elems_capture o d ts elems : forall st texts w',
  capture E elems (world st) = (Returned texts, w') ->
  exists st',
    for_elems E o d ts elems st = (Returned tt, st')
    /\ world st' = w'
    /\ flights_var st' = flights_var st ++ assemble o d ts texts.
Proof.
  induction elems as [|e rest IH]; intros st texts w' Hcap.
  - cbn in Hcap. injection Hcap as <- <-. exists st. cbn.
    rewrite app_nil_r. repeat split.
  - rewrite for_elems_cons. cbn [capture] in Hcap.
    destruct (elem_inner_text E e (world st)) as [[text|x] w]; [|discriminate].
    destruct (capture E rest w) as [[ts'|x] w2] eqn:Hrest; [|discriminate].
    injection Hcap as <- <-.
    match goal with |- context [for_elems E o d ts rest ?s] =>
      destruct (IH s ts' w2 Hrest) as (st' & Hrun & Hw & Hf) end.
    exists st'. split; [exact Hrun|]. split; [exact Hw|].
    rewrite Hf. cbn [flights_var]. rewrite assemble_cons, app_assoc. reflexivity.
Qed.

End Loops.

(** ** The selector loop *)

Section Selectors.
Context {W : Type} (E : Engine W).
Implicit Types (st : state W) (o d ts : str).

Lemma try_selector_run o d ts sel st :
  try_selector E o d ts sel st =
    match locator_all E sel (world st) with
    | (Returned elements, w) =>
        let st1 := State w (self st) (trace st ++ [CLocatorAll sel]) (flights_var st) in
        if nonempty elements then
          match for_elems E o d ts (take 15 elements) st1 with
          | (Returned _, st2) =>
              (Returned (if nonempty (flights_var st2)
                         then Some (flights_var st2) else None), st2)
          | (Raised x, st2) => (Raised x, st2)
          end
        else (Returned None, st1)
    | (Raised x, w) =>
        (Raised x, State w (self st) (trace st ++ [CLocatorAll sel]) (flights_var st))
    end.
Proof.
  unfold try_selector. rewrite bind_run, engine_call_run.
  destruct (locator_all E sel (world st)) as [[elements|x] w]; [|reflexivity].
  cbn [fst snd]. cbv zeta. destruct (nonempty elements); [|reflexivity].
  rewrite bind_run.
  destruct (for_elems E o d ts (take 15 elements) _) as [[[]|x] st2]; [|reflexivity].
  rewrite bind_run. cbn. destruct (nonempty (flights_var st2)); reflexivity.
Qed.

Lemma for_selectors_cons o d ts sel rest st :
  for_selectors E o d ts (sel :: rest) st =
    match selector_turn E o d ts sel st with
    | (Returned (Some flights), st') => (Returned flights, st')
    | (Returned None, st') => for_selectors E o d ts rest st'
    | (Raised x, st') => (Raised x, st')
    end.
Proof.
  cbn [for_selectors]. rewrite bind_run.
  destruct (selector_turn E o d ts sel st) as [[[fl|]|x] st']; reflexivity.
Qed.

(** A turn never raises; it queries its selector and no other; it only
    appends retained records; and it asks for a return only with the list
    [flights], then not empty. *)
Lemma selector_turn_effect o d ts sel st :
  exists r st',
    selector_turn E o d ts sel st = (Returned r, st')
    /\ queries (trace st') = queries (trace st) ++ [sel]
    /\ self st' = self st
    /\ (exists extra, flights_var st' = flights_var st ++ extra /\ Forall retained extra)
    /\ (forall fl, r = Some fl -> fl = flights_var st' /\ fl <> []).
Proof.
  unfold selector_turn, try_except. rewrite try_selector_run.
  destruct (locator_all E sel (world st)) as [[elements|x] w].
  - cbv zeta. destruct (nonempty elements).
    + match goal with |- context [for_elems E o d ts ?l ?s] =>
        pose proof (for_elems_effect E o d ts l s) as Heff;
        destruct (for_elems E o d ts l s) as [[[]|x] st2] eqn:Hfe end;
        destruct Heff as (Hq & Hs & extra & Hf & Hall);
        cbn [fst snd trace self flights_var] in Hq, Hs, Hf.
      * eexists _, st2. split; [reflexivity|].
        rewrite Hq, queries_app. split; [reflexivity|]. split; [exact Hs|].
        split; [exists extra; split; assumption|].
        intros fl. destruct (nonempty (flights_var st2)) eqn:Hne; [|discriminate].
        intros [= <-]. split; [reflexivity | apply nonempty_true, Hne].
      * exists None, st2. split; [reflexivity|].
        rewrite Hq, queries_app. split; [reflexivity|]. split; [exact Hs|].
        split; [exists extra; split; assumption | discriminate].
    + eexists None, _. split; [reflexivity|]. cbn [trace self flights_var].
      rewrite queries_app.
      split; [reflexivity|]. split; [reflexivity|].
      split; [exists []; rewrite app_nil_r; split; [reflexivity | constructor] | discriminate].
  - eexists None, _. split; [reflexivity|]. cbn [trace self flights_var].
    rewrite queries_app.
    split; [reflexivity|]. split; [reflexivity|].
    split; [exists []; rewrite app_nil_r; split; [reflexivity | constructor] | discriminate].
Qed.

(** The selector loop never raises and queries a prefix of its list, in
    order; it stops before the end of the list only to return a list that is
    not empty; every record it returns is retained. *)
Lemma for_selectors_effect o d ts sels : forall st,
  Forall retained (flights_var st) ->
  exists n fl st',
    for_selectors E o d ts sels st = (Returned fl, st')
    /\ queries (trace st') = queries (trace st) ++ take n sels
    /\ n <= length sels
    /\ (n < length sels -> fl <> [])
    /\ (sels <> [] -> 1 <= n)
    /\ self st' = self st
    /\ Forall retained fl.
Proof.
  induction sels as [|sel rest IH]; intros st Hinv.
  - exists 0, [], st. cbn [for_selectors take length]. rewrite app_nil_r.
    repeat split; auto; try lia; try congruence.
  - rewrite for_selectors_cons.
    destruct (selector_turn_effect o d ts sel st)
      as (r & st1 & Hrun & Hq & Hs & (extra & Hf & Hall) & Hret).
    rewrite Hrun. destruct r as [fl|].
    + destruct (Hret fl eq_refl) as [-> Hne].
      exists 1, (flights_var st1), st1. cbn [take length].
      rewrite take_0. repeat split; auto; try lia.
      rewrite Hf. apply Forall_app. split; assumption.
    + destruct (IH st1) as (n & fl & st' & Hrun' & Hq' & Hn & Hstop & _ & Hs' & Hfl).
      { rewrite Hf. apply Forall_app. split; assumption. }
      exists (S n), fl, st'. split; [exact Hrun'|].
      rewrite Hq', Hq, <- app_assoc. cbn [take length app].
      repeat split; auto; try lia.
      * intros Hlt. apply Hstop. lia.
      * congruence.
Qed.

(** When every query of the list finds no element, the loop returns the
    empty list. *)
Lemma for_selectors_no_candidate o d ts sels : forall st,
  (forall s w, s ∈ sels -> (locator_all E s w).1 = Returned []) ->
  exists st', for_selectors E o d ts sels st = (Returned [], st').
Proof.
  induction sels as [|sel rest IH]; intros st Hzero.
  - exists st. reflexivity.
  - rewrite for_selectors_cons. unfold selector_turn, try_except.
    rewrite try_selector_run.
    pose proof (Hzero sel (world st) ltac:(left)) as Hsel.
    destruct (locator_all E sel (world st)) as [r w]. cbn in Hsel. subst r.
    cbn. apply IH. intros s w' Hs. apply Hzero. right. exact Hs.
Qed.

End Selectors.

(** ** The selector loop on a page whose queries and text reads succeed *)

Lemma assemble_nil o d ts texts :
  Forall (fun t => real_data_text t = false) texts -> assemble o d ts texts = [].
Proof.
  induction 1 as [|t texts Ht _ IH]; [reflexivity|].
  rewrite assemble_cons, Ht, IH. reflexivity.
Qed.

Lemma assemble_not_nil o d ts texts :
  Exists (fun t => real_data_text t = true) texts -> assemble o d ts texts <> [].
Proof.
  induction 1 as [t texts Ht|t texts _ IH]; rewrite assemble_cons.
  - rewrite Ht. discriminate.
  - destruct (real_data_text t); [discriminate | exact IH].
Qed.

Section StaticPage.
Context {W : Type} (E : Engine W).
Context (page : str -> list elem) (text_of : elem -> str).
Hypothesis Hpage : forall s w, (locator_all E s w).1 = Returned (page s).
Hypothesis Htext : forall e w, (elem_inner_text E e w).1 = Returned (text_of e).
Implicit Types (st : state W) (o d ts : str).

Lemma capture_static elems : forall w,
  exists w', capture E elems w = (Returned (text_of <$> elems), w').
Proof using Htext.
  induction elems as [|e rest IH]; intros w.
  - exists w. reflexivity.
  - cbn [capture]. pose proof (Htext e w) as He.
    destruct (elem_inner_text E e w) as [r w1]. cbn in He. subst r.
    destruct (IH w1) as [w2 ->]. exists w2. reflexivity.
Qed.

Lemma selector_turn_static o d ts sel st :
  flights_var st = [] ->
  exists st',
    selector_turn E o d ts sel st
    = (Returned (if nonempty (assemble o d ts (texts_of page text_of sel))
                 then Some (assemble o d ts (texts_of page text_of sel))
                 else None), st')
    /\ queries (trace st') = queries (trace st) ++ [sel]
    /\ flights_var st' = assemble o d ts (texts_of page text_of sel).
Proof using Hpage Htext.
  intros Hempty. unfold selector_turn, try_except. rewrite try_selector_run.
  pose proof (Hpage sel (world st)) as Hsel.
  destruct (locator_all E sel (world st)) as [r w]. cbn in Hsel. subst r.
  cbv zeta. unfold texts_of.
  destruct (page sel) as [|e elements] eqn:Hp.
  - cbn [nonempty take fmap list_fmap]. eexists. split; [reflexivity|].
    cbn [trace flights_var]. rewrite queries_app. split; [reflexivity | exact Hempty].
  - cbn [nonempty].
    match goal with |- context [for_elems E o d ts ?l ?s] =>
      destruct (capture_static l (world s)) as [w' Hcap];
      destruct (for_elems_capture E o d ts l s _ _ Hcap) as (st2 & Hrun & _ & Hf);
      pose proof (for_elems_effect E o d ts l s) as (Hq & _)
    end.
    rewrite Hrun in Hq |- *. cbn [fst snd trace flights_var] in Hq, Hf.
    rewrite Hempty in Hf. cbn [app] in Hf.
    exists st2. rewrite Hf. split; [reflexivity|]. rewrite Hq, queries_app.
    split; reflexivity.
Qed.

Lemma for_selectors_static o d ts pre : forall post st,
  flights_var st = [] ->
  (forall s, s ∈ pre ->
     Forall (fun t => real_data_text t = false) (texts_of page text_of s)) ->
  match post with
  | [] => True
  | sel :: _ => Exists (fun t => real_data_text t = true) (texts_of page text_of sel)
  end ->
  exists st',
    for_selectors E o d ts (pre ++ post) st
    = (Returned (match post with
                 | [] => []
                 | sel :: _ => assemble o d ts (texts_of page text_of sel)
                 end), st')
    /\ queries (trace st') = queries (trace st) ++ pre ++ take 1 post.
Proof using Hpage Htext.
  induction pre as [|s pre IH]; intros post st Hempty Hpre Hpost.
  - cbn [app]. destruct post as [|sel post].
    + exists st. cbn. rewrite app_nil_r. split; reflexivity.
    + rewrite for_selectors_cons.
      destruct (selector_turn_static o d ts sel st Hempty) as (st' & -> & Hq & _).
      apply (assemble_not_nil o d ts) in Hpost.
      destruct (assemble o d ts (texts_of page text_of sel)) as [|f fl]; [congruence|].
      cbn [nonempty]. exists st'. split; [reflexivity | exact Hq].
  - cbn [app]. rewrite for_selectors_cons.
    destruct (selector_turn_static o d ts s st Hempty) as (st1 & -> & Hq & Hf).
    rewrite (assemble_nil o d ts) in * by (apply Hpre; left).
    cbn [nonempty].
    destruct (IH post st1 Hf) as (st' & Hrun & Hq'); [|exact Hpost|].
    { intros s' Hs'. apply Hpre. right. exact Hs'. }
    exists st'. split; [exact Hrun|]. rewrite Hq', Hq, <- !app_assoc. reflexivity.
Qed.

End StaticPage.

(** ** Extraction, scraping and search *)

Section Search.
Context {W : Type} (E : Engine W).
Implicit Types (st : state W) (o d date : str).

Lemma utcnow_run st :
  utcnow E st =
    (Returned (timestamp_at E st),
     State (utcnow_isoformat E (world st)).2 (self st) (trace st ++ [CUtcNow])
       (flights_var st)).
Proof.
  unfold utcnow, timestamp_at. rewrite engine_call_run.
  destruct (utcnow_isoformat E (world st)); reflexivity.
Qed.

Lemma _extract_flights_from_dom_run o d st :
  _extract_flights_from_dom E o d st =
    for_selectors E o d (timestamp_at E st) selectors
      (State (utcnow_isoformat E (world st)).2 (self st) (trace st ++ [CUtcNow]) []).
Proof.
  unfold _extract_flights_from_dom. rewrite bind_run. cbn [set_flights].
  rewrite bind_run, utcnow_run. reflexivity.
Qed.

Lemma _get_mock_flights_run o d st :
  _get_mock_flights E o d st =
    (Returned (stamp o d (timestamp_at E st) <$> default [] (MOCK_FLIGHTS !! (o, d))),
     State (utcnow_isoformat E (world st)).2 (self st) (trace st ++ [CUtcNow])
       (flights_var st)).
Proof.
  unfold _get_mock_flights. rewrite bind_run, utcnow_run. reflexivity.
Qed.

(** The extraction never raises; it queries a prefix of [selectors], in
    order, at least the first one; it stops before the fifth only to return a
    list that is not empty; every record it returns is retained. *)
Lemma _extract_flights_from_dom_effect o d st :
  exists n flights st',
    _extract_flights_from_dom E o d st = (Returned flights, st')
    /\ queries (trace st') = queries (trace st) ++ take n selectors
    /\ 1 <= n <= 5
    /\ (n < 5 -> flights <> [])
    /\ self st' = self st
    /\ Forall retained flights.
Proof.
  rewrite _extract_flights_from_dom_run.
  match goal with |- context [for_selectors E o d ?ts selectors ?s] =>
    destruct (for_selectors_effect E o d ts selectors s)
      as (n & fl & st' & Hrun & Hq & Hn & Hstop & Hone & Hs & Hall);
      [constructor|] end.
  exists n, fl, st'. split; [exact Hrun|].
  cbn [trace self] in Hq, Hs. rewrite queries_app in Hq. cbn in Hq.
  rewrite app_nil_r in Hq.
  split; [exact Hq|]. change (length selectors) with 5 in *.
  repeat split; auto; try (apply Hone; discriminate).
Qed.

Lemma search_flights_run o d date st :
  search_flights E o d date st =
    if use_mock (self st) then _get_mock_flights E o d st
    else match _scrape_real_flights E o d date st with
         | (Returned (f :: fl), st1) => (Returned (f :: fl), st1)
         | (Returned [], st1) => _get_mock_flights E o d st1
         | (Raised _, st1) => _get_mock_flights E o d st1
         end.
Proof.
  unfold search_flights, try_except. rewrite bind_run. cbn [get_self].
  destruct (use_mock (self st)); cbn [negb].
  - rewrite bind_run, ret_run, _get_mock_flights_run. reflexivity.
  - rewrite !bind_run.
    destruct (_scrape_real_flights E o d date st) as [[[|f fl]|x] st1]; cbn [nonempty].
    + rewrite ret_run, _get_mock_flights_run. reflexivity.
    + rewrite !ret_run. reflexivity.
    + reflexivity.
Qed.

(** A property that holds of every exception and of the outcome of the
    extraction, whatever the state, holds of the outcome of the scraping,
    provided it passes from a list to the list or the empty list. *)
Lemma _scrape_real_flights_post (Q : outcome (list flight) -> Prop) o d date st :
  (forall e, Q (Raised e)) ->
  Q (Returned []) ->
  (forall st0, Q (_extract_flights_from_dom E o d st0).1) ->
  Q (_scrape_real_flights E o d date st).1.
Proof.
  intros Hraise Hnil Hextract. unfold _scrape_real_flights.
  apply try_finally_post; [exact Hraise|].
  do 11 (apply bind_post; [exact Hraise | intros ? ?]).
  match goal with |- Q ((_ ≫= _) ?s).1 =>
    rewrite bind_run; pose proof (Hextract s) as Hex;
    destruct (_extract_flights_from_dom E o d s) as [[fl|x] st2]
  end; cbn [fst] in *; [|exact Hex].
  destruct fl as [|f fl]; cbn; [exact Hnil | exact Hex].
Qed.

End Search.

Example banner_extraction :
  (_extract_flights_from_dom banner_engine (u "Chennai") (u "Mumbai")
     (start_state false)).1 = Returned [listing].
Proof. vm_compute. reflexivity. Qed.

(** ** The claims about the pipeline *)

(** C1, as stated, fails: the first strategy yields an element, its only
    record is discarded, and the second strategy is queried all the same. *)
Lemma later_strategy_queried_after_elements :
  (locator_all banner_engine sel_flight tt).1 = Returned [0]
  /\ nth 0 selectors [] = sel_flight
  /\ queries (trace (_extract_flights_from_dom banner_engine (u "Chennai") (u "Mumbai")
                       (start_state false)).2)
     = [sel_flight; sel_result].
Proof. vm_compute. repeat split; reflexivity. Qed.

(** C1, amended: on every page the strategies are queried in their fixed
    order, the first one always, none skipped, and the search stops before
    the fifth only to return a list of retained records that is not empty.
    On a page whose queries and text reads succeed, they are queried up to
    and including the first one whose elements (at most 15) yield a retained
    record, whose records are returned; no later strategy is queried.  A
    strategy none of whose elements yields a retained record does not stop
    the search, and when there is no such first strategy all five are queried
    and the result is empty. *)
Theorem extraction_stops_at_first_retained {W : Type} (E : Engine W)
    (o d : str) (st : state W) :
  (exists n flights st',
      _extract_flights_from_dom E o d st = (Returned flights, st')
      /\ queries (trace st') = queries (trace st) ++ take n selectors
      /\ 1 <= n <= 5
      /\ (n < 5 -> flights <> []))
  /\ forall (page : str -> list elem) (text_of : elem -> str) (pre post : list str),
      (forall s w, (locator_all E s w).1 = Returned (page s)) ->
      (forall e w, (elem_inner_text E e w).1 = Returned (text_of e)) ->
      selectors = pre ++ post ->
      (forall s, s ∈ pre ->
         Forall (fun t => real_data_text t = false) (texts_of page text_of s)) ->
      match post with
      | [] => True
      | sel :: _ =>
          Exists (fun t => real_data_text t = true) (texts_of page text_of sel)
      end ->
      exists st',
        _extract_flights_from_dom E o d st
        = (Returned (match post with
                     | [] => []
                     | sel :: _ =>
                         assemble o d (timestamp_at E st) (texts_of page text_of sel)
                     end), st')
        /\ queries (trace st') = queries (trace st) ++ pre ++ take 1 post.
Proof.
  split.
  - destruct (_extract_flights_from_dom_effect E o d st)
      as (n & fl & st' & Hrun & Hq & Hn & Hstop & _).
    exists n, fl, st'. repeat split; auto; lia.
  - intros page text_of pre post Hpage Htext Hsplit Hpre Hpost.
    rewrite _extract_flights_from_dom_run, Hsplit.
    match goal with |- context [for_selectors E o d ?ts (pre ++ post) ?s] =>
      destruct (for_selectors_static E page text_of Hpage Htext o d ts pre post s
                  eq_refl Hpre Hpost) as (st' & Hrun & Hq) end.
    exists st'. split; [exact Hrun|].
    rewrite Hq. cbn [trace]. rewrite queries_app. cbn. rewrite app_nil_r. reflexivity.
Qed.

Lemma banner_texts :
  texts_of banner_page banner_text sel_flight = [banner_text 0]
  /\ texts_of banner_page banner_text sel_result = [banner_text 1; banner_text 2].
Proof. split; vm_compute; reflexivity. Qed.

Lemma extraction_stops_at_first_retained_witness :
  exists st',
    _extract_flights_from_dom banner_engine (u "Chennai") (u "Mumbai") (start_state false)
    = (Returned (assemble (u "Chennai") (u "Mumbai")
                   (timestamp_at banner_engine (start_state false))
                   (texts_of banner_page banner_text sel_result)), st')
    /\ queries (trace st') = [] ++ [sel_flight] ++ [sel_result].
Proof.
  apply (proj2 (extraction_stops_at_first_retained banner_engine
                  (u "Chennai") (u "Mumbai") (start_state false))
           banner_page banner_text [sel_flight] (sel_result :: drop 2 selectors)).
  - reflexivity.
  - reflexivity.
  - reflexivity.
  - intros s Hs. apply list_elem_of_singleton in Hs as ->.
    rewrite (proj1 banner_texts). constructor; [vm_compute; reflexivity | constructor].
  - rewrite (proj2 banner_texts). left. vm_compute. reflexivity.
Defined.

(** C4: every record that the extraction returns has a departure or a price
    other than the sentinel, and so has every record that the scraping
    returns; the extraction always returns. *)
Theorem extracted_records_retained {W : Type} (E : Engine W)
    (o d date : str) (st : state W) :
  (exists flights st',
      _extract_flights_from_dom E o d st = (Returned flights, st')
      /\ Forall (fun f => departure f <> NA \/ price f <> NA) flights)
  /\ match (_scrape_real_flights E o d date st).1 with
     | Returned flights => Forall (fun f => departure f <> NA \/ price f <> NA) flights
     | Raised _ => True
     end.
Proof.
  split.
  - destruct (_extract_flights_from_dom_effect E o d st)
      as (n & fl & st' & Hrun & _ & _ & _ & _ & Hall).
    exists fl, st'. split; assumption.
  - apply (_scrape_real_flights_post E
             (fun r => match r with
                       | Returned flights => Forall retained flights
                       | Raised _ => True
                       end)).
    + intros e. exact I.
    + constructor.
    + intros st0.
      destruct (_extract_flights_from_dom_effect E o d st0)
        as (n & fl & st' & Hrun & _ & _ & _ & _ & Hall).
      rewrite Hrun. exact Hall.
Qed.

(** The listing with an airline and a flight number but neither time nor
    fare is dropped. *)
Example record_without_time_or_fare_dropped :
  _extract_airline (banner_text 2) = u "Air India"
  /\ _extract_flight_number (banner_text 2) = u "AI-504"
  /\ real_data_text (banner_text 2) = false
  /\ assemble (u "Chennai") (u "Mumbai") (u "2025-10-20T08:00:00Z")
       (texts_of banner_page banner_text sel_result) = [listing].
Proof. vm_compute. repeat split; reflexivity. Qed.

(** C3, as stated, fails: the query of the first selector raises, the
    exception is swallowed inside the selector loop, the second selector
    yields a listing, and the search returns that listing, not the (empty)
    mock lookup for the pair. *)
Lemma exception_in_selector_loop_no_fallback :
  (locator_all flaky_engine sel_flight tt).1 = Raised (Exn "TimeoutError")
  /\ (search_flights flaky_engine (u "Chennai") (u "Mumbai") (u "2025-10-25")
        (start_state false)).1 = Returned [listing]
  /\ (_get_mock_flights flaky_engine (u "Chennai") (u "Mumbai") (start_state false)).1
     = Returned [].
Proof. vm_compute. repeat split; reflexivity. Qed.

(** C3, amended: the search never raises.  An exception raised inside the
    selector loop is swallowed there and the loop goes on with the next
    selector, so the extraction itself never raises.  When the scraping
    raises, or returns no record, the search returns the mock lookup for the
    pair, and a list of scraped records that is not empty is returned as it
    is.  For a pair without a mock entry, such as (Chennai, Mumbai), the mock
    lookup is the empty list. *)
Theorem search_flights_always_answers {W : Type} (E : Engine W)
    (o d date : str) (st : state W) :
  (exists flights st', search_flights E o d date st = (Returned flights, st'))
  /\ (forall st0, exists flights st',
        _extract_flights_from_dom E o d st0 = (Returned flights, st'))
  /\ (if use_mock (self st) then
        search_flights E o d date st = _get_mock_flights E o d st
      else
        match _scrape_real_flights E o d date st with
        | (Returned (f :: fl), st1) =>
            search_flights E o d date st = (Returned (f :: fl), st1)
        | (Returned [], st1) | (Raised _, st1) =>
            search_flights E o d date st = _get_mock_flights E o d st1
        end)
  /\ (forall st1,
        (_get_mock_flights E o d st1).1
        = Returned (stamp o d (timestamp_at E st1) <$> default [] (MOCK_FLIGHTS !! (o, d))))
  /\ (forall st1,
        (_get_mock_flights E (u "Chennai") (u "Mumbai") st1).1 = Returned []).
Proof.
  split; [|split; [|split; [|split]]].
  - rewrite search_flights_run.
    destruct (use_mock (self st)).
    + rewrite _get_mock_flights_run. eauto.
    + destruct (_scrape_real_flights E o d date st) as [[[|f fl]|x] st1];
        rewrite ?_get_mock_flights_run; eauto.
  - intros st0.
    destruct (_extract_flights_from_dom_effect E o d st0) as (n & fl & st' & Hrun & _).
    eauto.
  - rewrite search_flights_run.
    destruct (use_mock (self st)); [reflexivity|].
    destruct (_scrape_real_flights E o d date st) as [[[|f fl]|x] st1]; reflexivity.
  - intros st1. rewrite _get_mock_flights_run. reflexivity.
  - intros st1. rewrite _get_mock_flights_run. reflexivity.
Qed.

(** C5: for the pair (Bangalore, Delhi), whatever the date, when the five
    selectors find no element the search returns ten records, one for each
    entry of the mock catalogue for the route, in catalogue order: each has
    the airline, flight number, departure, arrival and price of its entry,
    the origin Bangalore, the destination Delhi, and one timestamp, the same
    for the ten, which is a reading of the clock followed by Z. *)
Theorem bangalore_delhi_fallback {W : Type} (E : Engine W)
    (journey_date : str) (st : state W) :
  (forall s w, s ∈ selectors -> (locator_all E s w).1 = Returned []) ->
  exists flights ts st',
    search_flights E (u "Bangalore") (u "Delhi") journey_date st
    = (Returned flights, st')
    /\ length flights = 10
    /\ Forall2 (augmented (u "Bangalore") (u "Delhi") ts) bangalore_delhi flights
    /\ exists w, ts = (utcnow_isoformat E w).1 ++ u "Z".
Proof.
  intros Hzero.
  assert (forall st1, exists flights ts st',
            _get_mock_flights E (u "Bangalore") (u "Delhi") st1
            = (Returned flights, st')
            /\ length flights = 10
            /\ Forall2 (augmented (u "Bangalore") (u "Delhi") ts) bangalore_delhi flights
            /\ exists w, ts = (utcnow_isoformat E w).1 ++ u "Z")
    as Hmock.
  { intros st1. rewrite _get_mock_flights_run.
    eexists _, (timestamp_at E st1), _. split; [reflexivity|].
    split; [reflexivity|]. split.
    - change (default [] (MOCK_FLIGHTS !! (u "Bangalore", u "Delhi")))
        with bangalore_delhi.
      unfold bangalore_delhi. cbn [fmap list_fmap].
      repeat (constructor; [repeat split|]). constructor.
    - exists (world st1). reflexivity. }
  rewrite search_flights_run.
  destruct (use_mock (self st)); [apply Hmock|].
  pose proof (_scrape_real_flights_post E
                (fun r => r = Returned [] \/ exists e, r = Raised e)
                (u "Bangalore") (u "Delhi") journey_date st) as Hscrape.
  destruct Hscrape as [Hnil|[e He]].
  - intros e. right. eauto.
  - left. reflexivity.
  - intros st0. rewrite _extract_flights_from_dom_run.
    match goal with |- context [for_selectors E ?o ?d ?ts selectors ?s] =>
      destruct (for_selectors_no_candidate E o d ts selectors s Hzero) as [st' ->] end.
    left. reflexivity.
  - destruct (_scrape_real_flights E _ _ _ st) as [r st1]. cbn in Hnil. subst r.
    apply Hmock.
  - destruct (_scrape_real_flights E _ _ _ st) as [r st1]. cbn in He. subst r.
    apply Hmock.
Qed.

Lemma bangalore_delhi_fallback_witness :
  exists flights ts st',
    search_flights empty_engine (u "Bangalore") (u "Delhi") (u "2025-10-25")
      (start_state false)
    = (Returned flights, st')
    /\ length flights = 10
    /\ Forall2 (augmented (u "Bangalore") (u "Delhi") ts) bangalore_delhi flights
    /\ exists w, ts = (utcnow_isoformat empty_engine w).1 ++ u "Z".
Proof.
  apply (bangalore_delhi_fallback empty_engine (u "2025-10-25") (start_state false)).
  intros s w Hs. reflexivity.
Defined.

(** C9: the extractors are functions of the text, so two runs of the element
    loop over the same captured texts, with the same origin and destination,
    return and leave lists of records that agree on every field but the
    timestamp, whatever the engines, the worlds and the timestamps of the two
    runs. *)
Theorem assembly_deterministic {W1 W2 : Type} (E1 : Engine W1) (E2 : Engine W2)
    (o d ts1 ts2 : str) (elems1 elems2 : list elem)
    (st1 : state W1) (st2 : state W2) (texts : list str) (w1 : W1) (w2 : W2) :
  capture E1 elems1 (world st1) = (Returned texts, w1) ->
  capture E2 elems2 (world st2) = (Returned texts, w2) ->
  flights_var st1 = [] ->
  flights_var st2 = [] ->
  (for_elems E1 o d ts1 elems1 st1).1 = Returned tt
  /\ (for_elems E2 o d ts2 elems2 st2).1 = Returned tt
  /\ without_timestamp <$> flights_var (for_elems E1 o d ts1 elems1 st1).2
     = without_timestamp <$> flights_var (for_elems E2 o d ts2 elems2 st2).2
  /\ Forall2 (fun f1 f2 =>
                airline f1 = airline f2 /\ flight_number f1 = flight_number f2
                /\ departure f1 = departure f2 /\ arrival f1 = arrival f2
                /\ price f1 = price f2 /\ origin f1 = origin f2
                /\ destination f1 = destination f2)
       (flights_var (for_elems E1 o d ts1 elems1 st1).2)
       (flights_var (for_elems E2 o d ts2 elems2 st2).2).
Proof.
  intros Hc1 Hc2 He1 He2.
  destruct (for_elems_capture E1 o d ts1 elems1 st1 texts w1 Hc1) as (s1 & -> & _ & Hf1).
  destruct (for_elems_capture E2 o d ts2 elems2 st2 texts w2 Hc2) as (s2 & -> & _ & Hf2).
  cbn [fst snd]. rewrite Hf1, Hf2, He1, He2. cbn [app]. unfold assemble.
  split; [reflexivity|]. split; [reflexivity|].
  induction (filter (fun t => real_data_text t = true) texts) as [|t l [IH1 IH2]].
  - split; [reflexivity | constructor].
  - rewrite !fmap_cons. split.
    + f_equal. exact IH1.
    + constructor; [repeat split | exact IH2].
Qed.

Lemma assembly_deterministic_witness :
  without_timestamp
    <$> flights_var (for_elems banner_engine (u "Chennai") (u "Mumbai") (u "T1") [1; 2]
                       (start_state false)).2
  = without_timestamp
    <$> flights_var (for_elems flaky_engine (u "Chennai") (u "Mumbai") (u "T2") [1; 2]
                       (start_state true)).2.
Proof.
  refine (proj1 (proj2 (proj2
    (assembly_deterministic banner_engine flaky_engine (u "Chennai") (u "Mumbai")
       (u "T1") (u "T2") [1; 2] [1; 2] (start_state false) (start_state true)
       [banner_text 1; banner_text 2] tt tt _ _ _ _)))); reflexivity.
Defined.

(** C10: the mock catalogue has the single key (Bangalore, Delhi); for every
    other pair, the reversed route and another casing among them, the
    fallback lookup returns the empty list. *)
Theorem mock_catalogue_single_route {W : Type} (E : Engine W) (st : state W) :
  dom MOCK_FLIGHTS = ({[ (u "Bangalore", u "Delhi") ]} : gset (str * str))
  /\ (forall o d, (o, d) <> (u "Bangalore", u "Delhi") ->
        (_get_mock_flights E o d st).1 = Returned [])
  /\ (_get_mock_flights E (u "Delhi") (u "Bangalore") st).1 = Returned []
  /\ (_get_mock_flights E (u "bangalore") (u "delhi") st).1 = Returned [].
Proof.
  assert (forall o d, (o, d) <> (u "Bangalore", u "Delhi") ->
            (_get_mock_flights E o d st).1 = Returned []) as Hother.
  { intros o d Hne. rewrite _get_mock_flights_run. cbn [fst].
    unfold MOCK_FLIGHTS. rewrite lookup_singleton_ne by congruence. reflexivity. }
  split; [apply dom_singleton_L|]. split; [exact Hother|].
  split; apply Hother; discriminate.
Qed.

Lemma mock_catalogue_single_route_witness :
  (_get_mock_flights empty_engine (u "Bangalore") (u "Mumbai") (start_state false)).1
  = Returned [].
Proof.
  apply (proj1 (proj2 (mock_catalogue_single_route empty_engine (start_state false)))).
  discriminate.
Defined.

(** * Further properties of the code *)

(** ** The values that the extractors return *)

Lemma matches_cons_inv it r s gs n :
  matches (it :: r) s gs n ->
  exists k gs' n',
    within k (item_atom it) /\ k <= length s
    /\ Forall (fun c => cls (item_atom it) c = true) (take k s)
    /\ matches r (drop k s) gs' n'
    /\ gs = captured it (take k s) gs' /\ n = k + n'.
Proof.
  inversion 1 as [|? ? ? k gs' n' Hw Hl Ha Hr]; subst.
  exists k, gs', n'.
  split; [exact Hw|]. split; [exact Hl|]. split; [exact Ha|].
  split; [exact Hr|]. split; reflexivity.
Qed.

Lemma matches_nil_inv s gs n : matches [] s gs n -> gs = [] /\ n = 0.
Proof. inversion 1; subst. split; reflexivity. Qed.

(** An answer of [re.search] is the answer of the matcher at some position. *)
Lemma search_Some r s : forall gs,
  search r s = Some gs -> exists i n, match_here r (drop i s) = Some (gs, n).
Proof.
  induction s as [|c s IH]; intros gs; cbn [search].
  - destruct (match_here r []) as [[gs' n]|] eqn:Hm; [|discriminate].
    intros [= <-]. exists 0, n. exact Hm.
  - destruct (match_here r (c :: s)) as [[gs' n]|] eqn:Hm.
    + intros [= <-]. exists 0, n. exact Hm.
    + intros Hs. destruct (IH _ Hs) as (i & n & Hi). exists (S i), n. exact Hi.
Qed.

Lemma flight_number_re_groups s gs n :
  matches flight_number_re s gs n ->
  exists letters digits,
    gs = [letters; digits]
    /\ length letters = 2 /\ Forall (fun c => is_AZ c = true) letters
    /\ 3 <= length digits <= 4 /\ Forall (fun c => is_digit c = true) digits.
Proof.
  unfold flight_number_re. intros H.
  apply matches_cons_inv in H as (k1 & g1 & n1 & [Hlo1 Hhi1] & Hl1 & Ha1 & H & -> & ->).
  apply matches_cons_inv in H as (k2 & g2 & n2 & _ & Hl2 & _ & H & -> & ->).
  apply matches_cons_inv in H as (k3 & g3 & n3 & _ & Hl3 & _ & H & -> & ->).
  apply matches_cons_inv in H as (k4 & g4 & n4 & _ & Hl4 & _ & H & -> & ->).
  apply matches_cons_inv in H as (k5 & g5 & n5 & [Hlo5 Hhi5] & Hl5 & Ha5 & H & -> & ->).
  apply matches_nil_inv in H as [-> ->].
  cbn in Hlo1, Hhi1, Hlo5, Hhi5, Ha1, Ha5 |- *.
  eexists _, _. split; [reflexivity|].
  rewrite !length_take. repeat split; auto; lia.
Qed.

Lemma price_re_groups s gs n :
  matches price_re s gs n ->
  exists run,
    gs = [run] /\ run <> []
    /\ Forall (fun c => is_digit c || is_char comma c = true) run.
Proof.
  unfold price_re. intros H.
  apply matches_cons_inv in H as (k1 & g1 & n1 & _ & Hl1 & _ & H & -> & ->).
  apply matches_cons_inv in H as (k2 & g2 & n2 & _ & Hl2 & _ & H & -> & ->).
  apply matches_cons_inv in H as (k3 & g3 & n3 & [Hlo3 _] & Hl3 & Ha3 & H & -> & ->).
  apply matches_nil_inv in H as [-> ->].
  cbn in Hlo3, Ha3 |- *.
  eexists. split; [reflexivity|]. split; [|exact Ha3].
  intros Hnil. apply (f_equal length) in Hnil. rewrite length_take in Hnil.
  simpl in Hnil. lia.
Qed.

Lemma _extract_flight_number_shape (text : str) :
  _extract_flight_number text = NA \/ flight_number_shape (_extract_flight_number text).
Proof.
  unfold _extract_flight_number.
  destruct (search flight_number_re text) as [gs|] eqn:Hs; [right | left; reflexivity].
  apply search_Some in Hs as (i & n & Hm). apply match_here_sound in Hm.
  apply flight_number_re_groups in Hm as (letters & digits & -> & Hl & Hal & Hd & Had).
  exists letters, digits. repeat split; auto; lia.
Qed.

Lemma _extract_price_shape (text : str) :
  _extract_price text = NA \/ price_shape (_extract_price text).
Proof.
  unfold _extract_price.
  destruct (search price_re text) as [gs|] eqn:Hs; [right | left; reflexivity].
  apply search_Some in Hs as (i & n & Hm). apply match_here_sound in Hm.
  apply price_re_groups in Hm as (run & -> & Hne & Hall).
  exists run. repeat split; auto.
Qed.

(** X1: whatever the text, the flight-number extractor returns the sentinel
    or two capitals A-Z, one hyphen and three or four digits, and the price
    extractor returns the sentinel or the rupee sign followed by a run, not
    empty, of digits and commas: no whitespace, no other character. *)
Theorem extracted_values_have_pattern_shape (text : str) :
  (_extract_flight_number text = NA
   \/ flight_number_shape (_extract_flight_number text))
  /\ (_extract_price text = NA \/ price_shape (_extract_price text)).
Proof.
  split; [apply _extract_flight_number_shape | apply _extract_price_shape].
Qed.

(** ** The price after the first rupee sign *)

Lemma is_space_not_comma c : is_space c = true -> is_char comma c = false.
Proof.
  intros Hs. apply is_space_In in Hs.
  assert (forallb (fun c => negb (is_char comma c)) spaces = true) as Hall
    by (vm_compute; reflexivity).
  rewrite forallb_forall in Hall. apply Hall in Hs.
  apply negb_true_iff in Hs. exact Hs.
Qed.

Lemma digit_or_comma_not_space c : digit_or_comma c = true -> is_space c = false.
Proof.
  unfold digit_or_comma. intros H. destruct (is_space c) eqn:Hs; [|reflexivity].
  rewrite (is_space_not_digit c Hs), (is_space_not_comma c Hs) in H. discriminate.
Qed.

(** A pattern that starts with one given code point matches nowhere else. *)
Lemma match_here_first_char x r s :
  match s with [] => True | c :: _ => c <> x end ->
  match_here (Plain (one (is_char x)) :: r) s = None.
Proof.
  intros Hs. rewrite match_here_cons. cbv zeta. cbn [item_atom cls rmax rmin one].
  destruct s as [|c s]; [reflexivity|].
  cbn [span]. unfold is_char at 1.
  destruct (N.eqb_spec c x) as [->|_]; [contradiction | reflexivity].
Qed.

Lemma price_match ws run rest :
  Forall (fun c => is_space c = true) ws ->
  run <> [] ->
  Forall (fun c => digit_or_comma c = true) run ->
  match rest with [] => True | c :: _ => digit_or_comma c = false end ->
  exists n, match_here price_re (rupee :: ws ++ run ++ rest) = Some ([run], n).
Proof.
  intros Hws Hne Hrun Hrest.
  destruct run as [|d run]; [contradiction|].
  assert (digit_or_comma d = true) as Hd by (inversion Hrun; assumption).
  eexists. unfold price_re.
  apply (match_here_run (Plain (one (is_char rupee))) _ [rupee]);
    [repeat constructor | within_bounds | left; reflexivity |].
  apply (match_here_run (Plain (star is_space)));
    [assumption | within_bounds | right; simpl; apply digit_or_comma_not_space, Hd |].
  apply (match_here_run (Group (plus digit_or_comma)) [] (d :: run) rest [] 0);
    [assumption | within_bounds | right; exact Hrest | reflexivity].
Qed.

(** X2: when the first rupee sign of the text is followed by optional
    whitespace and then by digits or commas, the price extractor returns the
    rupee sign and the whole run of digits and commas, without the
    whitespace. *)
Theorem price_after_first_rupee (pre ws run rest : str) :
  rupee ∉ pre ->
  Forall (fun c => is_space c = true) ws ->
  run <> [] ->
  Forall (fun c => digit_or_comma c = true) run ->
  match rest with [] => True | c :: _ => digit_or_comma c = false end ->
  _extract_price (pre ++ rupee :: ws ++ run ++ rest) = rupee :: run.
Proof.
  intros Hpre Hws Hne Hrun Hrest.
  destruct (price_match ws run rest Hws Hne Hrun Hrest) as [n Hn].
  unfold _extract_price.
  rewrite (search_leftmost _ pre _ [run] n); [reflexivity | | exact Hn].
  intros i Hi. apply match_here_first_char.
  rewrite drop_app_le by lia.
  destruct (drop i pre) as [|c tl] eqn:Hdrop.
  - apply (f_equal length) in Hdrop. rewrite length_drop in Hdrop. simpl in Hdrop. lia.
  - simpl. intros ->. apply Hpre.
    rewrite <- (take_drop i pre), Hdrop. apply elem_of_app. right. left.
Qed.

Lemma price_after_first_rupee_witness :
  _extract_price (u "Fare: " ++ rupee :: u "  " ++ u "5,450" ++ u "/- only") = rs "5,450".
Proof.
  apply (price_after_first_rupee (u "Fare: ") (u "  ") (u "5,450") (u "/- only")).
  - intros Hin. vm_compute in Hin. repeat (apply elem_of_cons in Hin as [Hin|Hin]; [discriminate|]).
    apply elem_of_nil in Hin. exact Hin.
  - repeat constructor.
  - discriminate.
  - repeat constructor.
  - reflexivity.
Defined.

(** ** Texts that lack what a pattern needs *)

Lemma matches_groups_in r s gs n :
  matches r s gs n -> forall g c, g ∈ gs -> c ∈ g -> c ∈ s.
Proof.
  induction 1 as [s|it r s k gs n _ _ _ _ IH]; intros g c Hg Hc.
  - apply elem_of_nil in Hg. contradiction.
  - assert (forall x, x ∈ drop k s -> x ∈ s) as Hdrop.
    { intros x Hx. rewrite <- (take_drop k s). apply elem_of_app. right. exact Hx. }
    destruct it as [a|a]; cbn [captured] in Hg.
    + apply Hdrop. eapply IH; eassumption.
    + apply elem_of_cons in Hg as [->|Hg].
      * rewrite <- (take_drop k s). apply elem_of_app. left. exact Hc.
      * apply Hdrop. eapply IH; eassumption.
Qed.

Lemma time_at_needs s o :
  time_at s = Some o -> colon ∈ s /\ exists c, c ∈ s /\ is_digit c = true.
Proof.
  unfold time_at.
  destruct s as [|a [|b [|c [|d [|e s]]]]]; try discriminate.
  - destruct (is_digit a && is_char colon b && is_digit c && is_digit d) eqn:H;
      [|discriminate].
    intros _. repeat (apply andb_prop in H as [H ?]).
    match goal with Hc : is_char colon _ = true |- _ => apply is_char_eq in Hc as -> end.
    split; [right; left | exists a; split; [left | assumption]].
  - destruct (is_digit a && is_digit b && is_char colon c && is_digit d && is_digit e) eqn:H.
    + intros _. repeat (apply andb_prop in H as [H ?]).
      match goal with Hc : is_char colon _ = true |- _ => apply is_char_eq in Hc as -> end.
      split; [right; right; left | exists a; split; [left | assumption]].
    + clear H.
      destruct (is_digit a && is_char colon b && is_digit c && is_digit d) eqn:H;
        [|discriminate].
      intros _. repeat (apply andb_prop in H as [H ?]).
      match goal with Hc : is_char colon _ = true |- _ => apply is_char_eq in Hc as -> end.
      split; [right; left | exists a; split; [left | assumption]].
Qed.

Lemma no_time_occurrence s :
  (colon ∉ s \/ forall c, c ∈ s -> is_digit c = false) ->
  forall k, time_occurrences_from k s = [].
Proof.
  induction s as [|c s IH]; intros Hno [|k]; cbn [time_occurrences_from]; try reflexivity.
  - destruct (time_at (c :: s)) as [o|] eqn:Hat.
    + exfalso. apply time_at_needs in Hat as [Hcolon (x & Hx & Hd)].
      destruct Hno as [Hno|Hno]; [exact (Hno Hcolon)|].
      rewrite (Hno x Hx) in Hd. discriminate.
    + apply IH. destruct Hno as [Hno|Hno]; [left | right].
      * intros Hin. apply Hno. right. exact Hin.
      * intros x Hx. apply Hno. right. exact Hx.
  - apply IH. destruct Hno as [Hno|Hno]; [left | right].
    + intros Hin. apply Hno. right. exact Hin.
    + intros x Hx. apply Hno. right. exact Hx.
Qed.

(** X3: a text without a colon has no departure and no arrival; a text without
    a rupee sign has no price; a text without a digit has no flight number,
    no departure and no arrival. *)
Theorem extractors_need_their_marker (text : str) :
  (colon ∉ text -> _extract_departure text = NA /\ _extract_arrival text = NA)
  /\ (rupee ∉ text -> _extract_price text = NA)
  /\ ((forall c, c ∈ text -> is_digit c = false) ->
      _extract_flight_number text = NA
      /\ _extract_departure text = NA /\ _extract_arrival text = NA).
Proof.
  assert (forall s : str,
            (colon ∉ s \/ forall c, c ∈ s -> is_digit c = false) ->
            _extract_departure s = NA /\ _extract_arrival s = NA) as Htimes.
  { intros s Hs. rewrite _extract_departure_spec, _extract_arrival_spec.
    unfold time_occurrences. rewrite (no_time_occurrence s Hs). split; reflexivity. }
  split; [|split].
  - intros Hno. apply Htimes. left. exact Hno.
  - intros Hno. unfold _extract_price. rewrite search_none; [reflexivity|].
    intros i. apply match_here_first_char.
    destruct (drop i text) as [|c tl] eqn:Hdrop; [exact I|].
    intros ->. apply Hno. rewrite <- (take_drop i text), Hdrop.
    apply elem_of_app. right. left.
  - intros Hno. split; [|apply Htimes; right; exact Hno].
    unfold _extract_flight_number.
    destruct (search flight_number_re text) as [gs|] eqn:Hs; [|reflexivity].
    exfalso. apply search_Some in Hs as (i & n & Hm). apply match_here_sound in Hm.
    pose proof (matches_groups_in _ _ _ _ Hm) as Hin.
    apply flight_number_re_groups in Hm as (letters & digits & -> & _ & _ & Hd & Had).
    destruct digits as [|x digits]; [simpl in Hd; lia|].
    assert (x ∈ drop i text) as Hx
      by (apply (Hin (x :: digits)); [right; left | left]).
    assert (x ∈ text) as Hx'
      by (rewrite <- (take_drop i text); apply elem_of_app; right; exact Hx).
    inversion Had as [|? ? Hdx _]; subst. rewrite (Hno x Hx') in Hdx. discriminate.
Qed.

Lemma extractors_need_their_marker_witness :
  _extract_departure (u "IndiGo 6E 123, fare on request") = NA
  /\ _extract_arrival (u "IndiGo 6E 123, fare on request") = NA
  /\ _extract_price (u "IndiGo 6E 123, fare on request") = NA
  /\ _extract_flight_number (u "Air India, morning") = NA.
Proof.
  pose proof (extractors_need_their_marker (u "IndiGo 6E 123, fare on request"))
    as (Hc & Hr & _).
  pose proof (extractors_need_their_marker (u "Air India, morning")) as (_ & _ & Hd).
  assert (forall (x : N) (l : str), bool_decide (x ∈ l) = false -> x ∉ l) as Hnotin
    by (intros x l H; apply bool_decide_eq_false in H; exact H).
  split; [apply Hc; apply Hnotin; vm_compute; reflexivity|].
  split; [apply Hc; apply Hnotin; vm_compute; reflexivity|].
  split; [apply Hr; apply Hnotin; vm_compute; reflexivity|].
  apply Hd. intros c Hin.
  assert (forallb (fun c => negb (is_digit c)) (u "Air India, morning") = true) as Hall
    by (vm_compute; reflexivity).
  rewrite forallb_forall in Hall. apply negb_true_iff, Hall.
  apply list_elem_of_In. exact Hin.
Defined.

(** X4: a text from which an arrival time is extracted also yields a departure
    time, so that its record is retained. *)
Theorem arrival_implies_departure (text : str) :
  _extract_arrival text <> NA ->
  _extract_departure text <> NA /\ real_data_text text = true.
Proof.
  intros Harr.
  assert (_extract_departure text <> NA) as Hdep.
  { rewrite _extract_departure_spec. rewrite _extract_arrival_spec in Harr.
    pose proof (time_occurrences_shape text 0) as Hshape.
    fold (time_occurrences text) in Hshape.
    destruct (time_occurrences text) as [|o1 [|o2 rest]]; simpl in *;
      [congruence | congruence |].
    intros ->. specialize (Hshape NA ltac:(left)). vm_compute in Hshape. discriminate. }
  split; [exact Hdep|].
  unfold real_data_text. rewrite (bool_decide_eq_false_2 _ Hdep). reflexivity.
Qed.

Lemma arrival_implies_departure_witness :
  _extract_departure (u "06:30 - 09:10") <> NA
  /\ real_data_text (u "06:30 - 09:10") = true.
Proof.
  apply (arrival_implies_departure (u "06:30 - 09:10")). discriminate.
Defined.

(** ** A scraping attempt *)

Section OnPageFacts.
Context {W : Type} (E : Engine W).

Lemma extract_and_flag_run o d st :
  extract_and_flag E o d st =
    match _extract_flights_from_dom E o d st with
    | (Returned (f :: fl), st1) => (Returned (f :: fl), with_success st1)
    | (Returned [], st1) => (Returned [], st1)
    | (Raised e, st1) => (Raised e, st1)
    end.
Proof.
  unfold extract_and_flag. rewrite bind_run.
  destruct (_extract_flights_from_dom E o d st) as [[[|f fl]|e] st1]; reflexivity.
Qed.

Lemma _scrape_real_flights_on_page o d date :
  _scrape_real_flights E o d date
  = try_finally (initialize E ;; on_page E o d date) (close E).
Proof. reflexivity. Qed.

End OnPageFacts.

Section Frame.
Context {W : Type} (E : Engine W) (R : state W -> state W -> Prop) (HR : frame R).

Lemma respects_ret {A} (a : A) : respects R (mret a : M W A).
Proof using HR. intros st. apply (frame_refl R HR). Qed.

Lemma respects_raise {A} e : respects R (raise e : M W A).
Proof using HR. intros st. apply (frame_refl R HR). Qed.

Lemma respects_bind {A B} (m : M W A) (f : A -> M W B) :
  respects R m -> (forall a, respects R (f a)) -> respects R (m ≫= f).
Proof using HR.
  intros Hm Hf st. rewrite bind_run. specialize (Hm st).
  destruct (m st) as [[a|e] st1]; cbn [snd] in *; [|exact Hm].
  eapply (frame_trans R HR); [exact Hm | apply Hf].
Qed.

Lemma respects_try_except {A} (body : M W A) handler :
  respects R body -> (forall e, respects R (handler e)) ->
  respects R (try_except body handler).
Proof using HR.
  intros Hb Hh st. unfold try_except. specialize (Hb st).
  destruct (body st) as [[a|e] st1]; cbn [snd] in *; [exact Hb|].
  eapply (frame_trans R HR); [exact Hb | apply Hh].
Qed.

Lemma respects_try_finally {A} (body : M W A) final :
  respects R body -> respects R final -> respects R (try_finally body final).
Proof using HR.
  intros Hb Hf st. unfold try_finally. specialize (Hb st).
  destruct (body st) as [r st1]. specialize (Hf st1).
  destruct (final st1) as [[[]|e] st2]; cbn [snd] in *;
    eapply (frame_trans R HR); eassumption.
Qed.

Lemma respects_engine_call {A} c (op : W -> outcome A * W) :
  page_call c = true -> respects R (engine_call c op).
Proof using HR.
  intros Hc st. rewrite engine_call_run. apply (frame_call R HR). exact Hc.
Qed.

Lemma respects_get_self : respects R (get_self (W:=W)).
Proof using HR. intros st. apply (frame_refl R HR). Qed.

Lemma respects_get_flights : respects R (get_flights (W:=W)).
Proof using HR. intros st. apply (frame_refl R HR). Qed.

Lemma respects_set_flights fl : respects R (set_flights (W:=W) fl).
Proof using HR. intros st. apply (frame_flights R HR). Qed.

Lemma respects_utcnow : respects R (utcnow E).
Proof using HR. intros st. rewrite utcnow_run. apply (frame_call R HR). reflexivity. Qed.

Lemma respects_for_elems o d ts elems : respects R (for_elems E o d ts elems).
Proof using HR.
  induction elems as [|e rest IH]; [apply respects_ret|].
  cbn [for_elems]. apply respects_bind; [apply respects_engine_call; reflexivity|].
  intros text. cbv zeta. apply respects_bind; [|intros _; exact IH].
  destruct (has_real_data _); [|apply respects_ret].
  apply respects_bind; [apply respects_get_flights | intros fl; apply respects_set_flights].
Qed.

Lemma respects_selector_turn o d ts sel : respects R (selector_turn E o d ts sel).
Proof using HR.
  unfold selector_turn. apply respects_try_except; [|intros _; apply respects_ret].
  unfold try_selector. apply respects_bind; [apply respects_engine_call; reflexivity|].
  intros elements. destruct (nonempty elements); [|apply respects_ret].
  apply respects_bind; [apply respects_for_elems|]. intros _.
  apply respects_bind; [apply respects_get_flights|]. intros fl.
  destruct (nonempty fl); apply respects_ret.
Qed.

Lemma respects_for_selectors o d ts sels : respects R (for_selectors E o d ts sels).
Proof using HR.
  induction sels as [|sel rest IH]; [apply respects_ret|].
  cbn [for_selectors]. apply respects_bind; [apply respects_selector_turn|].
  intros [fl|]; [apply respects_ret | exact IH].
Qed.

Lemma respects_extract o d : respects R (_extract_flights_from_dom E o d).
Proof using HR.
  unfold _extract_flights_from_dom.
  apply respects_bind; [apply respects_set_flights|]. intros _.
  apply respects_bind; [apply respects_utcnow|]. intros ts.
  apply respects_for_selectors.
Qed.

Lemma respects_get_mock o d : respects R (_get_mock_flights E o d).
Proof using HR.
  unfold _get_mock_flights. apply respects_bind; [apply respects_utcnow|].
  intros ts. apply respects_ret.
Qed.

Lemma respects_click_search buttons : respects R (click_search E buttons).
Proof using HR.
  induction buttons as [|btn rest IH]; [apply respects_ret|].
  cbn [click_search]. apply respects_bind; [apply respects_engine_call; reflexivity|].
  intros text. destruct (str_in _ _); [apply respects_engine_call; reflexivity | exact IH].
Qed.

Ltac respects_leaf :=
  first [ apply respects_ret
        | apply respects_engine_call; reflexivity
        | apply respects_click_search ].

(** A frame is respected by the whole of the [try] block after
    [initialize], provided it holds across the raising of the flag after an
    extraction that returned records. *)
Lemma respects_on_page o d date :
  (forall st0 f fl st1,
      _extract_flights_from_dom E o d st0 = (Returned (f :: fl), st1) ->
      R st1 (with_success st1)) ->
  respects R (on_page E o d date).
Proof using HR.
  intros Hflag.
  assert (respects R (extract_and_flag E o d)) as Htail.
  { intros st. rewrite (extract_and_flag_run E).
    pose proof (respects_extract o d st) as Hex.
    destruct (_extract_flights_from_dom E o d st) as [[[|f fl]|e] st1] eqn:Hrun;
      cbn [snd] in *; try exact Hex.
    eapply (frame_trans R HR); [exact Hex | eapply Hflag; exact Hrun]. }
  unfold on_page, sleep.
  repeat first
    [ exact Htail
    | respects_leaf
    | match goal with
      | |- respects _ (if ?b then _ else _) => destruct b
      | |- respects _ (_ ≫= _) => apply respects_bind; [|intros ?]
      end ].
Qed.

End Frame.

(** ** The browser across a scraping attempt *)

Lemma same_handles_frame {W} : frame (same_handles (W:=W)).
Proof.
  split.
  - intros st. repeat split.
  - intros st1 st2 st3 (H1 & H2 & H3 & H4) (H1' & H2' & H3' & H4').
    repeat split; congruence.
  - intros st w c _. repeat split.
  - intros st fl. repeat split.
Qed.

Lemma page_calls_added_frame {W} : frame (page_calls_added (W:=W)).
Proof.
  split.
  - intros st. exists []. rewrite app_nil_r. split; [reflexivity | constructor].
  - intros st1 st2 st3 (t1 & H1 & Ha1) (t2 & H2 & Ha2).
    exists (t1 ++ t2). rewrite H2, H1, app_assoc. split; [reflexivity|].
    apply Forall_app. split; assumption.
  - intros st w c Hc. exists [c]. split; [reflexivity|]. repeat constructor. exact Hc.
  - intros st fl. exists []. cbn. rewrite app_nil_r. split; [reflexivity | constructor].
Qed.

Lemma frame_and {W} (R1 R2 : state W -> state W -> Prop) :
  frame R1 -> frame R2 -> frame (fun st st' => R1 st st' /\ R2 st st').
Proof.
  intros H1 H2. split.
  - intros st. split; [apply (frame_refl R1 H1) | apply (frame_refl R2 H2)].
  - intros st1 st2 st3 [Ha Hb] [Ha' Hb']. split;
      [eapply (frame_trans R1 H1) | eapply (frame_trans R2 H2)]; eassumption.
  - intros st w c Hc. split; [apply (frame_call R1 H1) | apply (frame_call R2 H2)];
      exact Hc.
  - intros st fl. split; [apply (frame_flights R1 H1) | apply (frame_flights R2 H2)].
Qed.

Section Browser.
Context {W : Type} (E : Engine W).
Implicit Types (st : state W) (o d date : str).

(** On the open page the handles are left alone and only calls on the page
    are made, whether the block returns or raises. *)
Lemma on_page_effect o d date st :
  same_handles st (on_page E o d date st).2
  /\ page_calls_added st (on_page E o d date st).2.
Proof.
  apply (respects_on_page E _ (frame_and _ _ same_handles_frame page_calls_added_frame)).
  intros st0 f fl st1 _. split.
  - repeat split.
  - exists []. cbn. rewrite app_nil_r. split; [reflexivity | constructor].
Qed.

Lemma initialize_succeeds st :
  (forall w, (playwright_start E w).1 = Returned tt) ->
  (forall w, (chromium_launch E w).1 = Returned tt) ->
  (forall w, (new_page E w).1 = Returned tt) ->
  exists st1,
    initialize E st = (Returned tt, st1)
    /\ trace st1 = trace st ++ [CStart; CLaunch; CNewPage]
    /\ playwright (self st1) = Some tt
    /\ browser (self st1) = true /\ page (self st1) = true.
Proof.
  intros Hs Hl Hp. unfold initialize.
  rewrite bind_run, engine_call_run, Hs. cbn [fst snd].
  rewrite bind_run. cbn [set_self].
  rewrite bind_run, engine_call_run. cbn [world]. rewrite Hl. cbn [fst snd].
  rewrite bind_run. cbn [set_self].
  rewrite bind_run, engine_call_run. cbn [world]. rewrite Hp. cbn [fst snd].
  cbn [set_self]. eexists. split; [reflexivity|].
  cbn [trace self playwright browser page]. rewrite <- !app_assoc. repeat split.
Qed.

Lemma close_succeeds st :
  playwright (self st) = Some tt -> browser (self st) = true -> page (self st) = true ->
  (forall w, (page_close E w).1 = Returned tt) ->
  (forall w, (browser_close E w).1 = Returned tt) ->
  (forall w, (playwright_stop E w).1 = Returned tt) ->
  exists st1,
    close E st = (Returned tt, st1)
    /\ trace st1 = trace st ++ [CPageClose; CBrowserClose; CStop]
    /\ self st1 = self st.
Proof.
  intros Hpw Hb Hp Hpc Hbc Hst. unfold close.
  rewrite bind_run. cbn [get_self]. rewrite Hp, Hb, Hpw.
  rewrite bind_run, engine_call_run, Hpc. cbn [fst snd].
  rewrite bind_run, engine_call_run. cbn [world]. rewrite Hbc. cbn [fst snd].
  rewrite engine_call_run. cbn [world]. rewrite Hst. cbn [fst snd].
  eexists. split; [reflexivity|]. cbn [trace self]. rewrite <- !app_assoc.
  split; reflexivity.
Qed.

End Browser.

(** X5: when the browser starts and the three closing calls do not raise, a
    scraping attempt opens the browser first and closes the page, the browser
    and the driver last, in that order, whether the work on the page returns
    or raises; in between it only makes calls on the page. *)
Theorem browser_released_on_every_path {W : Type} (E : Engine W)
    (o d date : str) (st : state W) :
  (forall w, (playwright_start E w).1 = Returned tt) ->
  (forall w, (chromium_launch E w).1 = Returned tt) ->
  (forall w, (new_page E w).1 = Returned tt) ->
  (forall w, (page_close E w).1 = Returned tt) ->
  (forall w, (browser_close E w).1 = Returned tt) ->
  (forall w, (playwright_stop E w).1 = Returned tt) ->
  exists mid,
    trace (_scrape_real_flights E o d date st).2
    = trace st ++ [CStart; CLaunch; CNewPage] ++ mid
      ++ [CPageClose; CBrowserClose; CStop]
    /\ Forall (fun c => page_call c = true) mid.
Proof.
  intros Hs Hl Hp Hpc Hbc Hst.
  rewrite _scrape_real_flights_on_page. unfold try_finally. rewrite bind_run.
  destruct (initialize_succeeds E st Hs Hl Hp) as (st1 & -> & Ht1 & Hpw & Hb & Hpg).
  pose proof (on_page_effect E o d date st1) as [(H1 & H2 & H3 & _) (mid & Ht2 & Hmid)].
  destruct (on_page E o d date st1) as [r st2]. cbn [snd] in *.
  destruct (close_succeeds E st2) as (st3 & -> & Ht3 & _); try congruence.
  exists mid. cbn [snd]. rewrite Ht3, Ht2, Ht1, <- !app_assoc. split; [reflexivity | exact Hmid].
Qed.

Lemma browser_released_on_every_path_witness :
  exists mid,
    trace (_scrape_real_flights flaky_engine (u "Chennai") (u "Mumbai") (u "2025-10-25")
             (start_state false)).2
    = [] ++ [CStart; CLaunch; CNewPage] ++ mid ++ [CPageClose; CBrowserClose; CStop]
    /\ Forall (fun c => page_call c = true) mid.
Proof.
  apply (browser_released_on_every_path flaky_engine (u "Chennai") (u "Mumbai")
           (u "2025-10-25") (start_state false)); reflexivity.
Defined.

(** X6: when the driver fails to start on a fresh scraper, the attribute
    [playwright] is never assigned, [close] raises [AttributeError] in the
    [finally] block, and this exception replaces the one of the driver; the
    only call made is the attempt to start. *)
Theorem start_failure_masked {W : Type} (E : Engine W)
    (o d date : str) (st : state W) (e : exn) :
  self st = __init__ (use_mock (self st)) ->
  (playwright_start E (world st)).1 = Raised e ->
  (_scrape_real_flights E o d date st).1 = Raised (Exn "AttributeError")
  /\ trace (_scrape_real_flights E o d date st).2 = trace st ++ [CStart].
Proof.
  intros Hfresh Hfail.
  rewrite _scrape_real_flights_on_page. unfold try_finally, initialize.
  rewrite !bind_run, engine_call_run, Hfail. cbn [fst snd].
  unfold close. rewrite bind_run. cbn [get_self self]. rewrite Hfresh.
  cbn. split; reflexivity.
Qed.

Lemma start_failure_masked_witness :
  (_scrape_real_flights dead_engine (u "Chennai") (u "Mumbai") (u "2025-10-25")
     (start_state false)).1 = Raised (Exn "AttributeError")
  /\ trace (_scrape_real_flights dead_engine (u "Chennai") (u "Mumbai") (u "2025-10-25")
              (start_state false)).2 = [] ++ [CStart].
Proof.
  apply (start_failure_masked dead_engine (u "Chennai") (u "Mumbai") (u "2025-10-25")
           (start_state false) (Exn "Error")); reflexivity.
Defined.

(** ** The flag [scrape_success] *)

Section Flag.
Context {W : Type} (E : Engine W).
Implicit Types (st : state W) (o d date : str).

Lemma initialize_self st :
  scrape_success (self (initialize E st).2) = scrape_success (self st)
  /\ use_mock (self (initialize E st).2) = use_mock (self st).
Proof.
  unfold initialize. rewrite bind_run, engine_call_run.
  destruct (playwright_start E (world st)) as [[[]|e] w1]; cbn [fst snd]; [|split; reflexivity].
  rewrite bind_run. cbn [set_self]. rewrite bind_run, engine_call_run. cbn [world].
  destruct (chromium_launch E w1) as [[[]|e] w2]; cbn [fst snd]; [|split; reflexivity].
  rewrite bind_run. cbn [set_self]. rewrite bind_run, engine_call_run. cbn [world].
  destruct (new_page E w2) as [[[]|e] w3]; cbn [fst snd]; split; reflexivity.
Qed.

Lemma close_self st : self (close E st).2 = self st.
Proof.
  unfold close. rewrite bind_run. cbn [get_self].
  destruct (page (self st)).
  - rewrite bind_run, engine_call_run.
    destruct (page_close E (world st)) as [[[]|e] w1]; cbn [fst snd]; [|reflexivity].
    destruct (browser (self st)).
    + rewrite bind_run, engine_call_run. cbn [world].
      destruct (browser_close E w1) as [[[]|e] w2]; cbn [fst snd]; [|reflexivity].
      destruct (playwright (self st)); [rewrite engine_call_run|]; reflexivity.
    + rewrite bind_run, ret_run.
      destruct (playwright (self st)); [rewrite engine_call_run|]; reflexivity.
  - rewrite bind_run, ret_run. destruct (browser (self st)).
    + rewrite bind_run, engine_call_run.
      destruct (browser_close E (world st)) as [[[]|e] w2]; cbn [fst snd]; [|reflexivity].
      destruct (playwright (self st)); [rewrite engine_call_run|]; reflexivity.
    + rewrite bind_run, ret_run.
      destruct (playwright (self st)); [rewrite engine_call_run|]; reflexivity.
Qed.

End Flag.

Lemma bind_assoc_run {W A B C} (m : M W A) (f : A -> M W B) (g : B -> M W C) st :
  ((m ≫= f) ≫= g) st = (m ≫= (fun a => f a ≫= g)) st.
Proof. rewrite !bind_run. destruct (m st) as [[a|e] st']; reflexivity. Qed.

Lemma bind_ext_run {W A B} (m : M W A) (f f' : A -> M W B) st :
  (forall a st', f a st' = f' a st') -> (m ≫= f) st = (m ≫= f') st.
Proof. intros H. rewrite !bind_run. destruct (m st) as [[a|e] st']; [apply H | reflexivity]. Qed.

Lemma same_self_frame {W} : frame (same_self (W:=W)).
Proof.
  split.
  - intros st. reflexivity.
  - intros st1 st2 st3 H1 H2. unfold same_self in *. congruence.
  - intros st w c _. reflexivity.
  - intros st fl. reflexivity.
Qed.

Section PageStepsFacts.
Context {W : Type} (E : Engine W).
Implicit Types (st : state W) (o d date : str).

(** The block on the page is its steps followed by the extraction. *)
Lemma on_page_steps o d date st :
  on_page E o d date st = (page_steps E o d date ;; extract_and_flag E o d) st.
Proof.
  unfold on_page, page_steps.
  repeat (rewrite bind_assoc_run; apply bind_ext_run; intros ? ?).
  reflexivity.
Qed.

Lemma respects_page_steps (R : state W -> state W -> Prop) o d date :
  frame R -> respects R (page_steps E o d date).
Proof.
  intros HR. unfold page_steps, sleep.
  repeat first
    [ apply (respects_ret R HR)
    | apply (respects_engine_call R HR); reflexivity
    | apply (respects_click_search E R HR)
    | match goal with
      | |- respects _ (if ?b then _ else _) => destruct b
      | |- respects _ (_ ≫= _) => apply (respects_bind R HR); [|intros ?]
      end ].
Qed.

(** The scraper object when the extraction starts is the one of the start
    with the handles of the browser filled in: the flags are as they were. *)
Lemma before_extraction_flags o d date st :
  scrape_success (self ((initialize E ;; page_steps E o d date) st).2)
  = scrape_success (self st).
Proof.
  rewrite bind_run. pose proof (initialize_self E st) as [Hi _].
  destruct (initialize E st) as [[[]|e] st1]; cbn [snd] in *; [|exact Hi].
  rewrite <- Hi. f_equal. apply (respects_page_steps same_self o d date same_self_frame).
Qed.

Lemma extract_and_flag_flag o d st :
  scrape_success (self (extract_and_flag E o d st).2)
  = match _extract_flights_from_dom E o d st with
    | (Returned (_ :: _), _) => true
    | _ => scrape_success (self st)
    end.
Proof.
  rewrite extract_and_flag_run.
  pose proof (respects_extract E same_self same_self_frame o d st) as Hs.
  unfold same_self in Hs.
  destruct (_extract_flights_from_dom E o d st) as [[[|f fl]|e] st1];
    cbn [snd] in *; [rewrite Hs; reflexivity | reflexivity | rewrite Hs; reflexivity].
Qed.

(** The flag after the scraping: raised exactly when the extraction was
    reached and returned records. *)
Lemma _scrape_real_flights_flag o d date st :
  scrape_success (self (_scrape_real_flights E o d date st).2)
  = match (initialize E ;; page_steps E o d date) st with
    | (Returned _, st0) =>
        match _extract_flights_from_dom E o d st0 with
        | (Returned (_ :: _), _) => true
        | _ => scrape_success (self st)
        end
    | (Raised _, _) => scrape_success (self st)
    end.
Proof.
  rewrite _scrape_real_flights_on_page. unfold try_finally.
  assert ((initialize E ;; on_page E o d date) st
          = match (initialize E ;; page_steps E o d date) st with
            | (Returned _, st0) => extract_and_flag E o d st0
            | (Raised e, st0) => (Raised e, st0)
            end) as ->.
  { rewrite !bind_run. destruct (initialize E st) as [[[]|e] st1]; [|reflexivity].
    rewrite on_page_steps, bind_run. reflexivity. }
  pose proof (before_extraction_flags o d date st) as Hpre.
  destruct ((initialize E ;; page_steps E o d date) st) as [[[]|e] st0]; cbn [snd] in Hpre.
  - pose proof (extract_and_flag_flag o d st0) as Hx.
    destruct (extract_and_flag E o d st0) as [r st1]. cbn [snd] in Hx.
    pose proof (close_self E st1) as Hc.
    destruct (close E st1) as [[[]|e] st2]; cbn [snd] in *; rewrite Hc, Hx;
      destruct (_extract_flights_from_dom E o d st0) as [[[|f fl]|e'] st3];
      congruence.
  - pose proof (close_self E st0) as Hc.
    destruct (close E st0) as [[[]|e'] st2]; cbn [snd] in *; rewrite Hc; exact Hpre.
Qed.

Lemma search_flights_self o d date st :
  self (search_flights E o d date st).2
  = if use_mock (self st) then self st
    else self (_scrape_real_flights E o d date st).2.
Proof.
  rewrite search_flights_run. destruct (use_mock (self st)).
  - rewrite _get_mock_flights_run. reflexivity.
  - destruct (_scrape_real_flights E o d date st) as [[[|f fl]|e] st1];
      rewrite ?_get_mock_flights_run; reflexivity.
Qed.

End PageStepsFacts.

(** X7: the flag [scrape_success].  On a scraper whose flag is down, the
    flag is raised after a search exactly when this search reached its
    extraction, that is, the scraper is not in mock mode and [initialize]
    and the steps on the page returned, and the extraction, run from the
    state they left, returned records.  When the scraping returns a list
    that is not empty the flag is raised, and a search that leaves the flag
    down returned the mock lookup. *)
Theorem scrape_success_tracks_extraction {W : Type} (E : Engine W)
    (o d date : str) (st : state W) :
  scrape_success (self st) = false ->
  (scrape_success (self (search_flights E o d date st).2) = true
   <-> exists st0 f fl st1,
         reaches_extraction E o d date st st0
         /\ _extract_flights_from_dom E o d st0 = (Returned (f :: fl), st1))
  /\ (forall f fl,
        (_scrape_real_flights E o d date st).1 = Returned (f :: fl) ->
        scrape_success (self (_scrape_real_flights E o d date st).2) = true)
  /\ (scrape_success (self (search_flights E o d date st).2) = false ->
      exists st1, search_flights E o d date st = _get_mock_flights E o d st1).
Proof.
  intros Hdown.
  pose proof (_scrape_real_flights_flag E o d date st) as Hflag.
  pose proof (search_flights_self E o d date st) as Hself.
  assert (forall f fl,
            (_scrape_real_flights E o d date st).1 = Returned (f :: fl) ->
            scrape_success (self (_scrape_real_flights E o d date st).2) = true) as Hret.
  { intros f fl Hr. rewrite Hflag. clear Hflag Hself.
    rewrite _scrape_real_flights_on_page in Hr. unfold try_finally in Hr.
    rewrite bind_run in Hr. rewrite bind_run.
    destruct (initialize E st) as [[[]|e] st1].
    - rewrite on_page_steps, bind_run in Hr.
      destruct (page_steps E o d date st1) as [[[]|e] st0].
      + rewrite extract_and_flag_run in Hr.
        destruct (_extract_flights_from_dom E o d st0) as [[[|f0 fl0]|e] st2];
          [|reflexivity|]; destruct (close E _) as [[[]|e'] st3]; discriminate.
      + destruct (close E st0) as [[[]|e'] st3]; discriminate.
    - destruct (close E st1) as [[[]|e'] st3]; discriminate. }
  split; [|split; [exact Hret|]].
  - unfold reaches_extraction. rewrite Hself. destruct (use_mock (self st)).
    + split; [congruence|]. intros (st0 & f & fl & st1 & [Hm _] & _). discriminate.
    + rewrite Hflag.
      destruct ((initialize E ;; page_steps E o d date) st) as [[[]|e] st0].
      * destruct (_extract_flights_from_dom E o d st0) as [[[|f fl]|e] st1] eqn:Hx.
        -- split; [congruence|]. intros (st0' & f & fl & st1' & [_ [= <-]] & Hx').
           rewrite Hx in Hx'. discriminate.
        -- split; [|reflexivity]. intros _. exists st0, f, fl, st1. repeat split. exact Hx.
        -- split; [congruence|]. intros (st0' & f & fl & st1' & [_ [= <-]] & Hx').
           rewrite Hx in Hx'. discriminate.
      * split; [congruence|]. intros (st0' & f & fl & st1' & [_ Hr] & _). discriminate.
  - rewrite Hself. rewrite search_flights_run. destruct (use_mock (self st)).
    + intros _. exists st. reflexivity.
    + destruct (_scrape_real_flights E o d date st) as [[[|f fl]|e] st1] eqn:Hrun.
      * intros _. exists st1. reflexivity.
      * intros Hd. cbn [fst snd] in Hret, Hd. rewrite (Hret f fl eq_refl) in Hd. discriminate.
      * intros _. exists st1. reflexivity.
Qed.

Lemma scrape_success_tracks_extraction_witness :
  scrape_success (self (search_flights banner_engine (u "Chennai") (u "Mumbai")
                          (u "2025-10-25") (start_state false)).2) = true
  /\ exists st0 f fl st1,
       reaches_extraction banner_engine (u "Chennai") (u "Mumbai") (u "2025-10-25")
         (start_state false) st0
       /\ _extract_flights_from_dom banner_engine (u "Chennai") (u "Mumbai") st0
          = (Returned (f :: fl), st1).
Proof.
  assert (scrape_success (self (search_flights banner_engine (u "Chennai") (u "Mumbai")
                                  (u "2025-10-25") (start_state false)).2) = true) as Hup
    by (vm_compute; reflexivity).
  split; [exact Hup|].
  pose proof (scrape_success_tracks_extraction banner_engine (u "Chennai")
                (u "Mumbai") (u "2025-10-25") (start_state false) eq_refl)
    as [Hiff _].
  exact (proj1 Hiff Hup).
Defined.

(** ** What every scraped record looks like *)

Lemma build_flight_well_formed o d ts text :
  real_data_text text = true -> well_formed o d ts (build_flight o d ts text).
Proof.
  intros Hreal. split; cbn [build_flight origin destination searchdatetime airline
                            flight_number departure arrival price].
  - reflexivity.
  - reflexivity.
  - reflexivity.
  - pose proof (first_airline_spec text airlines airlines_aligned)
      as [(i & name & Hi & Hres & _)|[Hres _]].
    + left. unfold _extract_airline. rewrite Hres.
      eapply list_elem_of_lookup_2. exact Hi.
    + right. exact Hres.
  - apply _extract_flight_number_shape.
  - rewrite _extract_departure_spec.
    pose proof (time_occurrences_shape text 0) as Hshape.
    fold (time_occurrences text) in Hshape.
    destruct (time_occurrences text) as [|o1 rest]; [left; reflexivity|].
    right. apply Hshape. left.
  - rewrite _extract_arrival_spec.
    pose proof (time_occurrences_shape text 0) as Hshape.
    fold (time_occurrences text) in Hshape.
    destruct (time_occurrences text) as [|o1 [|o2 rest]]; [left; reflexivity.. |].
    right. apply Hshape. right. left.
  - apply _extract_price_shape.
  - apply (has_real_data_retained (build_flight o d ts text)).
    rewrite has_real_data_build. exact Hreal.
Qed.

Section Records.
Context {W : Type} (E : Engine W) (o d ts : str).
Implicit Types (st : state W).

(** The element loop appends at most one record for each element, each of
    them well formed, whatever the engine answers. *)
Lemma for_elems_records elems : forall st,
  exists extra,
    flights_var (for_elems E o d ts elems st).2 = flights_var st ++ extra
    /\ Forall (well_formed o d ts) extra
    /\ length extra <= length elems.
Proof.
  induction elems as [|e rest IH]; intros st.
  - exists []. cbn. rewrite app_nil_r. repeat split; [constructor | lia].
  - rewrite for_elems_cons.
    destruct (elem_inner_text E e (world st)) as [[text|x] w].
    + match goal with |- context [for_elems E o d ts rest ?s] =>
        destruct (IH s) as (extra & Hf & Hall & Hlen) end.
      cbn [flights_var] in Hf.
      exists ((if real_data_text text then [build_flight o d ts text] else []) ++ extra).
      rewrite Hf, app_assoc. split; [reflexivity|]. split.
      * apply Forall_app. split; [|exact Hall].
        destruct (real_data_text text) eqn:Ht; [|constructor].
        constructor; [|constructor]. apply build_flight_well_formed. exact Ht.
      * rewrite length_app. destruct (real_data_text text); simpl; lia.
    + exists []. cbn. rewrite app_nil_r. repeat split; [constructor | lia].
Qed.

Lemma selector_turn_records sel st :
  exists extra,
    flights_var (selector_turn E o d ts sel st).2 = flights_var st ++ extra
    /\ Forall (well_formed o d ts) extra
    /\ length extra <= 15.
Proof.
  unfold selector_turn, try_except. rewrite try_selector_run.
  destruct (locator_all E sel (world st)) as [[elements|x] w].
  - cbv zeta. destruct (nonempty elements).
    + match goal with |- context [for_elems E o d ts ?l ?s] =>
        destruct (for_elems_records l s) as (extra & Hf & Hall & Hlen);
        destruct (for_elems E o d ts l s) as [[[]|x] st2] end;
        cbn [fst snd flights_var] in *; exists extra;
        (split; [exact Hf|]); (split; [exact Hall|]);
        rewrite length_take in Hlen; lia.
    + exists []. cbn. rewrite app_nil_r. repeat split; [constructor | lia].
  - exists []. cbn. rewrite app_nil_r. repeat split; [constructor | lia].
Qed.

(** The selector loop returns well-formed records, at most 15 for each
    selector it has queried on top of those already in the list. *)
Lemma for_selectors_records sels : forall st,
  Forall (well_formed o d ts) (flights_var st) ->
  exists n fl st',
    for_selectors E o d ts sels st = (Returned fl, st')
    /\ queries (trace st') = queries (trace st) ++ take n sels
    /\ n <= length sels
    /\ Forall (well_formed o d ts) fl
    /\ length fl <= length (flights_var st) + 15 * n.
Proof.
  induction sels as [|sel rest IH]; intros st Hinv.
  - exists 0, [], st. cbn [for_selectors take length]. rewrite app_nil_r.
    repeat split; auto; simpl; lia.
  - rewrite for_selectors_cons.
    destruct (selector_turn_effect E o d ts sel st)
      as (r & st1 & Hrun & Hq & _ & _ & Hret).
    destruct (selector_turn_records sel st) as (extra & Hf & Hall & Hlen).
    rewrite Hrun in Hf |- *. cbn [snd] in Hf.
    assert (Forall (well_formed o d ts) (flights_var st1)) as Hinv1
      by (rewrite Hf; apply Forall_app; split; assumption).
    destruct r as [fl|].
    + destruct (Hret fl eq_refl) as [-> _].
      exists 1, (flights_var st1), st1. cbn [take length]. rewrite take_0.
      repeat split; auto; try lia.
      rewrite Hf, length_app. lia.
    + destruct (IH st1 Hinv1) as (n & fl & st' & Hrun' & Hq' & Hn & Hfl & Hlen').
      exists (S n), fl, st'. split; [exact Hrun'|].
      rewrite Hq', Hq, <- app_assoc. cbn [take length app].
      repeat split; auto; try lia.
      rewrite Hf, length_app in Hlen'. lia.
Qed.

End Records.

(** X8: every record that the extraction returns is well formed: it carries
    the origin and the destination of the query and the one timestamp read at
    the start of the extraction, its airline is one of the six carriers or
    the sentinel, its flight number, times and price are the sentinel or
    have the shape of their pattern, and its departure or its price is not
    the sentinel.  This holds for every engine, also when queries or text
    reads raise. *)
Theorem extracted_records_well_formed {W : Type} (E : Engine W)
    (o d : str) (st : state W) :
  exists flights st',
    _extract_flights_from_dom E o d st = (Returned flights, st')
    /\ Forall (well_formed o d (timestamp_at E st)) flights.
Proof.
  rewrite _extract_flights_from_dom_run.
  match goal with |- context [for_selectors E o d ?ts selectors ?s] =>
    destruct (for_selectors_records E o d ts selectors s)
      as (n & fl & st' & Hrun & _ & _ & Hall & _); [constructor|] end.
  exists fl, st'. split; assumption.
Qed.

(** The selectors split at the first one, if any, that yields a text with
    real data. *)
Lemma split_at_first_productive (page : str -> list elem) (text_of : elem -> str)
    (sels : list str) :
  exists pre post,
    sels = pre ++ post
    /\ (forall s, s ∈ pre ->
          Forall (fun t => real_data_text t = false) (texts_of page text_of s))
    /\ match post with
       | [] => True
       | sel :: _ =>
           Exists (fun t => real_data_text t = true) (texts_of page text_of sel)
       end.
Proof.
  induction sels as [|s sels (pre & post & -> & Hpre & Hpost)].
  - exists [], []. repeat split. intros s Hs. apply elem_of_nil in Hs. contradiction.
  - destruct (existsb real_data_text (texts_of page text_of s)) eqn:Hex.
    + exists [], (s :: pre ++ post). repeat split.
      * intros s' Hs'. apply elem_of_nil in Hs'. contradiction.
      * apply existsb_exists in Hex as (t & Hin & Ht).
        apply Exists_exists. exists t. split; [apply list_elem_of_In; exact Hin | exact Ht].
    + exists (s :: pre), post. repeat split; [|exact Hpost].
      intros s' [->|Hs']%elem_of_cons; [|apply Hpre; exact Hs'].
      apply Forall_forall. intros t Hin.
      destruct (real_data_text t) eqn:Ht; [|reflexivity].
      assert (existsb real_data_text (texts_of page text_of s) = true) as Hyes
        by (apply existsb_exists; exists t; split; [apply list_elem_of_In; exact Hin | exact Ht]).
      congruence.
Qed.

Lemma assemble_length o d ts texts : length (assemble o d ts texts) <= length texts.
Proof.
  unfold assemble. rewrite length_fmap. apply length_filter.
Qed.

Lemma texts_of_length page text_of sel : length (texts_of page text_of sel) <= 15.
Proof. unfold texts_of. rewrite length_fmap, length_take. lia. Qed.

(** X9: the extraction returns at most 15 records for each selector it has
    queried, hence at most 75; on a page whose queries and text reads
    succeed it returns at most 15. *)
Theorem extraction_size_bounded {W : Type} (E : Engine W) (o d : str) (st : state W) :
  (exists n flights st',
      _extract_flights_from_dom E o d st = (Returned flights, st')
      /\ queries (trace st') = queries (trace st) ++ take n selectors
      /\ n <= 5
      /\ length flights <= 15 * n)
  /\ forall (page : str -> list elem) (text_of : elem -> str),
      (forall s w, (locator_all E s w).1 = Returned (page s)) ->
      (forall e w, (elem_inner_text E e w).1 = Returned (text_of e)) ->
      exists flights st',
        _extract_flights_from_dom E o d st = (Returned flights, st')
        /\ length flights <= 15.
Proof.
  split.
  - rewrite _extract_flights_from_dom_run.
    match goal with |- context [for_selectors E o d ?ts selectors ?s] =>
      destruct (for_selectors_records E o d ts selectors s)
        as (n & fl & st' & Hrun & Hq & Hn & _ & Hlen); [constructor|] end.
    exists n, fl, st'. split; [exact Hrun|].
    cbn [trace flights_var length] in Hq, Hlen. rewrite queries_app in Hq. cbn in Hq.
    rewrite app_nil_r in Hq. change (length selectors) with 5 in Hn.
    repeat split; auto.
  - intros page text_of Hpage Htext.
    destruct (split_at_first_productive page text_of selectors)
      as (pre & post & Hsplit & Hpre & Hpost).
    rewrite _extract_flights_from_dom_run, Hsplit.
    match goal with |- context [for_selectors E o d ?ts (pre ++ post) ?s] =>
      destruct (for_selectors_static E page text_of Hpage Htext o d ts pre post s
                  eq_refl Hpre Hpost) as (st' & Hrun & _) end.
    eexists _, st'. split; [exact Hrun|].
    destruct post as [|sel post]; [simpl; lia|].
    etransitivity; [apply assemble_length | apply texts_of_length].
Qed.

Lemma extraction_size_bounded_witness :
  exists flights st',
    _extract_flights_from_dom banner_engine (u "Chennai") (u "Mumbai") (start_state false)
    = (Returned flights, st')
    /\ length flights <= 15.
Proof.
  apply (proj2 (extraction_size_bounded banner_engine (u "Chennai") (u "Mumbai")
                  (start_state false)) banner_page banner_text); reflexivity.
Defined.

(** ** What every search result carries *)

(** X10: with the exceptions of the model, which are instances of
    [Exception], every search returns a list in which each record carries
    the origin and the destination of the query and one timestamp, the same
    for all the records, whether they were scraped or come from the mock
    catalogue. *)
Theorem search_results_carry_query {W : Type} (E : Engine W)
    (o d date : str) (st : state W) :
  exists flights st' ts,
    search_flights E o d date st = (Returned flights, st')
    /\ Forall (stamped o d ts) flights.
Proof.
  assert (forall st1, exists flights st' ts,
            _get_mock_flights E o d st1 = (Returned flights, st')
            /\ Forall (stamped o d ts) flights) as Hmock.
  { intros st1. rewrite _get_mock_flights_run. eexists _, _, (timestamp_at E st1).
    split; [reflexivity|]. apply Forall_fmap, Forall_forall.
    intros t _. repeat split. }
  rewrite search_flights_run.
  destruct (use_mock (self st)); [apply Hmock|].
  pose proof (_scrape_real_flights_post E
                (fun r => match r with
                          | Returned fl => exists ts, Forall (stamped o d ts) fl
                          | Raised _ => True
                          end) o d date st) as Hscrape.
  destruct (_scrape_real_flights E o d date st) as [[[|f fl]|e] st1];
    [apply Hmock | | apply Hmock].
  cbn [fst] in Hscrape. destruct Hscrape as [ts Hts].
  - intros e. exact I.
  - exists []. constructor.
  - intros st0. rewrite _extract_flights_from_dom_run.
    match goal with |- context [for_selectors E o d ?ts selectors ?s] =>
      destruct (for_selectors_records E o d ts selectors s)
        as (n & fl' & st' & -> & _ & _ & Hall & _); [constructor|] end.
    cbn [fst]. eexists. eapply Forall_impl; [exact Hall|].
    intros f' [Ho Hd Ht _ _ _ _ _ _]. repeat split; eassumption.
  - exists (f :: fl), st1, ts. split; [reflexivity | exact Hts].
Qed.

(** ** The click on the search button *)

Section Click.
Context {W : Type} (E : Engine W).
Implicit Types (st : state W).

Lemma click_search_cons btn rest st :
  click_search E (btn :: rest) st =
    match elem_inner_text E btn (world st) with
    | (Returned text, w) =>
        let st1 := State w (self st) (trace st ++ [CInnerText btn]) (flights_var st) in
        if str_in (u "search") (lower text)
        then engine_call (CClick btn) (elem_click E btn) st1
        else click_search E rest st1
    | (Raised x, w) =>
        (Raised x, State w (self st) (trace st ++ [CInnerText btn]) (flights_var st))
    end.
Proof.
  cbn [click_search]. rewrite bind_run, engine_call_run.
  destruct (elem_inner_text E btn (world st)) as [[text|x] w]; [|reflexivity].
  cbn [fst snd]. cbv zeta. destruct (str_in (u "search") (lower text)); reflexivity.
Qed.

End Click.

(** X11: the loop over the buttons reads them in order up to the first one
    whose text holds "search" in any case, clicks that one and stops: at
    most one click is made, the buttons after it are not read, and without
    such a button nothing is clicked and the loop returns. *)
Theorem click_search_first_match {W : Type} (E : Engine W)
    (text_of : elem -> str) (pre post : list elem) (st : state W) :
  (forall e w, (elem_inner_text E e w).1 = Returned (text_of e)) ->
  (forall b, b ∈ pre -> ~ occurs_nocase (u "search") (text_of b)) ->
  match post with
  | [] => True
  | b :: _ => occurs_nocase (u "search") (text_of b)
  end ->
  trace (click_search E (pre ++ post) st).2
  = trace st ++ (CInnerText <$> pre)
      ++ match post with
         | [] => []
         | b :: _ => [CInnerText b; CClick b]
         end
  /\ (post = [] -> (click_search E (pre ++ post) st).1 = Returned tt).
Proof.
  intros Htext. revert st.
  assert (forall t, str_in (u "search") (lower t) = true <-> occurs_nocase (u "search") t)
    as Hiff by (intros t; apply (str_in_lower_iff (u "search")); reflexivity).
  induction pre as [|b pre IH]; intros st Hpre Hpost.
  - cbn [app fmap list_fmap]. destruct post as [|b post].
    + cbn. rewrite app_nil_r. split; reflexivity.
    + rewrite click_search_cons. pose proof (Htext b (world st)) as Hb.
      destruct (elem_inner_text E b (world st)) as [r w]. cbn in Hb. subst r.
      cbv zeta. apply Hiff in Hpost. rewrite Hpost, engine_call_run.
      cbn [snd trace]. rewrite <- app_assoc. split; [reflexivity | discriminate].
  - cbn [app]. rewrite click_search_cons. pose proof (Htext b (world st)) as Hb.
    destruct (elem_inner_text E b (world st)) as [r w]. cbn in Hb. subst r.
    cbv zeta.
    destruct (str_in (u "search") (lower (text_of b))) eqn:Hin.
    + exfalso. apply (Hpre b); [left | apply Hiff; exact Hin].
    + match goal with |- context [click_search E (pre ++ post) ?s] =>
        destruct (IH s) as [Ht Hr] end.
      * intros b' Hb'. apply Hpre. right. exact Hb'.
      * exact Hpost.
      * split; [|exact Hr]. rewrite Ht. cbn [trace]. rewrite fmap_cons, <- !app_assoc.
        reflexivity.
Qed.

Lemma click_search_first_match_witness :
  trace (click_search button_engine [0; 1; 2] (start_state false)).2
  = [] ++ (CInnerText <$> [0]) ++ [CInnerText 1; CClick 1].
Proof.
  apply (click_search_first_match button_engine button_text [0] [1; 2]
           (start_state false)).
  - reflexivity.
  - intros b Hb Hocc. apply list_elem_of_singleton in Hb as ->.
    assert (str_in (u "search") (lower (button_text 0)) = true) as Hyes
      by (apply (str_in_lower_iff (u "search")); [reflexivity | exact Hocc]).
    vm_compute in Hyes. discriminate.
  - apply (str_in_lower_iff (u "search")); [reflexivity | vm_compute; reflexivity].
Defined.

(** ** The two HTTP wrappers *)

Lemma search_flights_returns {W : Type} (E : Engine W) (o d date : str) (st : state W) :
  exists flights st', search_flights E o d date st = (Returned flights, st').
Proof.
  rewrite search_flights_run.
  destruct (use_mock (self st)).
  - rewrite _get_mock_flights_run. eauto.
  - destruct (_scrape_real_flights E o d date st) as [[[|f fl]|x] st1];
      rewrite ?_get_mock_flights_run; eauto.
Qed.

(** For the pair of the catalogue the search always has flights to return. *)
Lemma search_flights_bangalore_delhi {W : Type} (E : Engine W) (date : str)
    (st : state W) :
  exists f fl st',
    search_flights E (u "Bangalore") (u "Delhi") date st = (Returned (f :: fl), st').
Proof.
  rewrite search_flights_run.
  destruct (use_mock (self st)).
  - rewrite _get_mock_flights_run. eexists _, _, _. reflexivity.
  - destruct (_scrape_real_flights E _ _ date st) as [[[|f fl]|x] st1];
      rewrite ?_get_mock_flights_run; eexists _, _, _; reflexivity.
Qed.

(** X12: the endpoint of [flight_search_api.py], when its search returns.
    On the empty list it raises with status 500: the 404 that it raises
    inside its [try] block is caught by its own [except Exception] clause,
    and the detail of the 500 quotes it.  On a list that is not empty it
    answers with that list, or raises with status 500 when the response
    cannot be built.  In no case does it raise with status 404. *)
Theorem api_empty_result_is_500 {W : Type} (E : Engine W) (exc_str : raised -> str)
    (render_error : list flight -> option exn) (o d date : str) (w : W) :
  (forall st',
      search_flights E o d date (State w (__init__ false) [] []) = (Returned [], st') ->
      (flight_search_api.flight_search E exc_str render_error o d date w).1
      = Raise (HTTPException 500
                 (u "Error during flight search: "
                  ++ exc_str (HTTPException 404 (u "No flights found")))))
  /\ (forall f fl st',
        search_flights E o d date (State w (__init__ false) [] [])
        = (Returned (f :: fl), st') ->
        (flight_search_api.flight_search E exc_str render_error o d date w).1
        = match render_error (f :: fl) with
          | None => Answer (f :: fl)
          | Some e =>
              Raise (HTTPException 500
                       (u "Error during flight search: " ++ exc_str (Unhandled e)))
          end)
  /\ status_of (flight_search_api.flight_search E exc_str render_error o d date w).1
     <> Some 404.
Proof.
  unfold flight_search_api.flight_search, flight_search_api.flight_search_try.
  cbv zeta. split; [|split].
  - intros st' ->. reflexivity.
  - intros f fl st' ->. cbn [nonempty negb].
    destruct (render_error (f :: fl)); reflexivity.
  - destruct (search_flights E o d date _) as [[[|f fl]|e] st']; cbn [nonempty negb];
      [discriminate | | discriminate].
    destruct (render_error (f :: fl)); discriminate.
Qed.

Lemma api_empty_result_is_500_witness :
  (flight_search_api.flight_search empty_engine (fun _ => u "404: No flights found")
     (fun _ => None) (u "Chennai") (u "Mumbai") (u "2025-10-25") tt).1
  = Raise (HTTPException 500
             (u "Error during flight search: " ++ u "404: No flights found")).
Proof.
  pose proof (api_empty_result_is_500 empty_engine (fun _ => u "404: No flights found")
                (fun _ => None) (u "Chennai") (u "Mumbai") (u "2025-10-25") tt)
    as [Hempty _].
  eapply Hempty. vm_compute. reflexivity.
Defined.

(** X13: for the pair (Bangalore, Delhi) the endpoint of
    [flight_search_api.py] answers with a list that is not empty whatever
    the calls to the browser return and whatever instances of [Exception]
    they raise, provided the response can be encoded: the mock catalogue
    stands behind every such failure of the browser. *)
Theorem api_bangalore_delhi_always_answers {W : Type} (E : Engine W)
    (exc_str : raised -> str) (render_error : list flight -> option exn)
    (date : str) (w : W) :
  (forall flights, render_error flights = None) ->
  exists f fl,
    (flight_search_api.flight_search E exc_str render_error
       (u "Bangalore") (u "Delhi") date w).1
    = Answer (f :: fl).
Proof.
  intros Hrender.
  unfold flight_search_api.flight_search, flight_search_api.flight_search_try.
  destruct (search_flights_bangalore_delhi E date (State w (__init__ false) [] []))
    as (f & fl & st' & ->).
  exists f, fl. cbn [nonempty negb]. rewrite Hrender. reflexivity.
Qed.

Lemma api_bangalore_delhi_always_answers_witness :
  exists f fl,
    (flight_search_api.flight_search flaky_engine (fun _ => []) (fun _ => None)
       (u "Bangalore") (u "Delhi") (u "2025-10-25") tt).1
    = Answer (f :: fl).
Proof.
  apply (api_bangalore_delhi_always_answers flaky_engine (fun _ => []) (fun _ => None)
           (u "2025-10-25") tt).
  reflexivity.
Defined.

(** X14: the endpoint of [test_fastapi.py] raises with status 400, without
    creating a scraper, when a parameter is empty or the date does not
    parse; otherwise it answers with the result of the search, empty or not,
    and never raises. *)
Theorem test_api_validates_then_answers {W : Type} (E : Engine W)
    (exc_str : raised -> str) (strptime_ok : str -> bool) (o d date : str) (w : W) :
  if test_fastapi.is_empty o || test_fastapi.is_empty d || test_fastapi.is_empty date
     || negb (strptime_ok date)
  then
    status_of (test_fastapi.flight_search E exc_str strptime_ok o d date w).1 = Some 400
    /\ (test_fastapi.flight_search E exc_str strptime_ok o d date w).2 = None
  else
    exists flights st',
      search_flights E o d date (State w (__init__ false) [] []) = (Returned flights, st')
      /\ test_fastapi.flight_search E exc_str strptime_ok o d date w
         = (Answer flights, Some st').
Proof.
  unfold test_fastapi.flight_search, test_fastapi.flight_search_try.
  destruct (test_fastapi.is_empty o || test_fastapi.is_empty d
            || test_fastapi.is_empty date) eqn:Hempty; cbn [orb].
  - split; reflexivity.
  - destruct (strptime_ok date); cbn [negb].
    + destruct (search_flights_returns E o d date (State w (__init__ false) [] []))
        as (flights & st' & Hrun).
      exists flights, st'. split; [exact Hrun|]. cbv zeta. rewrite Hrun. reflexivity.
    + split; reflexivity.
Qed.

(** X15: the endpoint [/test-flight-search] of [test_fastapi.py], which
    searches (Bangalore, Delhi) on a fixed date, answers with a list that is
    not empty whatever the calls to the browser return and whatever
    instances of [Exception] they raise, as long as the fixed date
    parses. *)
Theorem test_endpoint_always_answers {W : Type} (E : Engine W)
    (exc_str : raised -> str) (strptime_ok : str -> bool) (w : W) :
  strptime_ok (u "2025-10-25") = true ->
  exists f fl st',
    test_fastapi.test_flight_search E exc_str strptime_ok w = (Answer (f :: fl), Some st').
Proof.
  intros Hok.
  unfold test_fastapi.test_flight_search, test_fastapi.flight_search,
    test_fastapi.flight_search_try.
  cbn [test_fastapi.is_empty nonempty negb orb u]. rewrite Hok. cbn [negb]. cbv zeta.
  destruct (search_flights_bangalore_delhi E (u "2025-10-25")
              (State w (__init__ false) [] [])) as (f & fl & st' & ->).
  exists f, fl, st'. reflexivity.
Qed.

Lemma test_endpoint_always_answers_witness :
  exists f fl st',
    test_fastapi.test_flight_search flaky_engine (fun _ => []) (fun _ => true) tt
    = (Answer (f :: fl), Some st').
Proof.
  apply (test_endpoint_always_answers flaky_engine (fun _ => []) (fun _ => true) tt).
  reflexivity.
Defined.

(** X16: on a pair without mock entry, when the selectors find no element, the
    two wrappers disagree: the endpoint of [flight_search_api.py] raises with
    status 500 and the endpoint of [test_fastapi.py], given a valid request,
    answers with the empty list. *)
Theorem wrappers_disagree_on_empty_result {W : Type} (E : Engine W)
    (exc_str : raised -> str) (render_error : list flight -> option exn)
    (strptime_ok : str -> bool) (o d date : str) (w : W) :
  (forall s w', s ∈ selectors -> (locator_all E s w').1 = Returned []) ->
  (o, d) <> (u "Bangalore", u "Delhi") ->
  o <> [] -> d <> [] -> date <> [] -> strptime_ok date = true ->
  status_of (flight_search_api.flight_search E exc_str render_error o d date w).1
  = Some 500
  /\ (test_fastapi.flight_search E exc_str strptime_ok o d date w).1 = Answer [].
Proof.
  intros Hzero Hpair Ho Hd Hdate Hok.
  assert (exists st', search_flights E o d date (State w (__init__ false) [] [])
                      = (Returned [], st')) as [st' Hrun].
  { rewrite search_flights_run. cbn [self use_mock __init__].
    assert (forall st1, exists st', _get_mock_flights E o d st1 = (Returned [], st'))
      as Hmock.
    { intros st1. rewrite _get_mock_flights_run. unfold MOCK_FLIGHTS.
      rewrite lookup_singleton_ne by congruence. eexists. reflexivity. }
    pose proof (_scrape_real_flights_post E
                  (fun r => r = Returned [] \/ exists e, r = Raised e)
                  o d date (State w (__init__ false) [] [])) as Hscrape.
    destruct Hscrape as [Hnil|[e He]].
    - intros e. right. eauto.
    - left. reflexivity.
    - intros st0. rewrite _extract_flights_from_dom_run.
      match goal with |- context [for_selectors E ?o ?d ?ts selectors ?s] =>
        destruct (for_selectors_no_candidate E o d ts selectors s Hzero) as [st2 ->] end.
      left. reflexivity.
    - destruct (_scrape_real_flights E _ _ _ _) as [r st1]. cbn in Hnil. subst r.
      apply Hmock.
    - destruct (_scrape_real_flights E _ _ _ _) as [r st1]. cbn in He. subst r.
      apply Hmock. }
  split.
  - unfold flight_search_api.flight_search, flight_search_api.flight_search_try.
    cbv zeta. rewrite Hrun. reflexivity.
  - unfold test_fastapi.flight_search, test_fastapi.flight_search_try,
      test_fastapi.is_empty.
    destruct o; [contradiction|]. destruct d; [contradiction|].
    destruct date; [contradiction|]. cbn [nonempty negb orb]. rewrite Hok.
    cbn [negb]. cbv zeta. rewrite Hrun. reflexivity.
Qed.

Lemma wrappers_disagree_on_empty_result_witness :
  status_of (flight_search_api.flight_search empty_engine (fun _ => []) (fun _ => None)
               (u "Chennai") (u "Mumbai") (u "2025-10-25") tt).1 = Some 500
  /\ (test_fastapi.flight_search empty_engine (fun _ => []) (fun _ => true)
        (u "Chennai") (u "Mumbai") (u "2025-10-25") tt).1 = Answer [].
Proof.
  apply (wrappers_disagree_on_empty_result empty_engine (fun _ => []) (fun _ => None)
           (fun _ => true) (u "Chennai") (u "Mumbai") (u "2025-10-25") tt);
    try discriminate; reflexivity.
Defined.
